(** * Patent query optimizer: a shallow embedding of
      [simplified_patent_search.py] and [run_patent_search.py]

    The two Python modules are embedded function by function.  Python
    [str] values are sequences of Unicode code points; dictionaries are
    insertion-ordered association lists; the collaborators (search
    provider, chat model, clock, disk) are an environment the program
    consults; exceptions are an explicit result type threaded through a
    state monad over the process state. *)

From Stdlib Require Import List NArith ZArith Bool Lia String Ascii.
Import ListNotations.

Set Warnings "-register-all".

(* ================================================================== *)
(** * Python strings *)
(* ================================================================== *)

Module PyStr.

Local Open Scope N_scope.

(** A character is a Unicode code point, a [str] a sequence of them. *)
Definition char := N.
Definition str := list char.

Definition char_eqb : char -> char -> bool := N.eqb.

Fixpoint eqb (s t : str) : bool :=
  match s, t with
  | [], [] => true
  | c :: s', d :: t' => char_eqb c d && eqb s' t'
  | _, _ => false
  end.

(** Source literals are written as UTF-8 text and decoded to code points. *)
Fixpoint utf8_decode (bs : list N) : str :=
  match bs with
  | [] => []
  | b :: r =>
      if b <? 128 then b :: utf8_decode r
      else if b <? 224 then
        match r with
        | b1 :: r1 => ((b - 192) * 64 + (b1 - 128)) :: utf8_decode r1
        | [] => []
        end
      else if b <? 240 then
        match r with
        | b1 :: b2 :: r2 =>
            ((b - 224) * 4096 + (b1 - 128) * 64 + (b2 - 128)) :: utf8_decode r2
        | _ => []
        end
      else
        match r with
        | b1 :: b2 :: b3 :: r3 =>
            ((b - 240) * 262144 + (b1 - 128) * 4096 + (b2 - 128) * 64 + (b3 - 128))
              :: utf8_decode r3
        | _ => []
        end
  end.

Definition utf8 (s : string) : str :=
  utf8_decode (map N_of_ascii (list_ascii_of_string s)).

(** [str.isspace] on one character: CPython's [Py_UNICODE_ISSPACE]. *)
Definition isspace (c : char) : bool :=
  ((9 <=? c) && (c <=? 13)) || ((28 <=? c) && (c <=? 32))
  || (c =? 133) || (c =? 160) || (c =? 5760)
  || ((8192 <=? c) && (c <=? 8202))
  || (c =? 8232) || (c =? 8233) || (c =? 8239) || (c =? 8287) || (c =? 12288).

Fixpoint lstrip (s : str) : str :=
  match s with
  | [] => []
  | c :: s' => if isspace c then lstrip s' else s
  end.

Definition rstrip (s : str) : str := rev (lstrip (rev s)).

(** [s.strip()]. *)
Definition strip (s : str) : str := rstrip (lstrip s).

(** [s.startswith(prefix)]. *)
Fixpoint startswith (prefix s : str) : bool :=
  match prefix, s with
  | [], _ => true
  | p :: prefix', c :: s' => char_eqb p c && startswith prefix' s'
  | _ :: _, [] => false
  end.

(** [s[n:]] and [s[:n]] for [0 <= n]. *)
Definition slice_from (n : nat) (s : str) : str := skipn n s.
Definition slice_to (n : nat) (s : str) : str := firstn n s.

(** ** Character classes and case mapping

    On ASCII, [str.isalnum] and [str.upper] are given in full.  Outside
    ASCII they are read from the Unicode character database the
    interpreter was built with, which is a table and not code of this
    program: it is a parameter of the embedding.  [str.upper] applies the
    full case mapping, which may turn one character into several. *)
Record unicode_db := {
  ucd_isalnum : char -> bool;
  ucd_upper : char -> str
}.

Definition is_ascii (c : char) : bool := c <? 128.

Definition ascii_isalnum (c : char) : bool :=
  ((48 <=? c) && (c <=? 57)) || ((65 <=? c) && (c <=? 90))
  || ((97 <=? c) && (c <=? 122)).

Definition ascii_upper (c : char) : char :=
  if (97 <=? c) && (c <=? 122) then c - 32 else c.

Section CaseMapping.
Variable ucd : unicode_db.

Definition isalnum (c : char) : bool :=
  if is_ascii c then ascii_isalnum c else ucd_isalnum ucd c.

Definition upper_char (c : char) : str :=
  if is_ascii c then [ascii_upper c] else ucd_upper ucd c.

(** [s.upper()]. *)
Definition upper (s : str) : str := flat_map upper_char s.

End CaseMapping.

(** Decimal rendering of a non-negative integer, as [str(n)] and the
    f-string [{n}] give it. *)
Fixpoint digits_of_uint (d : Decimal.uint) : str :=
  match d with
  | Decimal.Nil => []
  | Decimal.D0 d' => 48 :: digits_of_uint d'
  | Decimal.D1 d' => 49 :: digits_of_uint d'
  | Decimal.D2 d' => 50 :: digits_of_uint d'
  | Decimal.D3 d' => 51 :: digits_of_uint d'
  | Decimal.D4 d' => 52 :: digits_of_uint d'
  | Decimal.D5 d' => 53 :: digits_of_uint d'
  | Decimal.D6 d' => 54 :: digits_of_uint d'
  | Decimal.D7 d' => 55 :: digits_of_uint d'
  | Decimal.D8 d' => 56 :: digits_of_uint d'
  | Decimal.D9 d' => 57 :: digits_of_uint d'
  end.

Definition str_of_nat (n : nat) : str := digits_of_uint (Nat.to_uint n).

End PyStr.
Export PyStr.


(* ================================================================== *)
(** * Python values, dictionaries, exceptions *)
(* ================================================================== *)

(** The values that [json.load] produces and [json.dump] accepts; the
    cache and the selected patent dictionaries are values of this type.
    A [JDict] keeps its items in insertion order, with distinct keys.
    Numbers are the integers; no number with a fraction is built or
    inspected by the program. *)
Inductive json : Type :=
| JNull
| JBool (b : bool)
| JNum (z : Z)
| JStr (s : str)
| JList (l : list json)
| JDict (items : list (str * json)).

Definition dict := list (str * json).

(** [d.get(k)] *)
Fixpoint dict_get (k : str) (d : dict) : option json :=
  match d with
  | [] => None
  | (k', v) :: d' => if PyStr.eqb k k' then Some v else dict_get k d'
  end.

(** [d[k] = v]: an existing key keeps its position, a new key goes last. *)
Fixpoint dict_set (k : str) (v : json) (d : dict) : dict :=
  match d with
  | [] => [(k, v)]
  | (k', v') :: d' =>
      if PyStr.eqb k k' then (k', v) :: d' else (k', v') :: dict_set k v d'
  end.

(** Truth value of a value in [if x:] and [if not x:]. *)
Definition truthy (v : json) : bool :=
  match v with
  | JNull => false
  | JBool b => b
  | JNum z => negb (Z.eqb z 0)
  | JStr s => match s with [] => false | _ => true end
  | JList l => match l with [] => false | _ => true end
  | JDict d => match d with [] => false | _ => true end
  end.

Inductive exn_class :=
| JSONDecodeError
| UnicodeDecodeError
| OSError
| TypeError
| AttributeError
| IndexError
| ValueError
| RecursionError
| CollaboratorError.

(** An exception: its class and the text [str(e)] gives. *)
Record exn := Exn { exn_cls : exn_class; exn_str : str }.

Inductive result (A : Type) : Type :=
| Ok (a : A)
| Raise (e : exn).
Arguments Ok {A} a.
Arguments Raise {A} e.

Definition is_json_decode_error (e : exn) : bool :=
  match exn_cls e with JSONDecodeError => true | _ => false end.

(* ================================================================== *)
(** * Collaborators and process state *)
(* ================================================================== *)

(** One entry of the provider's ["organic_results"]: every field may be
    absent; ["inventors"] is a list of names. *)
Record raw_patent := {
  raw_title : option str;
  raw_patent_number : option str;
  raw_filing_date : option str;
  raw_publication_date : option str;
  raw_inventors : option (list str);
  raw_assignee : option str;
  raw_snippet : option str;
  raw_link : option str
}.

(** [GoogleSearch(params).get_dict()]: it raises, or gives a dictionary
    that has or has not the key ["organic_results"]. *)
Inductive serp_outcome :=
| SerpRaise (e : exn)
| SerpDict (organic_results : option (list raw_patent)).

(** [client.chat.completions.create(...)] followed by
    [response.choices[0].message.content]: the call or the access
    raises, or the content is a text or [None]. *)
Inductive chat_outcome :=
| ChatRaise (e : exn)
| ChatContent (content : option str).

(** What [patent_cache.json] is to [exists], [open] and [json.load]:
    one constructor for each way the three calls can end.  A text the
    parser does not turn into a value is rejected with JSONDecodeError
    (a syntax error), with ValueError (an integer literal of more than
    4300 digits) or with RecursionError (brackets nested deeper than the
    interpreter's recursion limit, closed or not). *)
Inductive file_state :=
| FileAbsent
| FileUnopenable (msg : str)      (* exists, [open] raises OSError *)
| FileNotText (msg : str)         (* bytes that are not UTF-8 *)
| FileNotJson (msg : str)         (* [json.load] raises JSONDecodeError *)
| FileHugeInt (msg : str)         (* [json.load] raises ValueError *)
| FileTooDeep (msg : str)         (* [json.load] raises RecursionError *)
| FileJson (v : json).            (* [json.load] returns [v] *)

(** [open(.., 'w')] and [json.dump]: the write goes through, or it raises
    and leaves the file in some state. *)
Inductive disk_outcome :=
| DiskOk
| DiskError (msg : str) (residue : file_state).

(** The collaborators.  Each is consulted with the number of external
    interactions that came before, so that the same request may be
    answered differently at different times. *)
Record Env := {
  ucd : unicode_db;
  environ_SERPAPI_KEY : option str;       (* os.environ.get('SERPAPI_KEY') *)
  environ_OPENAI_API_KEY : option str;    (* os.environ.get('OPENAI_API_KEY') *)
  serp : nat -> str -> Z -> serp_outcome;
  chat : nat -> str -> str -> chat_outcome;
  clock_iso : nat -> str;                 (* datetime.now().isoformat() *)
  clock_fmt : nat -> str;                 (* strftime("%Y-%m-%d %H:%M:%S") *)
  disk : nat -> json -> disk_outcome;
  (* DataFrame.to_string() of the given columns of the given rows *)
  frame_to_string : list str -> list (list str) -> str
}.

Inductive level := INFO | WARNING | ERROR.

(** The messages of the [logger] and [logging] calls, one constructor
    per call site, with the values formatted into the text. *)
Inductive log_msg :=
| MsgEmptyFrame                       (* Empty patents DataFrame provided *)
| MsgNoMatchingPatent (answer : str)  (* No matching patent found for number: *)
| MsgSelectError (e : str)            (* Error finding most relevant patent: *)
| MsgNoOrganicResults                 (* No results found (search_patents) *)
| MsgCacheUpdated (query : str)       (* Updated cache for query: *)
| MsgMostRelevant (number : json)     (* Most relevant patent: *)
| MsgSearchError (e : str)            (* Search error: *)
| MsgEvaluationError (e : str)        (* Evaluation error: *)
| MsgBroaden (improved : str)         (* result count 0: broader concept *)
| MsgNarrow (improved : str)          (* too many results: narrower concept *)
| MsgRelevance (improved : str)       (* moderate count: relevance *)
| MsgOptimizationError (e : str)      (* Query optimization error: *)
| MsgIteration (i : nat) (n : Z)      (* Iteration i/n *)
| MsgCurrentQuery (query : str)       (* Current query: *)
| MsgLoopNoResults                    (* No results found (main) *)
| MsgFound (n : nat)                  (* Found n results *)
| MsgOptimizing                       (* Optimizing query for next iteration... *)
| MsgExecutionError (e : str).        (* Error during execution: *)

Inductive call :=
| SerpCall (query : str) (num : Z)
| ChatCall (system_prompt user_message : str).

(** The process state: the counter of external interactions, the
    in-memory cache [searcher.cache.cache], the cache file, the log and
    the requests sent to the collaborators, oldest first. *)
Record World := {
  tick : nat;
  cache : json;
  cache_file : file_state;
  log : list (level * log_msg);
  calls : list call
}.

(** ** The monad of the program: state and exceptions *)

Definition M (A : Type) : Type := World -> result A * World.

Definition ret {A} (a : A) : M A := fun w => (Ok a, w).

Definition raise {A} (e : exn) : M A := fun w => (Raise e, w).

Definition bind {A B} (m : M A) (k : A -> M B) : M B :=
  fun w => match m w with
           | (Ok a, w') => k a w'
           | (Raise e, w') => (Raise e, w')
           end.

Notation "x <- m ;; k" := (bind m (fun x => k))
  (at level 61, m at next level, right associativity).
Notation "m ;;; k" := (bind m (fun _ => k))
  (at level 61, right associativity).

(** [try: body  except Exception as e: handler e] *)
Definition try_except {A} (body : M A) (handler : exn -> M A) : M A :=
  fun w => match body w with
           | (Ok a, w') => (Ok a, w')
           | (Raise e, w') => handler e w'
           end.

(** [try: body  except C: handler] for one exception class. *)
Definition try_except_if {A} (catches : exn -> bool) (body : M A)
    (handler : exn -> M A) : M A :=
  fun w => match body w with
           | (Ok a, w') => (Ok a, w')
           | (Raise e, w') => if catches e then handler e w' else (Raise e, w')
           end.

Definition set_tick (n : nat) (w : World) : World :=
  {| tick := n; cache := cache w; cache_file := cache_file w;
     log := log w; calls := calls w |}.

Definition set_cache (c : json) (w : World) : World :=
  {| tick := tick w; cache := c; cache_file := cache_file w;
     log := log w; calls := calls w |}.

Definition set_cache_file (f : file_state) (w : World) : World :=
  {| tick := tick w; cache := cache w; cache_file := f;
     log := log w; calls := calls w |}.

Definition add_log (l : level) (m : log_msg) (w : World) : World :=
  {| tick := tick w; cache := cache w; cache_file := cache_file w;
     log := log w ++ [(l, m)]; calls := calls w |}.

Definition add_call (c : call) (w : World) : World :=
  {| tick := tick w; cache := cache w; cache_file := cache_file w;
     log := log w; calls := calls w ++ [c] |}.

Definition emit (l : level) (m : log_msg) : M unit :=
  fun w => (Ok tt, add_log l m w).

Definition get_cache : M json := fun w => (Ok (cache w), w).

Definition put_cache (c : json) : M unit := fun w => (Ok tt, set_cache c w).

Section Collaborators.
Variable env : Env.

Definition call_serp (query : str) (num : Z) : M (option (list raw_patent)) :=
  fun w =>
    let w' := set_tick (S (tick w)) (add_call (SerpCall query num) w) in
    match serp env (tick w) query num with
    | SerpRaise e => (Raise e, w')
    | SerpDict r => (Ok r, w')
    end.

Definition call_chat (system_prompt user_message : str) : M (option str) :=
  fun w =>
    let w' := set_tick (S (tick w))
                (add_call (ChatCall system_prompt user_message) w) in
    match chat env (tick w) system_prompt user_message with
    | ChatRaise e => (Raise e, w')
    | ChatContent c => (Ok c, w')
    end.

Definition now_isoformat : M str :=
  fun w => (Ok (clock_iso env (tick w)), set_tick (S (tick w)) w).

Definition now_strftime : M str :=
  fun w => (Ok (clock_fmt env (tick w)), set_tick (S (tick w)) w).

End Collaborators.

(** ** Operations of Python objects that may raise *)

Definition type_name (v : json) : str :=
  match v with
  | JNull => utf8 "NoneType"
  | JBool _ => utf8 "bool"
  | JNum _ => utf8 "int"
  | JStr _ => utf8 "str"
  | JList _ => utf8 "list"
  | JDict _ => utf8 "dict"
  end.

Definition no_attribute (ty attr : str) : exn :=
  Exn AttributeError
    (utf8 "'" ++ ty ++ utf8 "' object has no attribute '" ++ attr ++ utf8 "'").

(** [v.get(k, default)]: a method of dictionaries only. *)
Definition py_get (v : json) (k : str) (default : json) : M json :=
  match v with
  | JDict d => ret (match dict_get k d with Some x => x | None => default end)
  | _ => raise (no_attribute (type_name v) (utf8 "get"))
  end.

(** [v[k] = x] for a text key [k]: dictionaries only. *)
Definition py_setitem (v : json) (k : str) (x : json) : M json :=
  match v with
  | JDict d => ret (JDict (dict_set k x d))
  | JList _ =>
      raise (Exn TypeError (utf8 "list indices must be integers or slices, not str"))
  | _ =>
      raise (Exn TypeError
               (utf8 "'" ++ type_name v
                  ++ utf8 "' object does not support item assignment"))
  end.

(** [content.strip()] where [content] may be [None]. *)
Definition py_strip (content : option str) : M str :=
  match content with
  | Some s => ret (strip s)
  | None => raise (no_attribute (utf8 "NoneType") (utf8 "strip"))
  end.

(** [len(text)] where [text] may be [None]. *)
Definition py_len (text : option str) : M nat :=
  match text with
  | Some s => ret (List.length s)
  | None => raise (Exn TypeError (utf8 "object of type 'NoneType' has no len()"))
  end.

(* ================================================================== *)
(** * class PatentCache *)
(* ================================================================== *)

Module PatentCache.

Definition K_patent_data : str := Eval vm_compute in utf8 "patent_data".
Definition K_last_updated : str := Eval vm_compute in utf8 "last_updated".

(** [self.cache_file.exists()] *)
Definition cache_file_exists : M bool :=
  fun w => (Ok (match cache_file w with FileAbsent => false | _ => true end), w).

(** [with open(self.cache_file, 'r', encoding='utf-8') as f: json.load(f)] *)
Definition json_load : M json :=
  fun w =>
    match cache_file w with
    | FileAbsent => (Raise (Exn OSError (utf8 "No such file or directory")), w)
    | FileUnopenable msg => (Raise (Exn OSError msg), w)
    | FileNotText msg => (Raise (Exn UnicodeDecodeError msg), w)
    | FileNotJson msg => (Raise (Exn JSONDecodeError msg), w)
    | FileHugeInt msg => (Raise (Exn ValueError msg), w)
    | FileTooDeep msg => (Raise (Exn RecursionError msg), w)
    | FileJson v => (Ok v, w)
    end.

Definition _load_cache : M json :=
  present <- cache_file_exists ;;
  if present then
    try_except_if is_json_decode_error json_load (fun _ => ret (JDict []))
  else ret (JDict []).

(** [self.cache = self._load_cache()] *)
Definition __init__ : M unit :=
  c <- _load_cache ;;
  put_cache c.

Section WithEnv.
Variable env : Env.

Definition _save_cache : M unit :=
  fun w =>
    let w' := set_tick (S (tick w)) w in
    match disk env (tick w) (cache w) with
    | DiskOk => (Ok tt, set_cache_file (FileJson (cache w)) w')
    | DiskError msg residue => (Raise (Exn OSError msg), set_cache_file residue w')
    end.

Definition update_cache (query : str) (patent_data : json) : M unit :=
  stamp <- now_isoformat env ;;
  c <- get_cache ;;
  c' <- py_setitem c query
          (JDict [(K_patent_data, patent_data); (K_last_updated, JStr stamp)]) ;;
  put_cache c' ;;;
  _save_cache.

Definition get_cached_patent (query : str) : M json :=
  c <- get_cache ;;
  entry <- py_get c query (JDict []) ;;
  py_get entry K_patent_data (JDict []).

Definition clear_cache : M unit :=
  put_cache (JDict []) ;;;
  _save_cache.

End WithEnv.

End PatentCache.

(* ================================================================== *)
(** * Patent records and result frames *)
(* ================================================================== *)

(** The dictionary [search_patents] builds for one result. *)
Record PatentRecord := {
  title : str;
  patent_number : str;
  filing_date : str;
  publication_date : str;
  inventors : str;
  assignee : str;
  abstract : str;
  link : str
}.

(** [pd.DataFrame(patents)]: one row per record, in provider order, with
    the eight columns above; [pd.DataFrame()] and the frame of an empty
    list are the empty frame. *)
Definition DataFrame := list PatentRecord.

Definition K_title : str := Eval vm_compute in utf8 "title".
Definition K_patent_number : str := Eval vm_compute in utf8 "patent_number".
Definition K_filing_date : str := Eval vm_compute in utf8 "filing_date".
Definition K_publication_date : str := Eval vm_compute in utf8 "publication_date".
Definition K_inventors : str := Eval vm_compute in utf8 "inventors".
Definition K_assignee : str := Eval vm_compute in utf8 "assignee".
Definition K_abstract : str := Eval vm_compute in utf8 "abstract".
Definition K_link : str := Eval vm_compute in utf8 "link".
Definition K_normalized_patent_number : str :=
  Eval vm_compute in utf8 "normalized_patent_number".

(** [df.empty] *)
Definition empty (df : DataFrame) : bool :=
  match df with [] => true | _ => false end.

(** [df.head(n)] *)
Definition head (n : nat) (df : DataFrame) : DataFrame := firstn n df.

(** [row.to_dict()] for a row of the frame. *)
Definition to_dict (r : PatentRecord) : dict :=
  [ (K_title, JStr (title r));
    (K_patent_number, JStr (patent_number r));
    (K_filing_date, JStr (filing_date r));
    (K_publication_date, JStr (publication_date r));
    (K_inventors, JStr (inventors r));
    (K_assignee, JStr (assignee r));
    (K_abstract, JStr (abstract r));
    (K_link, JStr (link r)) ].

(** A row of [sample_patents] once the column
    ['normalized_patent_number'] has been added to it. *)
Definition sample_row := (PatentRecord * str)%type.

Definition sample_to_dict (row : sample_row) : dict :=
  to_dict (fst row) ++ [(K_normalized_patent_number, JStr (snd row))].

(** [sep.join(parts)] *)
Fixpoint join (sep : str) (parts : list str) : str :=
  match parts with
  | [] => []
  | [p] => p
  | p :: rest => p ++ sep ++ join sep rest
  end.

Definition or_default {A} (d : A) (o : option A) : A :=
  match o with Some x => x | None => d end.

(** The [patent_data] dictionary of [search_patents]. *)
Definition patent_data_of (patent : raw_patent) : PatentRecord :=
  {| title := or_default [] (raw_title patent);
     patent_number := or_default [] (raw_patent_number patent);
     filing_date := or_default [] (raw_filing_date patent);
     publication_date := or_default [] (raw_publication_date patent);
     inventors := join (utf8 ", ") (or_default [] (raw_inventors patent));
     assignee := or_default [] (raw_assignee patent);
     abstract := or_default [] (raw_snippet patent);
     link := or_default [] (raw_link patent) |}.

(* ================================================================== *)
(** * class SimplifiedPatentSearch *)
(* ================================================================== *)

Module SimplifiedPatentSearch.

Definition NL : str := [10%N].

Definition SELECT_SYSTEM_PROMPT : str := Eval vm_compute in utf8
"あなたは特許検索の専門家です。
与えられた検索クエリに対して、検索結果の中から最も関連性の高い特許を1つ選んでください。
特許番号は完全な形式で返してください（例: JP2020123456A）。".

Definition EVALUATE_SYSTEM_PROMPT : str := Eval vm_compute in utf8
"あなたは特許検索結果を評価する専門家です。
検索クエリと結果を分析し、結果の質について1段落で簡潔に評価してください。".

Definition OPTIMIZE_SYSTEM_PROMPT : str := Eval vm_compute in utf8
"あなたは特許検索クエリを最適化する専門家です。
過去の検索履歴と評価結果を参考に、より良い検索結果が得られるようクエリを1つ提案してください。

重要な指示:
1. 検索結果が0件の場合:
   - まず、より上位の概念を使用してクエリを作成してください
   - 例: 「空飛ぶ自動車の折りたたみ式翼」→「自動車用の可変構造翼」
   
2. 検索結果が多すぎる場合（1000件以上）:
   - より具体的な下位概念を使用してクエリを作成してください
   - 例: 「自動運転」→「市街地での自動運転制御方法」

3. 適度な結果件数（1-1000件）の場合:
   - 現在の抽象度を維持しながら、関連性の高い結果が得られるようクエリを最適化してください

クエリだけを返してください。余分な説明や「提案クエリ：」などのプレフィックスは不要です。".

(** The text returned for an empty frame. *)
Definition NO_RESULTS_MESSAGE : str :=
  Eval vm_compute in utf8 "検索結果が得られませんでした。".

Definition EVALUATION_ERROR_PREFIX : str :=
  Eval vm_compute in utf8 "評価中にエラーが発生しました: ".

Definition OPTIMIZATION_ERROR_PREFIX : str :=
  Eval vm_compute in utf8 "最適化中にエラーが発生しました: ".

(** The label prefixes removed from the model's answer, in the order of
    the [for] loop. *)
Definition PREFIXES : list str := Eval vm_compute in
  [utf8 "提案クエリ: "; utf8 "改善クエリ: "; utf8 "最適化クエリ: "].

(** One round of the loop body:
    [if improved_query.startswith(prefix): improved_query = improved_query[len(prefix):]] *)
Definition remove_prefix (improved_query prefix : str) : str :=
  if startswith prefix improved_query
  then slice_from (List.length prefix) improved_query
  else improved_query.

(** Lines 262-267: from the content of the model's answer to the
    improved query. *)
Definition clean_answer (content : str) : str :=
  strip (fold_left remove_prefix PREFIXES (strip content)).

(** The three-way branch of lines 270-275. *)
Definition optimization_note (result_count : nat) (improved_query : str) : log_msg :=
  if Nat.eqb result_count 0 then MsgBroaden improved_query
  else if Nat.ltb 1000 result_count then MsgNarrow improved_query
  else MsgRelevance improved_query.

(** [truncate_text] of [optimize_query]; [len(None)] raises. *)
Definition truncate_text (text : option str) (max_length : nat) : M str :=
  n <- py_len text ;;
  ret (if Nat.ltb max_length n
       then slice_to max_length (or_default [] text) ++ utf8 "..."
       else or_default [] text).

(** [xs[-3:]] *)
Definition last3 {A} (xs : list A) : list A := skipn (List.length xs - 3) xs.

Section WithEnv.
Variable env : Env.

Definition __init__ : M unit :=
  match environ_SERPAPI_KEY env with
  | None | Some [] => raise (Exn ValueError (utf8 "SERPAPI API key must be provided"))
  | Some _ =>
      match environ_OPENAI_API_KEY env with
      | None | Some [] =>
          raise (Exn ValueError (utf8 "OpenAI API key must be provided"))
      | Some _ => PatentCache.__init__
      end
  end.

Definition _normalize_patent_number (patent_number : str) : str :=
  upper (ucd env) (filter (isalnum (ucd env)) patent_number).

Definition select_user_message (query : str) (sample_patents : list sample_row) : str :=
  utf8 "検索クエリ: " ++ query ++ NL ++ NL
  ++ utf8 "検索結果（上位10件）:" ++ NL
  ++ frame_to_string env [K_title; K_abstract; K_patent_number]
       (map (fun row => [title (fst row); abstract (fst row); patent_number (fst row)])
            sample_patents)
  ++ NL ++ NL
  ++ utf8 "最も関連性の高い特許の番号を返してください。特許番号だけを返し、説明は不要です。".

Definition _get_most_relevant_patent (query : str) (patents_df : DataFrame) : M json :=
  if empty patents_df then
    emit WARNING MsgEmptyFrame ;;;
    ret (JDict [])
  else
    try_except
      (let sample_patents :=
         map (fun r => (r, _normalize_patent_number (patent_number r)))
             (head 10 patents_df) in
       content <- call_chat env SELECT_SYSTEM_PROMPT
                    (select_user_message query sample_patents) ;;
       most_relevant_patent_number <- py_strip content ;;
       let normalized_response :=
         _normalize_patent_number most_relevant_patent_number in
       let most_relevant_patent :=
         filter (fun row => PyStr.eqb (snd row) normalized_response) sample_patents in
       match most_relevant_patent with
       | [] =>
           emit WARNING (MsgNoMatchingPatent most_relevant_patent_number) ;;;
           match sample_patents with
           | row0 :: _ => ret (JDict (sample_to_dict row0))
           | [] => raise (Exn IndexError (utf8 "single positional indexer is out-of-bounds"))
           end
       | found :: _ => ret (JDict (sample_to_dict found))
       end)
      (fun e =>
         emit ERROR (MsgSelectError (exn_str e)) ;;;
         match patents_df with
         | row0 :: _ => ret (JDict (to_dict row0))
         | [] => ret (JDict [])
         end).

Definition search_patents (query : str) (num_results : Z) : M DataFrame :=
  try_except
    (results <- call_serp env query num_results ;;
     match results with
     | None =>
         emit ERROR MsgNoOrganicResults ;;;
         ret []
     | Some organic_results =>
         let df := map patent_data_of organic_results in
         (if negb (empty df) then
            most_relevant_patent <- _get_most_relevant_patent query df ;;
            if truthy most_relevant_patent then
              PatentCache.update_cache env query most_relevant_patent ;;;
              emit INFO (MsgCacheUpdated query) ;;;
              number <- py_get most_relevant_patent K_patent_number
                          (JStr (utf8 "Unknown")) ;;
              emit INFO (MsgMostRelevant number)
            else ret tt
          else ret tt) ;;;
         ret df
     end)
    (fun e =>
       emit ERROR (MsgSearchError (exn_str e)) ;;;
       ret []).

Definition evaluate_user_message (query : str) (sample_results : DataFrame) : str :=
  utf8 "検索クエリ: " ++ query ++ NL ++ NL
  ++ utf8 "検索結果（最初の5件）:" ++ NL
  ++ frame_to_string env [K_title; K_abstract]
       (map (fun r => [title r; abstract r]) sample_results).

(** The result is the content of the model's answer, which may be [None]. *)
Definition evaluate_search_results (query : str) (df : DataFrame) : M (option str) :=
  if empty df then ret (Some NO_RESULTS_MESSAGE)
  else
    try_except
      (let sample_results := head 5 df in
       call_chat env EVALUATE_SYSTEM_PROMPT (evaluate_user_message query sample_results))
      (fun err =>
         emit ERROR (MsgEvaluationError (exn_str err)) ;;;
         ret (Some (EVALUATION_ERROR_PREFIX ++ exn_str err))).

(** The part of [user_message] built from the live query, count and
    evaluation. *)
Definition optimize_header (query : str) (result_count : nat) (evaluation : option str)
  : M str :=
  shown <- truncate_text evaluation 200 ;;
  ret (NL ++ utf8 "基本クエリ: " ++ query ++ NL
       ++ utf8 "現在の検索結果件数: " ++ str_of_nat result_count ++ NL
       ++ utf8 "現在の評価結果: " ++ shown ++ NL ++ NL).

(** The [for prev_query, prev_eval in zip(...)] loop appending to
    [user_message]. *)
Fixpoint append_history (user_message : str) (pairs : list (str * option str))
  : M str :=
  match pairs with
  | [] => ret user_message
  | (prev_query, prev_eval) :: rest =>
      shown <- truncate_text prev_eval 200 ;;
      append_history
        (user_message ++ utf8 "クエリ: " ++ prev_query ++ NL
           ++ utf8 "評価: " ++ shown ++ NL ++ NL)
        rest
  end.

Definition OPTIMIZE_REQUEST : str := Eval vm_compute in utf8
"上記の情報を基に、より良い検索クエリを1つ提案してください。
特に、検索結果件数に基づいて適切な抽象度のクエリを提案してください。".

(** The whole [user_message] of [optimize_query]. *)
Definition optimize_user_message (query : str) (result_count : nat)
    (evaluation : option str)
    (previous_queries : list str) (previous_evaluations : list (option str))
  : M str :=
  user_message <- optimize_header query result_count evaluation ;;
  user_message <-
    (if negb (Nat.eqb (List.length previous_queries) 0)
        && negb (Nat.eqb (List.length previous_evaluations) 0)
     then append_history
            (user_message ++ utf8 "過去の検索履歴（要約）:" ++ NL)
            (combine (last3 previous_queries) (last3 previous_evaluations))
     else ret user_message) ;;
  ret (user_message ++ OPTIMIZE_REQUEST).

(** [previous_queries] and [previous_evaluations] default to [None],
    which the method only tests for truth: the empty list stands for it. *)
Definition optimize_query (query : str)
    (previous_queries : list str) (previous_evaluations : list (option str))
  : M (str * option str) :=
  try_except
    (results <- search_patents query 100 ;;
     evaluation <- evaluate_search_results query results ;;
     let result_count := List.length results in
     user_message <- optimize_user_message query result_count evaluation
                       previous_queries previous_evaluations ;;
     content <- call_chat env OPTIMIZE_SYSTEM_PROMPT user_message ;;
     stripped <- py_strip content ;;
     let improved_query :=
       strip (fold_left remove_prefix PREFIXES stripped) in
     emit INFO (optimization_note result_count improved_query) ;;;
     ret (improved_query, evaluation))
    (fun e =>
       emit ERROR (MsgOptimizationError (exn_str e)) ;;;
       ret (query, Some (OPTIMIZATION_ERROR_PREFIX ++ exn_str e))).

Definition get_cached_patent (query : str) : M json :=
  PatentCache.get_cached_patent query.

Definition clear_cache : M unit := PatentCache.clear_cache env.

End WithEnv.

End SimplifiedPatentSearch.

(* ================================================================== *)
(** * run_patent_search.py *)
(* ================================================================== *)

Module run_patent_search.

Import SimplifiedPatentSearch.

(** The parsed command line. *)
Record Args := {
  arg_query : str;
  arg_optimize : bool;
  arg_results : Z;
  arg_debug : bool;
  arg_iterations : Z;
  arg_show_cache : bool
}.

(** One row of [query_history]. *)
Record IterationRecord := {
  row_iteration : nat;
  row_query : str;
  row_num_results : nat;
  row_evaluation : option str;
  row_timestamp : str
}.

(** What the loop carries from one iteration to the next. *)
Record LoopState := {
  current_query : str;
  query_history : list IterationRecord
}.

Inductive control := Continue | Break.

Section WithEnv.
Variable env : Env.
Variable args : Args.

(** The body of [for iteration in range(args.iterations)], lines 98-142;
    console output is left out. *)
Definition loop_body (iteration : nat) (st : LoopState) : M (control * LoopState) :=
  emit INFO (MsgIteration (iteration + 1) (arg_iterations args)) ;;;
  emit INFO (MsgCurrentQuery (current_query st)) ;;;
  results <- search_patents env (current_query st) (arg_results args) ;;
  if empty results then
    emit WARNING MsgLoopNoResults ;;;
    ret (Break, st)
  else
    emit INFO (MsgFound (List.length results)) ;;;
    evaluation <- evaluate_search_results env (current_query st) results ;;
    stamp <- now_strftime env ;;
    let query_history' :=
      query_history st ++
        [{| row_iteration := iteration + 1;
            row_query := current_query st;
            row_num_results := List.length results;
            row_evaluation := evaluation;
            row_timestamp := stamp |}] in
    if arg_optimize args && (Z.of_nat iteration <? arg_iterations args - 1)%Z then
      emit INFO MsgOptimizing ;;;
      res <- optimize_query env (current_query st)
               (map row_query query_history') (map row_evaluation query_history') ;;
      ret (Continue, {| current_query := fst res; query_history := query_history' |})
    else
      ret (Continue, {| current_query := current_query st;
                        query_history := query_history' |}).

(** The [for] loop over the iterations still to run; [break] ends it. *)
Fixpoint for_range (iterations : list nat) (st : LoopState) : M LoopState :=
  match iterations with
  | [] => ret st
  | iteration :: rest =>
      step <- loop_body iteration st ;;
      match step with
      | (Break, st') => ret st'
      | (Continue, st') => for_range rest st'
      end
  end.

(** [range(n)] *)
Definition range (n : Z) : list nat := seq 0 (Z.to_nat n).

(** Lines 85-142: the searcher is built, then the loop runs; the result
    is the history handed to [save_query_history]. *)
Definition search_loop : M (list IterationRecord) :=
  SimplifiedPatentSearch.__init__ env ;;;
  st <- for_range (range (arg_iterations args))
          {| current_query := arg_query args; query_history := [] |} ;;
  ret (query_history st).

(** [main]: any exception of the body is logged; writing the history
    file and printing the cache are console and file output. *)
Definition main : M unit :=
  try_except
    (search_loop ;;; ret tt)
    (fun e => emit ERROR (MsgExecutionError (exn_str e))).

End WithEnv.

End run_patent_search.

(* ================================================================== *)
(** * Fixtures: concrete collaborators and states *)
(* ================================================================== *)

Module Fixtures.

(** A Unicode database that knows no character outside ASCII: every
    such character counts as not alphanumeric and as its own upper
    case.  It agrees with Python's table on ASCII text only; on other
    text (a Japanese answer, say) [isalnum] drops what Python keeps. *)
Definition ucd_none : unicode_db :=
  {| ucd_isalnum := fun _ => false; ucd_upper := fun c => [c] |}.

(** An excerpt of the Unicode character database.  U+01F0 LATIN SMALL
    LETTER J WITH CARON is a letter (Ll) whose upper case, by
    SpecialCasing.txt, is U+004A followed by U+030C; U+030C COMBINING
    CARON is a mark (Mn), neither letter nor number, and has no case. *)
Definition ucd_excerpt : unicode_db :=
  {| ucd_isalnum := fun c => N.eqb c 496;
     ucd_upper := fun c => if N.eqb c 496 then [74%N; 780%N] else [c] |}.

(** A larger excerpt, for Japanese identifiers.  Hiragana U+3041..3096,
    katakana U+30A1..30FA and the ideographs U+4E00..9FA5 are letters
    without case (Lo); the full-width digits U+FF10..FF19 are decimal
    numbers (Nd); the full-width capitals U+FF21..FF3A are their own
    upper case, and the full-width small letters U+FF41..FF5A have the
    capital 32 places below as upper case.  U+01F0 is as above. *)
Definition ucd_japanese : unicode_db :=
  {| ucd_isalnum := fun c =>
       N.eqb c 496
       || (N.leb 12353 c && N.leb c 12438)
       || (N.leb 12449 c && N.leb c 12538)
       || (N.leb 19968 c && N.leb c 40869)
       || (N.leb 65296 c && N.leb c 65305)
       || (N.leb 65313 c && N.leb c 65338)
       || (N.leb 65345 c && N.leb c 65370);
     ucd_upper := fun c =>
       if N.eqb c 496 then [74%N; 780%N]
       else if N.leb 65345 c && N.leb c 65370 then [(c - 32)%N]
       else [c] |}.

Definition boom : exn := Exn CollaboratorError (utf8 "connection reset").

(** A frame printer that lists the cells, one row per line. *)
Definition plain_to_string (columns : list str) (rows : list (list str)) : str :=
  join [10%N] (map (join [32%N]) (columns :: rows)).

(** The environment with the given database, provider and model; both
    credentials are set, the clock is fixed and the disk takes every
    write. *)
Definition env_of (u : unicode_db)
    (s : nat -> str -> Z -> serp_outcome)
    (c : nat -> str -> str -> chat_outcome) : Env :=
  {| ucd := u;
     environ_SERPAPI_KEY := Some (utf8 "serp-key");
     environ_OPENAI_API_KEY := Some (utf8 "openai-key");
     serp := s;
     chat := c;
     clock_iso := fun _ => utf8 "2024-05-01T10:00:00";
     clock_fmt := fun _ => utf8 "2024-05-01 10:00:00";
     disk := fun _ _ => DiskOk;
     frame_to_string := plain_to_string |}.

(** A fresh process: nothing cached, no cache file, nothing logged. *)
Definition w0 : World :=
  {| tick := 0; cache := JDict []; cache_file := FileAbsent; log := []; calls := [] |}.

Definition raw (number ttl : string) : raw_patent :=
  {| raw_title := Some (utf8 ttl);
     raw_patent_number := Some (utf8 number);
     raw_filing_date := None;
     raw_publication_date := None;
     raw_inventors := Some [utf8 "A. Inventor"; utf8 "B. Inventor"];
     raw_assignee := None;
     raw_snippet := Some (utf8 "snippet");
     raw_link := None |}.

Definition two_patents : list raw_patent :=
  [raw "JP-2020-123456 A" "foldable wing"; raw "JP2019000001A" "drone frame"].

End Fixtures.

(* ================================================================== *)
(** * Identifier normalisation *)
(* ================================================================== *)

Section Normalize.

Local Open Scope N_scope.

Lemma ascii_upper_is_ascii (c : char) :
  is_ascii c = true -> is_ascii (ascii_upper c) = true.
Proof.
  unfold is_ascii, ascii_upper.
  destruct ((97 <=? c) && (c <=? 122)) eqn:E; auto.
  intros H. apply N.ltb_lt in H. apply N.ltb_lt. lia.
Qed.

Lemma ascii_upper_isalnum (c : char) :
  ascii_isalnum c = true -> ascii_isalnum (ascii_upper c) = true.
Proof.
  unfold ascii_upper.
  destruct ((97 <=? c) && (c <=? 122)) eqn:E; [| exact (fun H => H)].
  intros _. apply andb_true_iff in E. destruct E as [E1 E2].
  apply N.leb_le in E1. apply N.leb_le in E2.
  unfold ascii_isalnum.
  assert (H1 : (65 <=? c - 32) = true) by (apply N.leb_le; lia).
  assert (H2 : (c - 32 <=? 90) = true) by (apply N.leb_le; lia).
  rewrite H1, H2. simpl. rewrite orb_true_r. reflexivity.
Qed.

Lemma ascii_upper_idem (c : char) :
  ascii_upper (ascii_upper c) = ascii_upper c.
Proof.
  unfold ascii_upper.
  destruct ((97 <=? c) && (c <=? 122)) eqn:E; [| rewrite E; reflexivity].
  apply andb_true_iff in E. destruct E as [E1 E2].
  apply N.leb_le in E1. apply N.leb_le in E2.
  assert (H : (97 <=? c - 32) = false) by (apply N.leb_gt; lia).
  rewrite H. reflexivity.
Qed.

Variable u : unicode_db.

(** The normal form of a text, as [_normalize_patent_number] computes it
    from the database alone. *)
Definition normal_form (s : str) : str := upper u (filter (isalnum u) s).

(** A character is settled when it is alphanumeric and its own upper
    case. *)
Definition settled (d : char) : Prop :=
  isalnum u d = true /\ upper_char u d = [d].

Lemma normal_form_settled (s : str) :
  Forall settled s -> normal_form s = s.
Proof.
  unfold normal_form, upper.
  induction 1 as [| d s [Ha Hu] _ IH]; simpl; [reflexivity |].
  rewrite Ha. simpl. rewrite Hu. simpl. f_equal. exact IH.
Qed.

Lemma normal_form_all_settled (x : str) :
  (forall c, In c x -> isalnum u c = true -> Forall settled (upper_char u c)) ->
  Forall settled (normal_form x).
Proof.
  unfold normal_form, upper.
  induction x as [| c x IH]; intros H; simpl; [constructor |].
  destruct (isalnum u c) eqn:Ha; simpl.
  - apply Forall_app. split.
    + apply H; [left; reflexivity | exact Ha].
    + apply IH. intros c' Hin. apply H. right. exact Hin.
  - apply IH. intros c' Hin. apply H. right. exact Hin.
Qed.

(** Normalising twice is normalising once on every text whose
    alphanumeric characters have a settled upper case. *)
Lemma normal_form_idempotent_when_settled (x : str) :
  (forall c, In c x -> isalnum u c = true -> Forall settled (upper_char u c)) ->
  normal_form (normal_form x) = normal_form x.
Proof.
  intros H. apply normal_form_settled. apply normal_form_all_settled. exact H.
Qed.

Lemma ascii_alnum_settled (c : char) :
  is_ascii c = true -> isalnum u c = true -> Forall settled (upper_char u c).
Proof.
  intros Hc Ha. unfold upper_char, isalnum in *. rewrite Hc in *.
  constructor; [| constructor].
  unfold settled, isalnum, upper_char.
  rewrite (ascii_upper_is_ascii c Hc). split.
  - apply ascii_upper_isalnum. exact Ha.
  - rewrite ascii_upper_idem. reflexivity.
Qed.

End Normalize.

Import SimplifiedPatentSearch.

Lemma normalize_is_normal_form (env : Env) (x : str) :
  _normalize_patent_number env x = normal_form (ucd env) x.
Proof. reflexivity. Qed.

Lemma all_ascii_In (x : str) (c : char) :
  forallb is_ascii x = true -> In c x -> is_ascii c = true.
Proof.
  intros H Hin. rewrite forallb_forall in H. apply H. exact Hin.
Qed.

(** On an identifier made of ASCII characters, whatever the Unicode
    database of the interpreter, normalising twice is normalising
    once. *)
Lemma normalize_idempotent_ascii (env : Env) (x : str) :
  forallb is_ascii x = true ->
  _normalize_patent_number env (_normalize_patent_number env x)
  = _normalize_patent_number env x.
Proof.
  intros Hx. rewrite !normalize_is_normal_form.
  apply normal_form_idempotent_when_settled.
  intros c Hin Ha. apply ascii_alnum_settled; [| exact Ha].
  apply (all_ascii_In x c Hx Hin).
Qed.

(** The identifier ["JP-2020-123456 A"]. *)
Lemma normalize_idempotent_ascii_witness :
  let env := Fixtures.env_of Fixtures.ucd_excerpt
               (fun _ _ _ => SerpDict None) (fun _ _ _ => ChatContent None) in
  let x := utf8 "JP-2020-123456 A" in
  forallb is_ascii x = true
  /\ _normalize_patent_number env x = utf8 "JP2020123456A"
  /\ _normalize_patent_number env (_normalize_patent_number env x)
     = _normalize_patent_number env x.
Proof.
  intros env x. split; [reflexivity | split; [reflexivity |]].
  apply (normalize_idempotent_ascii env x). reflexivity.
Defined.

(** C9 as stated fails: the letter U+01F0 normalises to [J] followed by
    the combining caron U+030C, and normalising that again drops the
    caron. *)
Lemma normalize_not_idempotent :
  let env := Fixtures.env_of Fixtures.ucd_excerpt
               (fun _ _ _ => SerpDict None) (fun _ _ _ => ChatContent None) in
  _normalize_patent_number env [496%N] = [74%N; 780%N]
  /\ _normalize_patent_number env (_normalize_patent_number env [496%N]) = [74%N]
  /\ _normalize_patent_number env (_normalize_patent_number env [496%N])
     <> _normalize_patent_number env [496%N].
Proof.
  intros env. split; [reflexivity | split; [reflexivity |]].
  vm_compute. discriminate.
Qed.

(** The same for every database that records U+01F0 and U+030C as the
    Unicode standard does. *)
Lemma normalize_not_idempotent_any_db (env : Env) :
  ucd_isalnum (ucd env) 496%N = true ->
  ucd_upper (ucd env) 496%N = [74%N; 780%N] ->
  ucd_isalnum (ucd env) 780%N = false ->
  _normalize_patent_number env (_normalize_patent_number env [496%N])
  <> _normalize_patent_number env [496%N].
Proof.
  intros H1 H2 H3.
  unfold _normalize_patent_number, upper, isalnum, upper_char.
  simpl. rewrite H1. simpl. rewrite H2. simpl. rewrite H3. simpl.
  discriminate.
Qed.

(** The spec's example pair has one normal form. *)
Example normalize_example (env : Env) :
  _normalize_patent_number env (utf8 "JP-2020-123456 A")
  = _normalize_patent_number env (utf8 "jp2020123456a").
Proof. reflexivity. Qed.

(** [settled], as a test. *)
Definition settled_char (u : unicode_db) (d : char) : bool :=
  isalnum u d
  && match upper_char u d with [d'] => N.eqb d' d | _ => false end.

(** The texts on which a second pass has nothing left to do: each
    alphanumeric character outside ASCII has an upper case made of
    characters that are alphanumeric and their own upper case.  ASCII
    characters are not tested: they always have one. *)
Definition settled_text (u : unicode_db) (x : str) : bool :=
  forallb (fun c => is_ascii c || negb (isalnum u c)
                    || forallb (settled_char u) (upper_char u c)) x.

Lemma settled_char_settled (u : unicode_db) (d : char) :
  settled_char u d = true -> settled u d.
Proof.
  unfold settled_char, settled. intros H.
  apply andb_true_iff in H. destruct H as [Ha Hu]. split; [exact Ha |].
  destruct (upper_char u d) as [| d' [| d'' l]]; try discriminate.
  apply N.eqb_eq in Hu. subst d'. reflexivity.
Qed.

Lemma settled_text_settled (u : unicode_db) (x : str) (c : char) :
  settled_text u x = true -> In c x -> isalnum u c = true ->
  Forall (settled u) (upper_char u c).
Proof.
  unfold settled_text. intros H Hin Ha.
  rewrite forallb_forall in H. specialize (H c Hin).
  destruct (is_ascii c) eqn:Hc.
  - apply ascii_alnum_settled; [exact Hc | exact Ha].
  - rewrite Ha in H. simpl in H.
    apply Forall_forall. intros d Hd.
    rewrite forallb_forall in H. apply settled_char_settled. apply H. exact Hd.
Qed.

(** Every ASCII text passes the test, whatever the database. *)
Lemma settled_text_ascii (u : unicode_db) (x : str) :
  forallb is_ascii x = true -> settled_text u x = true.
Proof.
  unfold settled_text. intros H. apply forallb_forall. intros c Hin.
  rewrite (all_ascii_In x c H Hin). reflexivity.
Qed.

(** C9 (amended): [normalize (normalize x) = normalize x] for every
    identifier [x] in which each alphanumeric character outside ASCII
    upper-cases to characters that are alphanumeric and their own upper
    case.  No condition is put on the ASCII characters of [x], nor on
    the characters that are not alphanumeric. *)
Theorem normalize_idempotent_settled (env : Env) (x : str) :
  settled_text (ucd env) x = true ->
  _normalize_patent_number env (_normalize_patent_number env x)
  = _normalize_patent_number env x.
Proof.
  intros Hx. rewrite !normalize_is_normal_form.
  apply normal_form_idempotent_when_settled.
  intros c Hin Ha. apply (settled_text_settled (ucd env) x c Hx Hin Ha).
Qed.

(** The amended C9 at a Japanese publication number with a full-width
    suffix, 特開2020-123456ａ: ideographs and digits stay, the hyphen
    goes, the full-width letter becomes its capital. *)
Lemma normalize_idempotent_settled_witness :
  let env := Fixtures.env_of Fixtures.ucd_japanese
               (fun _ _ _ => SerpDict None) (fun _ _ _ => ChatContent None) in
  let x := utf8 "特開2020-123456ａ" in
  settled_text (ucd env) x = true
  /\ _normalize_patent_number env x = utf8 "特開2020123456Ａ"
  /\ _normalize_patent_number env (_normalize_patent_number env x)
     = _normalize_patent_number env x.
Proof.
  intros env x. split; [reflexivity | split; [reflexivity |]].
  apply (normalize_idempotent_settled env x). reflexivity.
Defined.

(** The letter U+01F0 of the counterexample does not pass the test. *)
Example settled_text_rejects_j_caron :
  settled_text Fixtures.ucd_excerpt [496%N] = false
  /\ settled_text Fixtures.ucd_japanese [496%N] = false.
Proof. split; reflexivity. Qed.

(* ================================================================== *)
(** * Cleaning the model's answer *)
(* ================================================================== *)

Lemma startswith_app (p q : str) : startswith p (p ++ q) = true.
Proof.
  induction p as [| c p IH]; simpl; [reflexivity |].
  unfold char_eqb. rewrite N.eqb_refl. exact IH.
Qed.

Lemma slice_from_app (p q : str) : slice_from (List.length p) (p ++ q) = q.
Proof.
  unfold slice_from. induction p as [| c p IH]; simpl; [reflexivity | exact IH].
Qed.

Lemma remove_prefix_app (p q : str) : remove_prefix (p ++ q) p = q.
Proof.
  unfold remove_prefix. rewrite startswith_app. apply slice_from_app.
Qed.

Lemma remove_prefix_absent (p s : str) :
  startswith p s = false -> remove_prefix s p = s.
Proof. unfold remove_prefix. intros ->. reflexivity. Qed.

(** No label of [PREFIXES] stands at the head of [s]. *)
Definition label_free (s : str) : bool :=
  negb (existsb (fun p => startswith p s) PREFIXES).

Lemma label_free_each (s : str) :
  label_free s = true ->
  forall p, In p PREFIXES -> startswith p s = false.
Proof.
  unfold label_free. intros H p Hin.
  apply negb_true_iff in H.
  destruct (startswith p s) eqn:E; [| reflexivity].
  assert (Hex : existsb (fun p => startswith p s) PREFIXES = true)
    by (apply existsb_exists; exists p; split; assumption).
  congruence.
Qed.

(** The three labels begin with different characters, so a text that
    begins with one label begins with no other. *)
Lemma labels_exclusive (p p' q : str) :
  In p PREFIXES -> In p' PREFIXES -> p <> p' -> startswith p' (p ++ q) = false.
Proof.
  unfold PREFIXES. simpl.
  intros [<- | [<- | [<- | []]]] [<- | [<- | [<- | []]]] Hne;
    try reflexivity; exfalso; apply Hne; reflexivity.
Qed.

(** The loop of lines 264-266 on a text that begins with one label and
    goes on label-free: the label goes, the rest stays. *)
Lemma remove_prefixes_labelled (p q : str) :
  In p PREFIXES -> label_free q = true ->
  fold_left remove_prefix PREFIXES (p ++ q) = q.
Proof.
  intros Hin Hq.
  pose proof (label_free_each q Hq) as Hfree.
  assert (H1 : startswith (nth 0 PREFIXES []) q = false) by (apply Hfree; simpl; auto).
  assert (H2 : startswith (nth 1 PREFIXES []) q = false) by (apply Hfree; simpl; auto).
  assert (H3 : startswith (nth 2 PREFIXES []) q = false) by (apply Hfree; simpl; auto).
  unfold PREFIXES in *. simpl nth in *. simpl fold_left.
  simpl in Hin. destruct Hin as [<- | [<- | [<- | []]]].
  - rewrite remove_prefix_app.
    rewrite (@remove_prefix_absent _ _ H2), (@remove_prefix_absent _ _ H3).
    reflexivity.
  - match goal with
    | |- context [remove_prefix (?a ++ q) ?b] =>
        rewrite (@remove_prefix_absent b (a ++ q) eq_refl)
    end.
    rewrite remove_prefix_app.
    rewrite (@remove_prefix_absent _ _ H3). reflexivity.
  - match goal with
    | |- context [remove_prefix (?a ++ q) ?b] =>
        rewrite (@remove_prefix_absent b (a ++ q) eq_refl)
    end.
    match goal with
    | |- context [remove_prefix (?a ++ q) ?b] =>
        rewrite (@remove_prefix_absent b (a ++ q) eq_refl)
    end.
    rewrite remove_prefix_app. reflexivity.
Qed.

Lemma remove_prefixes_label_free (s : str) :
  label_free s = true -> fold_left remove_prefix PREFIXES s = s.
Proof.
  intros Hs. pose proof (label_free_each s Hs) as Hfree.
  assert (H1 : startswith (nth 0 PREFIXES []) s = false) by (apply Hfree; simpl; auto).
  assert (H2 : startswith (nth 1 PREFIXES []) s = false) by (apply Hfree; simpl; auto).
  assert (H3 : startswith (nth 2 PREFIXES []) s = false) by (apply Hfree; simpl; auto).
  unfold PREFIXES in *. simpl nth in *. simpl fold_left.
  rewrite (@remove_prefix_absent _ _ H1), (@remove_prefix_absent _ _ H2),
    (@remove_prefix_absent _ _ H3).
  reflexivity.
Qed.

Lemma lstrip_idempotent (s : str) : lstrip (lstrip s) = lstrip s.
Proof.
  induction s as [| c s IH]; simpl; [reflexivity |].
  destruct (isspace c) eqn:E; [exact IH |].
  simpl. rewrite E. reflexivity.
Qed.

Lemma lstrip_snoc (l : str) (c : char) :
  isspace c = false -> lstrip (l ++ [c]) = lstrip l ++ [c].
Proof.
  intros Hc. induction l as [| d l IH]; simpl.
  - rewrite Hc. reflexivity.
  - destruct (isspace d); [exact IH | reflexivity].
Qed.

Lemma rstrip_cons (c : char) (t : str) :
  isspace c = false -> rstrip (c :: t) = c :: rstrip t.
Proof.
  intros Hc. unfold rstrip. simpl rev at 2.
  rewrite (@lstrip_snoc _ _ Hc), rev_app_distr. reflexivity.
Qed.

Lemma rstrip_idempotent (s : str) : rstrip (rstrip s) = rstrip s.
Proof.
  unfold rstrip. rewrite rev_involutive, lstrip_idempotent. reflexivity.
Qed.

Lemma lstrip_head (s : str) :
  lstrip s = [] \/ exists c t, lstrip s = c :: t /\ isspace c = false.
Proof.
  induction s as [| c s IH]; simpl; [left; reflexivity |].
  destruct (isspace c) eqn:E; [exact IH |].
  right. exists c, s. split; [reflexivity | exact E].
Qed.

(** [strip] leaves a stripped text as it is. *)
Lemma strip_idempotent (s : str) : strip (strip s) = strip s.
Proof.
  unfold strip.
  destruct (lstrip_head s) as [-> | (c & t & -> & Hc)]; [reflexivity |].
  rewrite (@rstrip_cons _ t Hc). simpl lstrip. rewrite Hc.
  rewrite <- (@rstrip_cons _ t Hc). apply rstrip_idempotent.
Qed.

(** An answer that, once trimmed, is one of the known labels followed
    by a label-free text yields that text, trimmed; the label is removed
    and no surrounding whitespace is left. *)
Lemma clean_answer_strips_label (content p q : str) :
  In p PREFIXES ->
  strip content = p ++ q ->
  label_free q = true ->
  clean_answer content = strip q.
Proof.
  intros Hp Hc Hq. unfold clean_answer. rewrite Hc.
  rewrite (@remove_prefixes_labelled p q Hp Hq). reflexivity.
Qed.

(** The answer ["  提案クエリ: electric vehicle battery "] followed by a
    newline. *)
Lemma clean_answer_strips_label_witness :
  let content := utf8 "  提案クエリ: electric vehicle battery " ++ [10%N] in
  let p := utf8 "提案クエリ: " in
  let q := utf8 "electric vehicle battery" in
  In p PREFIXES /\ strip content = p ++ q /\ label_free q = true
  /\ clean_answer content = utf8 "electric vehicle battery".
Proof.
  intros content p q.
  assert (Hp : In p PREFIXES) by (left; reflexivity).
  assert (Hc : strip content = p ++ q) by reflexivity.
  assert (Hq : label_free q = true) by reflexivity.
  split; [exact Hp | split; [exact Hc | split; [exact Hq |]]].
  exact (@clean_answer_strips_label content p q Hp Hc Hq).
Defined.

(** An answer with no label is only trimmed. *)
Lemma clean_answer_unlabelled (content : str) :
  label_free (strip content) = true -> clean_answer content = strip content.
Proof.
  intros H. unfold clean_answer.
  rewrite (@remove_prefixes_label_free _ H). apply strip_idempotent.
Qed.

(** Each of the three labels, on the spec's example query. *)
Example clean_answer_examples :
  clean_answer (utf8 "提案クエリ: electric vehicle battery") = utf8 "electric vehicle battery"
  /\ clean_answer (utf8 "改善クエリ: electric vehicle battery") = utf8 "electric vehicle battery"
  /\ clean_answer (utf8 "最適化クエリ: electric vehicle battery") = utf8 "electric vehicle battery".
Proof. repeat split; reflexivity. Qed.

(** The labels are the Japanese ones of the source; their English
    renderings are left in place. *)
Example clean_answer_english_label :
  clean_answer (utf8 "Suggested query: electric vehicle battery")
  = utf8 "Suggested query: electric vehicle battery".
Proof. reflexivity. Qed.

(** The loop visits each label once, in order: a label that follows a
    later one stays. *)
Example clean_answer_one_pass :
  clean_answer (utf8 "改善クエリ: 提案クエリ: drone") = utf8 "提案クエリ: drone"
  /\ clean_answer (utf8 "提案クエリ: 改善クエリ: drone") = utf8 "drone".
Proof. split; reflexivity. Qed.

(* ================================================================== *)
(** * Dictionaries *)
(* ================================================================== *)

Lemma str_eqb_refl (s : str) : PyStr.eqb s s = true.
Proof.
  induction s as [| c s IH]; simpl; [reflexivity |].
  unfold char_eqb. rewrite N.eqb_refl. exact IH.
Qed.

Lemma str_eqb_eq (s t : str) : PyStr.eqb s t = true -> s = t.
Proof.
  revert t. induction s as [| c s IH]; intros [| d t]; simpl; try discriminate.
  - reflexivity.
  - intros H. apply andb_true_iff in H. destruct H as [H1 H2].
    apply N.eqb_eq in H1. subst d. f_equal. apply IH. exact H2.
Qed.

Lemma str_eqb_neq (s t : str) : s <> t -> PyStr.eqb s t = false.
Proof.
  intros H. destruct (PyStr.eqb s t) eqn:E; [| reflexivity].
  exfalso. apply H. apply str_eqb_eq. exact E.
Qed.

Lemma dict_get_set_same (k : str) (v : json) (d : dict) :
  dict_get k (dict_set k v d) = Some v.
Proof.
  induction d as [| [k' v'] d IH]; simpl.
  - rewrite str_eqb_refl. reflexivity.
  - destruct (PyStr.eqb k k') eqn:E; simpl; rewrite E; [reflexivity | exact IH].
Qed.

Lemma dict_get_set_other (k k' : str) (v : json) (d : dict) :
  k' <> k -> dict_get k' (dict_set k v d) = dict_get k' d.
Proof.
  intros Hne. induction d as [| [k0 v0] d IH]; simpl.
  - rewrite (str_eqb_neq _ _ Hne). reflexivity.
  - destruct (PyStr.eqb k k0) eqn:E; simpl.
    + apply str_eqb_eq in E. subst k0.
      rewrite (str_eqb_neq _ _ Hne). reflexivity.
    + destruct (PyStr.eqb k' k0); [reflexivity | exact IH].
Qed.

(* ================================================================== *)
(** * The result cache *)
(* ================================================================== *)

Section CacheFacts.
Variable env : Env.

(** What [update_cache] leaves behind when the in-memory cache is a
    dictionary: the entry is in memory whether the write went through
    or not; the file holds the new cache when it did. *)
Lemma update_cache_run (query : str) (patent_data : json) (w : World) (d : dict) :
  cache w = JDict d ->
  exists r w',
    PatentCache.update_cache env query patent_data w = (r, w')
    /\ cache w' = JDict (dict_set query
                          (JDict [(PatentCache.K_patent_data, patent_data);
                                  (PatentCache.K_last_updated,
                                   JStr (clock_iso env (tick w)))]) d)
    /\ log w' = log w /\ calls w' = calls w
    /\ (r = Ok tt -> cache_file w' = FileJson (cache w')).
Proof.
  intros Hc.
  unfold PatentCache.update_cache, PatentCache._save_cache, bind, now_isoformat,
    get_cache, put_cache, py_setitem, ret.
  simpl. rewrite Hc.
  match goal with
  | |- context [disk env ?t ?c] => destruct (disk env t c) eqn:Ed
  end; simpl.
  - eexists _, _. split; [reflexivity |]. simpl. repeat split.
  - eexists _, _. split; [reflexivity |]. simpl. repeat split. discriminate.
Qed.

(** [update_cache] raises, and changes no more than the clock count,
    when the in-memory cache is no dictionary. *)
Lemma update_cache_not_dict (query : str) (patent_data : json) (w : World) :
  (forall d, cache w <> JDict d) ->
  exists e, PatentCache.update_cache env query patent_data w
            = (Raise e, set_tick (S (tick w)) w).
Proof.
  intros Hc.
  unfold PatentCache.update_cache, bind, now_isoformat, get_cache, py_setitem, raise.
  simpl. destruct (cache w) eqn:E; try (eexists; reflexivity).
  exfalso. apply (Hc items). reflexivity.
Qed.

Lemma get_cached_patent_present (query : str) (w : World) (d : dict) (entry : dict)
    (p : json) :
  cache w = JDict d ->
  dict_get query d = Some (JDict entry) ->
  dict_get PatentCache.K_patent_data entry = Some p ->
  PatentCache.get_cached_patent query w = (Ok p, w).
Proof.
  intros Hc Hq Hp.
  unfold PatentCache.get_cached_patent, bind, get_cache, py_get, ret.
  rewrite Hc, Hq, Hp. reflexivity.
Qed.

Lemma get_cached_patent_absent (query : str) (w : World) (d : dict) :
  cache w = JDict d ->
  dict_get query d = None ->
  PatentCache.get_cached_patent query w = (Ok (JDict []), w).
Proof.
  intros Hc Hq.
  unfold PatentCache.get_cached_patent, bind, get_cache, py_get, ret.
  rewrite Hc, Hq. reflexivity.
Qed.

End CacheFacts.

(** C6 (amended): on a cache that holds a mapping, [put q p] followed
    by [get q] gives exactly [p], whether or not the write to disk went
    through; and [get] of a query with no entry gives the empty record,
    before the [put] and (for a query other than [q]) after it. *)
Theorem cache_put_then_get (env : Env) (q : str) (p : json) (w : World) (d : dict) :
  cache w = JDict d ->
  (exists r w',
      PatentCache.update_cache env q p w = (r, w')
      /\ PatentCache.get_cached_patent q w' = (Ok p, w')
      /\ forall q', q' <> q -> dict_get q' d = None ->
                    PatentCache.get_cached_patent q' w' = (Ok (JDict []), w'))
  /\ (forall q', dict_get q' d = None ->
                 PatentCache.get_cached_patent q' w = (Ok (JDict []), w)).
Proof.
  intros Hc. split.
  - destruct (update_cache_run env q p w d Hc) as (r & w' & Hrun & Hc' & _).
    exists r, w'. split; [exact Hrun |]. split.
    + eapply get_cached_patent_present;
        [exact Hc' | apply dict_get_set_same | reflexivity].
    + intros q' Hne Hq'.
      eapply get_cached_patent_absent; [exact Hc' |].
      rewrite (dict_get_set_other _ _ _ _ Hne). exact Hq'.
  - intros q' Hq'. apply (get_cached_patent_absent q' w d Hc Hq').
Qed.

(** C6 on a fresh process, for the query ["foldable wing drone"]. *)
Lemma cache_put_then_get_witness :
  let env := Fixtures.env_of Fixtures.ucd_none
               (fun _ _ _ => SerpDict None) (fun _ _ _ => ChatContent None) in
  let q := utf8 "foldable wing drone" in
  let p := JDict (to_dict (patent_data_of (Fixtures.raw "JP2019000001A" "drone frame"))) in
  cache Fixtures.w0 = JDict []
  /\ (exists r w',
         PatentCache.update_cache env q p Fixtures.w0 = (r, w')
         /\ PatentCache.get_cached_patent q w' = (Ok p, w')
         /\ forall q', q' <> q -> dict_get q' [] = None ->
                       PatentCache.get_cached_patent q' w' = (Ok (JDict []), w'))
  /\ (forall q', dict_get q' [] = None ->
                 PatentCache.get_cached_patent q' Fixtures.w0
                 = (Ok (JDict []), Fixtures.w0)).
Proof.
  intros env q p. split; [reflexivity |].
  exact (@cache_put_then_get env q p Fixtures.w0 [] eq_refl).
Defined.

(** C6 as stated fails on a cache the program builds by itself: a cache
    file that holds the JSON text [[1]] is loaded by [__init__] as that
    list; [put] then raises TypeError and stores nothing, and [get]
    raises AttributeError, for the query just put and for any other. *)
Lemma cache_put_then_get_needs_mapping :
  let env := Fixtures.env_of Fixtures.ucd_none
               (fun _ _ _ => SerpDict None) (fun _ _ _ => ChatContent None) in
  let q := utf8 "foldable wing drone" in
  let p := JDict (to_dict (patent_data_of (Fixtures.raw "JP2019000001A" "drone frame"))) in
  let loaded :=
    snd (PatentCache.__init__
           (set_cache_file (FileJson (JList [JNum 1])) Fixtures.w0)) in
  cache loaded = JList [JNum 1]
  /\ fst (PatentCache.update_cache env q p loaded)
     = Raise (Exn TypeError
                (utf8 "list indices must be integers or slices, not str"))
  /\ cache (snd (PatentCache.update_cache env q p loaded)) = JList [JNum 1]
  /\ fst (PatentCache.get_cached_patent q
            (snd (PatentCache.update_cache env q p loaded)))
     = Raise (Exn AttributeError (utf8 "'list' object has no attribute 'get'"))
  /\ fst (PatentCache.get_cached_patent (utf8 "unknown query") loaded)
     = Raise (Exn AttributeError (utf8 "'list' object has no attribute 'get'")).
Proof.
  cbv zeta. repeat split; vm_compute; reflexivity.
Qed.

(** C4 (amended): [load] gives the empty mapping, and does not raise,
    when the file is absent or [json.load] rejects its text with
    JSONDecodeError; whatever value [json.load] returns is given back
    unchanged, whatever its shape; every other failure of [open] or
    [json.load] (OSError, UnicodeDecodeError, ValueError for an integer
    literal that is too long, RecursionError for nesting that is too
    deep) is raised to the caller.  In every case the process state is
    left as it was. *)
Theorem load_cache_absent_or_unparseable (w : World) :
  PatentCache._load_cache (set_cache_file FileAbsent w)
  = (Ok (JDict []), set_cache_file FileAbsent w)
  /\ (forall msg,
         PatentCache._load_cache (set_cache_file (FileNotJson msg) w)
         = (Ok (JDict []), set_cache_file (FileNotJson msg) w))
  /\ (forall v,
         PatentCache._load_cache (set_cache_file (FileJson v) w)
         = (Ok v, set_cache_file (FileJson v) w))
  /\ (forall msg,
         PatentCache._load_cache (set_cache_file (FileUnopenable msg) w)
         = (Raise (Exn OSError msg), set_cache_file (FileUnopenable msg) w))
  /\ (forall msg,
         PatentCache._load_cache (set_cache_file (FileNotText msg) w)
         = (Raise (Exn UnicodeDecodeError msg), set_cache_file (FileNotText msg) w))
  /\ (forall msg,
         PatentCache._load_cache (set_cache_file (FileHugeInt msg) w)
         = (Raise (Exn ValueError msg), set_cache_file (FileHugeInt msg) w))
  /\ (forall msg,
         PatentCache._load_cache (set_cache_file (FileTooDeep msg) w)
         = (Raise (Exn RecursionError msg), set_cache_file (FileTooDeep msg) w)).
Proof.
  repeat split; intros; reflexivity.
Qed.

(** C4 as stated fails twice over.  A cache file that holds the JSON
    text [[1]] is loaded as that list, which is no empty mapping; and a
    file of brackets nested too deep for the parser makes [load] raise
    the parser's RecursionError. *)
Lemma load_cache_keeps_unexpected_shape :
  fst (PatentCache._load_cache (set_cache_file (FileJson (JList [JNum 1])) Fixtures.w0))
  = Ok (JList [JNum 1])
  /\ fst (PatentCache._load_cache
            (set_cache_file (FileJson (JList [JNum 1])) Fixtures.w0))
     <> Ok (JDict [])
  /\ fst (PatentCache._load_cache
            (set_cache_file
               (FileTooDeep (utf8 "maximum recursion depth exceeded"))
               Fixtures.w0))
     = Raise (Exn RecursionError (utf8 "maximum recursion depth exceeded")).
Proof.
  split; [reflexivity | split; [discriminate | reflexivity]].
Qed.

(** A cache loaded as a list then breaks [get] and [put]. *)
Example cache_of_unexpected_shape_raises (env : Env) (q : str) (p : json) :
  let w := set_cache (JList [JNum 1]) Fixtures.w0 in
  (exists e, fst (PatentCache.get_cached_patent q w) = Raise e)
  /\ (exists e, fst (PatentCache.update_cache env q p w) = Raise e).
Proof.
  split; eexists; reflexivity.
Qed.

(** A file that cannot be opened, or whose bytes are not UTF-8, is not
    covered by the [except json.JSONDecodeError] clause. *)
Example load_cache_undecodable_raises (msg : str) (w : World) :
  fst (PatentCache._load_cache (set_cache_file (FileNotText msg) w))
  = Raise (Exn UnicodeDecodeError msg)
  /\ fst (PatentCache._load_cache (set_cache_file (FileUnopenable msg) w))
     = Raise (Exn OSError msg).
Proof. split; reflexivity. Qed.

(* ================================================================== *)
(** * Evaluation *)
(* ================================================================== *)

(** C8: on an empty result set [evaluate] returns the fixed message and
    leaves the process state as it was: no request is sent to the model,
    nothing is logged. *)
Theorem evaluate_empty_makes_no_call (env : Env) (q : str) (df : DataFrame) (w : World) :
  empty df = true ->
  evaluate_search_results env q df w = (Ok (Some NO_RESULTS_MESSAGE), w)
  /\ calls (snd (evaluate_search_results env q df w)) = calls w.
Proof.
  intros He. destruct df as [| r df]; [| discriminate He].
  split; reflexivity.
Qed.

(** C8 with a model that would answer, had it been asked. *)
Lemma evaluate_empty_makes_no_call_witness :
  let env := Fixtures.env_of Fixtures.ucd_none
               (fun _ _ _ => SerpDict None)
               (fun _ _ _ => ChatContent (Some (utf8 "fine results"))) in
  let q := utf8 "foldable wing drone" in
  empty [] = true
  /\ evaluate_search_results env q [] Fixtures.w0
     = (Ok (Some (utf8 "検索結果が得られませんでした。")), Fixtures.w0)
  /\ calls (snd (evaluate_search_results env q [] Fixtures.w0)) = [].
Proof.
  intros env q. split; [reflexivity |].
  exact (@evaluate_empty_makes_no_call env q [] Fixtures.w0 eq_refl).
Defined.

(** On a non-empty result set the model is asked once. *)
Lemma evaluate_nonempty_calls_once (env : Env) (q : str) (r : PatentRecord)
    (df : DataFrame) (w : World) :
  calls (snd (evaluate_search_results env q (r :: df) w))
  = calls w ++ [ChatCall EVALUATE_SYSTEM_PROMPT
                  (evaluate_user_message env q (head 5 (r :: df)))].
Proof.
  unfold evaluate_search_results, try_except, call_chat, bind, emit, ret.
  change (empty (r :: df)) with false. cbv beta iota.
  match goal with
  | |- context [chat env ?t ?s ?u] => destruct (chat env t s u)
  end; reflexivity.
Qed.

(* ================================================================== *)
(** * Best-match selection *)
(* ================================================================== *)

(** The state after a request to a collaborator has been sent. *)
Definition asked (c : call) (w : World) : World :=
  set_tick (S (tick w)) (add_call c w).

(** Two states with the same cache, in memory and on disk. *)
Definition same_store (w w' : World) : Prop :=
  cache w' = cache w /\ cache_file w' = cache_file w.

Lemma same_store_refl (w : World) : same_store w w.
Proof. split; reflexivity. Qed.

Lemma same_store_trans (w1 w2 w3 : World) :
  same_store w1 w2 -> same_store w2 w3 -> same_store w1 w3.
Proof.
  intros [A1 A2] [B1 B2]. split; congruence.
Qed.

Lemma filter_none {A} (f : A -> bool) (l : list A) :
  forallb (fun x => negb (f x)) l = true -> filter f l = [].
Proof.
  induction l as [| a l IH]; simpl; [reflexivity |].
  intros H. apply andb_true_iff in H. destruct H as [Ha Hl].
  apply negb_true_iff in Ha. rewrite Ha. apply IH. exact Hl.
Qed.

Section SelectFacts.
Variable env : Env.

(** [sample_patents] with its added column. *)
Definition sample_of (df : DataFrame) : list sample_row :=
  map (fun r => (r, _normalize_patent_number env (patent_number r))) (head 10 df).

(** The request [_get_most_relevant_patent] sends. *)
Definition select_request (q : str) (df : DataFrame) : call :=
  ChatCall SELECT_SYSTEM_PROMPT (select_user_message env q (sample_of df)).

(** The model's answer to that request in state [w]. *)
Definition select_answer (q : str) (df : DataFrame) (w : World) : chat_outcome :=
  chat env (tick w) SELECT_SYSTEM_PROMPT (select_user_message env q (sample_of df)).

(** The rows of the window whose normalised number is the normalised
    answer. *)
Definition matching_rows (df : DataFrame) (content : str) : list sample_row :=
  filter (fun row => PyStr.eqb (snd row) (_normalize_patent_number env (strip content)))
         (sample_of df).

(** The answer, normalised, is the normalised number of none of the
    first ten records. *)
Definition unrecognized (df : DataFrame) (content : str) : bool :=
  forallb (fun row =>
             negb (PyStr.eqb (snd row) (_normalize_patent_number env (strip content))))
          (sample_of df).

(** The run of [_get_most_relevant_patent] on a non-empty frame, by
    what the model does. *)
Lemma select_run (q : str) (first : PatentRecord) (rest : DataFrame) (w : World) :
  _get_most_relevant_patent env q (first :: rest) w =
  let df := first :: rest in
  let w' := asked (select_request q df) w in
  match select_answer q df w with
  | ChatRaise e =>
      (Ok (JDict (to_dict first)), add_log ERROR (MsgSelectError (exn_str e)) w')
  | ChatContent None =>
      (Ok (JDict (to_dict first)),
       add_log ERROR
         (MsgSelectError (exn_str (no_attribute (utf8 "NoneType") (utf8 "strip")))) w')
  | ChatContent (Some content) =>
      match matching_rows df content with
      | [] =>
          (Ok (JDict (sample_to_dict
                        (first, _normalize_patent_number env (patent_number first)))),
           add_log WARNING (MsgNoMatchingPatent (strip content)) w')
      | found :: _ => (Ok (JDict (sample_to_dict found)), w')
      end
  end.
Proof.
  unfold _get_most_relevant_patent, select_answer, matching_rows, select_request,
    sample_of, asked.
  change (empty (first :: rest)) with false. cbv beta iota zeta.
  unfold try_except, bind, call_chat.
  match goal with
  | |- context [chat env ?t ?s ?u] => destruct (chat env t s u) as [e | [content |]]
  end; try reflexivity.
  unfold py_strip, ret.
  match goal with
  | |- context [filter ?f ?l] => destruct (filter f l) as [| found others]
  end; reflexivity.
Qed.

(** Selection on a non-empty frame returns a non-empty dictionary, does
    not raise, and leaves the cache alone. *)
Lemma select_total (q : str) (first : PatentRecord) (rest : DataFrame) (w : World) :
  exists d w',
    _get_most_relevant_patent env q (first :: rest) w = (Ok (JDict d), w')
    /\ d <> [] /\ same_store w w'.
Proof.
  rewrite select_run. cbv zeta.
  destruct (select_answer q (first :: rest) w) as [e | [content |]].
  - eexists _, _. split; [reflexivity |]. split; [discriminate | split; reflexivity].
  - destruct (matching_rows (first :: rest) content) as [| found others].
    + eexists _, _. split; [reflexivity |].
      split; [discriminate | split; reflexivity].
    + eexists _, _. split; [reflexivity |].
      split; [discriminate | split; reflexivity].
  - eexists _, _. split; [reflexivity |]. split; [discriminate | split; reflexivity].
Qed.

End SelectFacts.

(** The model call failed (it raised, or its answer has no content), or
    its answer names none of the first ten records. *)
Definition no_usable_answer (env : Env) (q : str) (df : DataFrame) (w : World) : Prop :=
  match select_answer env q df w with
  | ChatRaise _ => True
  | ChatContent None => True
  | ChatContent (Some content) => unrecognized env df content = true
  end.

(** C2: on a non-empty result set, when the model call fails or its
    answer matches none of the first ten candidates, selection returns
    the first record and raises nothing: the first row of the result set
    after a failure, the first row of the candidate window (the same
    record, with the window's normalised-number column) after an
    unmatched answer.  Either way the eight fields are those of the first
    record and the result is not the empty record. *)
Theorem select_falls_back_to_first (env : Env) (q : str) (first : PatentRecord)
    (rest : DataFrame) (w : World) :
  no_usable_answer env q (first :: rest) w ->
  exists d w',
    _get_most_relevant_patent env q (first :: rest) w = (Ok (JDict d), w')
    /\ d = match select_answer env q (first :: rest) w with
           | ChatContent (Some _) =>
               sample_to_dict (first, _normalize_patent_number env (patent_number first))
           | _ => to_dict first
           end
    /\ firstn 8 d = to_dict first
    /\ d <> [].
Proof.
  unfold no_usable_answer. intros H.
  rewrite select_run. cbv zeta.
  destruct (select_answer env q (first :: rest) w) as [e | [content |]].
  - eexists _, _. split; [reflexivity |].
    split; [reflexivity | split; [reflexivity | discriminate]].
  - unfold matching_rows. unfold unrecognized in H.
    rewrite (filter_none _ _ H).
    eexists _, _. split; [reflexivity |].
    split; [reflexivity | split; [reflexivity | discriminate]].
  - eexists _, _. split; [reflexivity |].
    split; [reflexivity | split; [reflexivity | discriminate]].
Qed.

Module SelectScenario.

(** The provider lists two patents; the model names a third. *)
Definition env_unmatched : Env :=
  Fixtures.env_of Fixtures.ucd_none
    (fun _ _ _ => SerpDict (Some Fixtures.two_patents))
    (fun _ _ _ => ChatContent (Some (utf8 " US-9,999,999 B2 "))).

(** The model call raises. *)
Definition env_down : Env :=
  Fixtures.env_of Fixtures.ucd_none
    (fun _ _ _ => SerpDict (Some Fixtures.two_patents))
    (fun _ _ _ => ChatRaise Fixtures.boom).

(** The model names the second patent, in another spelling. *)
Definition env_second : Env :=
  Fixtures.env_of Fixtures.ucd_none
    (fun _ _ _ => SerpDict (Some Fixtures.two_patents))
    (fun _ _ _ => ChatContent (Some (utf8 "jp 2019-000001 a"))).

Definition first : PatentRecord :=
  patent_data_of (Fixtures.raw "JP-2020-123456 A" "foldable wing").

Definition second : PatentRecord :=
  patent_data_of (Fixtures.raw "JP2019000001A" "drone frame").

Definition q : str := utf8 "foldable wing drone".

End SelectScenario.

(** C2 with a model that names a patent outside the result set. *)
Lemma select_falls_back_to_first_witness :
  no_usable_answer SelectScenario.env_unmatched SelectScenario.q
    [SelectScenario.first; SelectScenario.second] Fixtures.w0
  /\ exists d w',
      _get_most_relevant_patent SelectScenario.env_unmatched SelectScenario.q
        [SelectScenario.first; SelectScenario.second] Fixtures.w0 = (Ok (JDict d), w')
      /\ d = to_dict SelectScenario.first
             ++ [(K_normalized_patent_number, JStr (utf8 "JP2020123456A"))]
      /\ firstn 8 d = to_dict SelectScenario.first
      /\ d <> [].
Proof.
  assert (H : no_usable_answer SelectScenario.env_unmatched SelectScenario.q
                [SelectScenario.first; SelectScenario.second] Fixtures.w0)
    by reflexivity.
  split; [exact H |].
  exact (select_falls_back_to_first SelectScenario.env_unmatched SelectScenario.q
           SelectScenario.first [SelectScenario.second] Fixtures.w0 H).
Defined.

(** The same with a model call that raises: the first row, as the
    provider gave it. *)
Example select_after_failure :
  fst (_get_most_relevant_patent SelectScenario.env_down SelectScenario.q
         [SelectScenario.first; SelectScenario.second] Fixtures.w0)
  = Ok (JDict (to_dict SelectScenario.first)).
Proof. reflexivity. Qed.

(** A recognised answer selects its record, whatever its spelling. *)
Example select_recognised :
  fst (_get_most_relevant_patent SelectScenario.env_second SelectScenario.q
         [SelectScenario.first; SelectScenario.second] Fixtures.w0)
  = Ok (JDict (to_dict SelectScenario.second
                 ++ [(K_normalized_patent_number, JStr (utf8 "JP2019000001A"))])).
Proof. reflexivity. Qed.

(** Records beyond the tenth are not candidates: a model that names the
    eleventh gets the first. *)
Example select_ignores_eleventh :
  let eleventh := patent_data_of (Fixtures.raw "JP2011000011A" "eleventh") in
  let df := repeat SelectScenario.first 10 ++ [eleventh] in
  let env := Fixtures.env_of Fixtures.ucd_none (fun _ _ _ => SerpDict None)
               (fun _ _ _ => ChatContent (Some (utf8 "JP2011000011A"))) in
  fst (_get_most_relevant_patent env SelectScenario.q df Fixtures.w0)
  = Ok (JDict (to_dict SelectScenario.first
                 ++ [(K_normalized_patent_number, JStr (utf8 "JP2020123456A"))])).
Proof. reflexivity. Qed.

(* ================================================================== *)
(** * Search *)
(* ================================================================== *)

Section SearchFacts.
Variable env : Env.

(** [search_patents] absorbs every exception of its body. *)
Lemma search_patents_total (q : str) (num : Z) (w : World) :
  exists df w', search_patents env q num w = (Ok df, w').
Proof.
  unfold search_patents, try_except.
  match goal with
  | |- context [match ?b w with _ => _ end] => destruct (b w) as [[df | e] w1]
  end.
  - eexists _, _. reflexivity.
  - eexists _, _. reflexivity.
Qed.

(** A non-empty frame comes out of [search_patents] only after the
    best match has been selected, stored under the query and written to
    the cache file. *)
Lemma search_patents_nonempty (q : str) (num : Z) (w : World) (df : DataFrame)
    (w' : World) :
  search_patents env q num w = (Ok df, w') ->
  df <> [] ->
  exists organic d selected w1,
    serp env (tick w) q num = SerpDict (Some organic)
    /\ df = map patent_data_of organic
    /\ cache w = JDict d
    /\ _get_most_relevant_patent env q df (asked (SerpCall q num) w)
       = (Ok selected, w1)
    /\ cache w' = JDict (dict_set q
                           (JDict [(PatentCache.K_patent_data, selected);
                                   (PatentCache.K_last_updated,
                                    JStr (clock_iso env (tick w1)))]) d)
    /\ cache_file w' = FileJson (cache w').
Proof.
  unfold search_patents, try_except, bind, call_serp.
  fold (asked (SerpCall q num) w).
  destruct (serp env (tick w) q num) as [e | [organic |]].
  - unfold emit, ret. intros H Hne. inversion H. subst. contradiction.
  - destruct (map patent_data_of organic) as [| r rest] eqn:Edf.
    + simpl. unfold ret. intros H Hne. inversion H. subst. contradiction.
    + change (negb (empty (r :: rest))) with true. cbv beta iota.
      destruct (select_total env q r rest (asked (SerpCall q num) w))
        as (sd & w1 & Hsel & Hsd & Hst1 & Hst2).
      rewrite Hsel.
      destruct sd as [| item sd]; [contradiction |].
      change (truthy (JDict (item :: sd))) with true. cbv beta iota.
      destruct (cache w) as [| | | | | d] eqn:Ecw.
      6: {
        assert (Hc1 : cache w1 = JDict d) by (rewrite Hst1; exact Ecw).
        destruct (update_cache_run env q (JDict (item :: sd)) w1 d Hc1)
          as (r0 & w2 & Hrun & Hc2 & _ & _ & Hfile).
        rewrite Hrun. destruct r0 as [[] | e].
        - unfold emit, py_get, ret. cbv beta iota.
          intros H Hne. inversion H. subst df w'. clear H.
          exists organic, d, (JDict (item :: sd)), w1.
          split; [reflexivity |]. split; [symmetry; exact Edf |].
          split; [reflexivity |].
          split; [exact Hsel |]. simpl. split; [exact Hc2 |].
          apply Hfile. reflexivity.
        - unfold emit, ret. intros H Hne. inversion H. subst. contradiction.
      }
      all: destruct (update_cache_not_dict env q (JDict (item :: sd)) w1) as [e He];
        [ intros d0; rewrite Hst1; change (cache (asked (SerpCall q num) w)) with (cache w);
          rewrite Ecw; discriminate
        | rewrite He; unfold emit, ret; intros H Hne; inversion H; subst; contradiction ].
  - unfold emit, ret. simpl. intros H Hne. inversion H. subst. contradiction.
Qed.

End SearchFacts.

(* ================================================================== *)
(** * Query optimisation *)
(* ================================================================== *)

(** The first three steps of the body of [optimize_query], lines
    212-252: the live search, its evaluation and the user message, up to
    the request for a rewrite. *)
Definition prepare_rewrite (env : Env) (query : str)
    (previous_queries : list str) (previous_evaluations : list (option str))
  : M (DataFrame * option str * str) :=
  results <- search_patents env query 100 ;;
  evaluation <- evaluate_search_results env query results ;;
  user_message <- optimize_user_message query (List.length results) evaluation
                    previous_queries previous_evaluations ;;
  ret (results, evaluation, user_message).

(** The [except] branch of [optimize_query]. *)
Definition optimize_failed (query : str) (e : exn) (w : World)
  : result (str * option str) * World :=
  (Ok (query, Some (OPTIMIZATION_ERROR_PREFIX ++ exn_str e)),
   add_log ERROR (MsgOptimizationError (exn_str e)) w).

Section OptimizeFacts.
Variable env : Env.

Lemma evaluate_total (q : str) (df : DataFrame) (w : World) :
  exists t w', evaluate_search_results env q df w = (Ok t, w') /\ same_store w w'.
Proof.
  destruct df as [| r df].
  - eexists _, _. split; [reflexivity | apply same_store_refl].
  - unfold evaluate_search_results, try_except, call_chat, bind, emit, ret.
    change (empty (r :: df)) with false. cbv beta iota.
    match goal with
    | |- context [chat env ?t ?s ?u] => destruct (chat env t s u)
    end; eexists _, _; (split; [reflexivity | split; reflexivity]).
Qed.

Lemma truncate_text_pure (text : option str) (n : nat) (w : World) :
  exists r, truncate_text text n w = (r, w).
Proof.
  destruct text; eexists; reflexivity.
Qed.

Lemma append_history_pure (pairs : list (str * option str)) :
  forall (user_message : str) (w : World),
  exists r, append_history user_message pairs w = (r, w).
Proof.
  induction pairs as [| [pq pe] pairs IH]; intros um w.
  - eexists. reflexivity.
  - simpl. unfold bind.
    destruct (truncate_text_pure pe 200 w) as [[shown | e] ->].
    + apply IH.
    + eexists. reflexivity.
Qed.

(** Building the user message touches nothing of the process state. *)
Lemma optimize_user_message_pure (q : str) (n : nat) (ev : option str)
    (pq : list str) (pe : list (option str)) (w : World) :
  exists r, optimize_user_message q n ev pq pe w = (r, w).
Proof.
  unfold optimize_user_message, optimize_header, bind.
  destruct (truncate_text_pure ev 200 w) as [[shown | e] ->];
    [| eexists; reflexivity].
  unfold ret at 1.
  destruct (negb (Nat.eqb (List.length pq) 0) && negb (Nat.eqb (List.length pe) 0)).
  - match goal with
    | |- context [append_history ?um ?ps w] =>
        destruct (append_history_pure ps um w) as [[um' | e] ->]
    end; eexists; reflexivity.
  - eexists. reflexivity.
Qed.

(** [optimize_query], by how far its body gets and by what the model
    answers to the rewrite request. *)
Lemma optimize_query_run (q : str) (pq : list str) (pe : list (option str))
    (w : World) :
  optimize_query env q pq pe w =
  match prepare_rewrite env q pq pe w with
  | (Raise e, w3) => optimize_failed q e w3
  | (Ok (results, evaluation, user_message), w3) =>
      let w4 := asked (ChatCall OPTIMIZE_SYSTEM_PROMPT user_message) w3 in
      match chat env (tick w3) OPTIMIZE_SYSTEM_PROMPT user_message with
      | ChatRaise e => optimize_failed q e w4
      | ChatContent None =>
          optimize_failed q (no_attribute (utf8 "NoneType") (utf8 "strip")) w4
      | ChatContent (Some content) =>
          (Ok (clean_answer content, evaluation),
           add_log INFO
             (optimization_note (List.length results) (clean_answer content)) w4)
      end
  end.
Proof.
  unfold optimize_query, prepare_rewrite, try_except, bind, optimize_failed.
  destruct (search_patents env q 100 w) as [[results | e] w1]; [| reflexivity].
  destruct (evaluate_search_results env q results w1) as [[ev | e] w2];
    [| reflexivity].
  destruct (optimize_user_message q (List.length results) ev pq pe w2)
    as [[um | e] w3]; [| reflexivity].
  unfold ret, emit, py_strip, raise, call_chat, asked. cbv beta iota zeta.
  destruct (chat env (tick w3) OPTIMIZE_SYSTEM_PROMPT um) as [e | [content |]];
    reflexivity.
Qed.

(** Whatever the collaborators do, [prepare_rewrite] leaves the cache as
    the live search left it. *)
Lemma prepare_rewrite_store (q : str) (pq : list str) (pe : list (option str))
    (w : World) :
  exists results w1 r w3,
    search_patents env q 100 w = (Ok results, w1)
    /\ prepare_rewrite env q pq pe w = (r, w3)
    /\ same_store w1 w3
    /\ (forall x, r = Ok x -> fst (fst x) = results).
Proof.
  destruct (search_patents_total env q 100 w) as (results & w1 & Hs).
  destruct (evaluate_total q results w1) as (ev & w2 & He & Hst).
  destruct (optimize_user_message_pure q (List.length results) ev pq pe w2)
    as (r & Hu).
  unfold prepare_rewrite, bind. rewrite Hs, He, Hu.
  destruct r as [um | e].
  - exists results, w1, (Ok (results, ev, um)), w2.
    split; [reflexivity |]. split; [reflexivity |]. split; [exact Hst |].
    intros x Hx. inversion Hx. reflexivity.
  - exists results, w1, (Raise e), w2.
    split; [reflexivity |]. split; [reflexivity |]. split; [exact Hst |].
    intros x Hx. discriminate Hx.
Qed.

End OptimizeFacts.

(** The exception raised inside the [try] body of [optimize_query], if
    any: one raised on the way to the rewrite request, the failure of
    that request, or the [strip] of an answer without content.  Failures
    of the nested search, selection and evaluation do not show here:
    those operations absorb them. *)
Definition body_exception (env : Env) (q : str) (pq : list str)
    (pe : list (option str)) (w : World) : option exn :=
  match prepare_rewrite env q pq pe w with
  | (Raise e, _) => Some e
  | (Ok (_, _, user_message), w3) =>
      match chat env (tick w3) OPTIMIZE_SYSTEM_PROMPT user_message with
      | ChatRaise e => Some e
      | ChatContent None => Some (no_attribute (utf8 "NoneType") (utf8 "strip"))
      | ChatContent (Some _) => None
      end
  end.

Lemma optimize_query_total (env : Env) (q : str) (pq : list str)
    (pe : list (option str)) (w : World) :
  exists r w', optimize_query env q pq pe w = (Ok r, w').
Proof.
  rewrite optimize_query_run. unfold optimize_failed.
  destruct (prepare_rewrite env q pq pe w) as [[[[results ev] um] | e] w3].
  - cbv zeta.
    destruct (chat env (tick w3) OPTIMIZE_SYSTEM_PROMPT um) as [e | [content |]];
      eexists _, _; reflexivity.
  - eexists _, _. reflexivity.
Qed.

(** The rewrite request is the last request of a run that gets to it,
    and its system prompt is the one fixed text. *)
Lemma optimize_last_call (env : Env) (q : str) (pq : list str)
    (pe : list (option str)) (w : World) (results : DataFrame) (ev : option str)
    (um : str) (w3 : World) :
  prepare_rewrite env q pq pe w = (Ok (results, ev, um), w3) ->
  calls (snd (optimize_query env q pq pe w))
  = calls w3 ++ [ChatCall OPTIMIZE_SYSTEM_PROMPT um].
Proof.
  intros Hp. rewrite optimize_query_run, Hp. cbv zeta. unfold optimize_failed.
  destruct (chat env (tick w3) OPTIMIZE_SYSTEM_PROMPT um) as [e | [content |]];
    reflexivity.
Qed.

(** The user message opens with the query and the live count, written
    as a number. *)
Lemma append_history_extends (pairs : list (str * option str)) :
  forall (um r : str) (w w' : World),
    append_history um pairs w = (Ok r, w') -> exists tail, r = um ++ tail.
Proof.
  induction pairs as [| [pq pe] pairs IH]; intros um r w w' H.
  - inversion H. exists []. rewrite app_nil_r. reflexivity.
  - simpl in H. unfold bind in H.
    destruct (truncate_text pe 200 w) as [[shown | e] w1]; [| discriminate H].
    destruct (IH _ _ _ _ H) as [tail ->].
    eexists. rewrite <- app_assoc. reflexivity.
Qed.

Lemma optimize_user_message_carries_count (q : str) (n : nat) (ev : option str)
    (pq : list str) (pe : list (option str)) (w w' : World) (um : str) :
  optimize_user_message q n ev pq pe w = (Ok um, w') ->
  exists tail,
    um = (NL ++ utf8 "基本クエリ: " ++ q ++ NL
          ++ utf8 "現在の検索結果件数: " ++ str_of_nat n ++ NL) ++ tail.
Proof.
  unfold optimize_user_message, optimize_header, bind.
  destruct (truncate_text ev 200 w) as [[shown | e] w1]; [| discriminate].
  unfold ret at 1.
  destruct (negb (Nat.eqb (List.length pq) 0) && negb (Nat.eqb (List.length pe) 0)).
  - match goal with
    | |- context [append_history ?u ?ps w1] =>
        destruct (append_history u ps w1) as [[um' | e] w2] eqn:Eh
    end; [| discriminate].
    unfold ret. intros H.
    assert (Hum : um = um' ++ OPTIMIZE_REQUEST) by congruence.
    destruct (append_history_extends _ _ _ _ _ Eh) as [tail Ht].
    exists (utf8 "現在の評価結果: " ++ shown ++ NL ++ NL
            ++ (utf8 "過去の検索履歴（要約）:" ++ NL) ++ tail ++ OPTIMIZE_REQUEST).
    rewrite Hum, Ht. repeat rewrite <- app_assoc. reflexivity.
  - unfold ret. intros H.
    exists (utf8 "現在の評価結果: " ++ shown ++ NL ++ NL ++ OPTIMIZE_REQUEST).
    assert (Hum : forall x, (Ok x, w1) = (Ok um, w') -> um = x) by congruence.
    rewrite (Hum _ H). repeat rewrite <- app_assoc. reflexivity.
Qed.

Module OptimizeScenario.

Definition q : str := utf8 "foldable wing drone".

Definition answers (text : string) : nat -> str -> str -> chat_outcome :=
  fun _ _ _ => ChatContent (Some (utf8 text)).


Definition blank : raw_patent :=
  {| raw_title := None; raw_patent_number := None; raw_filing_date := None;
     raw_publication_date := None; raw_inventors := None; raw_assignee := None;
     raw_snippet := None; raw_link := None |}.

(** The provider finds nothing. *)
Definition env_none : Env :=
  Fixtures.env_of Fixtures.ucd_none (fun _ _ _ => SerpDict (Some []))
    (answers "提案クエリ: drone wing").

(** The provider returns 1500 results. *)
Definition env_many : Env :=
  Fixtures.env_of Fixtures.ucd_none (fun _ _ _ => SerpDict (Some (repeat blank 1500)))
    (answers "提案クエリ: drone wing").

(** The provider returns two results. *)
Definition env_two : Env :=
  Fixtures.env_of Fixtures.ucd_none (fun _ _ _ => SerpDict (Some Fixtures.two_patents))
    (answers "JP2019000001A").

(** The provider is down; the model answers. *)
Definition env_serp_down : Env :=
  Fixtures.env_of Fixtures.ucd_none (fun _ _ _ => SerpRaise Fixtures.boom)
    (answers "drone wing").


(** The model is down. *)
Definition env_model_down : Env :=
  Fixtures.env_of Fixtures.ucd_none (fun _ _ _ => SerpDict (Some Fixtures.two_patents))
    (fun _ _ _ => ChatRaise Fixtures.boom).

End OptimizeScenario.

(** C1 (amended): in a call of [optimize] whose rewrite request is
    answered, the live count falls in one of three regimes, 0, above
    1000, anything else, and the regime selects the note the optimizer
    logs (broader, narrower, relevance).  The request itself is the same
    for every count: the one system prompt that lists all three
    instructions, with a user message that carries the count as a
    number. *)
Theorem optimize_note_follows_count (env : Env) (q : str) (pq : list str)
    (pe : list (option str)) (w : World) (results : DataFrame) (ev : option str)
    (um : str) (w3 : World) (content : str) :
  prepare_rewrite env q pq pe w = (Ok (results, ev, um), w3) ->
  chat env (tick w3) OPTIMIZE_SYSTEM_PROMPT um = ChatContent (Some content) ->
  let n := List.length results in
  let improved := clean_answer content in
  let w' := snd (optimize_query env q pq pe w) in
  fst (optimize_query env q pq pe w) = Ok (improved, ev)
  /\ calls w' = calls w3 ++ [ChatCall OPTIMIZE_SYSTEM_PROMPT um]
  /\ (exists tail,
         um = (NL ++ utf8 "基本クエリ: " ++ q ++ NL
               ++ utf8 "現在の検索結果件数: " ++ str_of_nat n ++ NL) ++ tail)
  /\ (n = 0 -> log w' = log w3 ++ [(INFO, MsgBroaden improved)])
  /\ (1000 < n -> log w' = log w3 ++ [(INFO, MsgNarrow improved)])
  /\ (0 < n <= 1000 -> log w' = log w3 ++ [(INFO, MsgRelevance improved)]).
Proof.
  intros Hp Hc n improved w'.
  assert (Hrun : optimize_query env q pq pe w
                 = (Ok (improved, ev),
                    add_log INFO (optimization_note n improved)
                      (asked (ChatCall OPTIMIZE_SYSTEM_PROMPT um) w3))).
  { rewrite optimize_query_run, Hp. cbv zeta. rewrite Hc. reflexivity. }
  assert (Hum : exists tail,
             um = (NL ++ utf8 "基本クエリ: " ++ q ++ NL
                   ++ utf8 "現在の検索結果件数: " ++ str_of_nat n ++ NL) ++ tail).
  { unfold prepare_rewrite, bind in Hp.
    destruct (search_patents env q 100 w) as [[results0 | e] w1]; [| discriminate Hp].
    destruct (evaluate_search_results env q results0 w1) as [[ev0 | e] w2];
      [| discriminate Hp].
    destruct (optimize_user_message q (List.length results0) ev0 pq pe w2)
      as [[um0 | e] w2'] eqn:Eu; [| discriminate Hp].
    unfold ret in Hp.
    assert (Hr : results0 = results) by congruence.
    assert (Hm : um0 = um) by congruence.
    subst results0 um0.
    apply (optimize_user_message_carries_count _ _ _ _ _ _ _ _ Eu). }
  subst w'. rewrite Hrun. simpl fst. simpl snd.
  split; [reflexivity |]. split; [reflexivity |]. split; [exact Hum |].
  unfold optimization_note. simpl log.
  split; [| split].
  - intros H0. rewrite H0. reflexivity.
  - intros Hgt. destruct (Nat.eqb_spec n 0) as [E | _]; [lia |].
    destruct (Nat.ltb_spec 1000 n) as [_ | Hle]; [reflexivity | lia].
  - intros [Hpos Hle]. destruct (Nat.eqb_spec n 0) as [E | _]; [lia |].
    destruct (Nat.ltb_spec 1000 n) as [Hlt | _]; [lia | reflexivity].
Qed.

(** The user message and the state a run reaches the rewrite request
    with. *)
Definition stage_message (r : result (DataFrame * option str * str) * World) : str :=
  match fst r with
  | Ok (_, _, user_message) => user_message
  | Raise _ => []
  end.

(** The amended C1 on a search with two results: the relevance note. *)
Lemma optimize_note_follows_count_witness :
  let env := OptimizeScenario.env_two in
  let q := OptimizeScenario.q in
  let stage := prepare_rewrite env q [] [] Fixtures.w0 in
  let results := map patent_data_of Fixtures.two_patents in
  let ev := Some (utf8 "JP2019000001A") in
  let um := stage_message stage in
  let w3 := snd stage in
  stage = (Ok (results, ev, um), w3)
  /\ chat env (tick w3) OPTIMIZE_SYSTEM_PROMPT um
     = ChatContent (Some (utf8 "JP2019000001A"))
  /\ 0 < List.length results <= 1000
  /\ fst (optimize_query env q [] [] Fixtures.w0) = Ok (utf8 "JP2019000001A", ev)
  /\ log (snd (optimize_query env q [] [] Fixtures.w0))
     = log w3 ++ [(INFO, MsgRelevance (utf8 "JP2019000001A"))].
Proof.
  intros env q stage results ev um w3.
  assert (Hp : stage = (Ok (results, ev, um), w3)) by (vm_compute; reflexivity).
  assert (Hc : chat env (tick w3) OPTIMIZE_SYSTEM_PROMPT um
               = ChatContent (Some (utf8 "JP2019000001A"))) by reflexivity.
  assert (Hn : 0 < List.length results <= 1000) by (simpl; lia).
  split; [exact Hp |]. split; [exact Hc |]. split; [exact Hn |].
  destruct (optimize_note_follows_count env q [] [] Fixtures.w0 results ev um w3
              (utf8 "JP2019000001A") Hp Hc)
    as (Hres & _ & _ & _ & _ & Hrel).
  split; [exact Hres | exact (Hrel Hn)].
Defined.

(** C1 as the claim words it: the instruction given to the model is the
    broaden branch at count 0, the narrow branch above 1000 and the
    hold-steady branch otherwise. *)
Definition claimed_instruction (broaden narrow hold : str) (n : nat) : str :=
  if Nat.eqb n 0 then broaden
  else if Nat.ltb 1000 n then narrow
  else hold.

(** The instruction of a request to the model: its system prompt. *)
Definition instruction_of (c : call) : str :=
  match c with
  | ChatCall system_prompt _ => system_prompt
  | SerpCall _ _ => []
  end.

(** The last request of a state. *)
Definition last_call (w : World) : call := last (calls w) (SerpCall [] 0).

Lemma optimize_instruction_fixed (env : Env) (q : str) (pq : list str)
    (pe : list (option str)) (w : World) (results : DataFrame) (ev : option str)
    (um : str) (w3 : World) :
  prepare_rewrite env q pq pe w = (Ok (results, ev, um), w3) ->
  instruction_of (last_call (snd (optimize_query env q pq pe w)))
  = OPTIMIZE_SYSTEM_PROMPT.
Proof.
  intros Hp. unfold last_call.
  rewrite (optimize_last_call env q pq pe w results ev um w3 Hp).
  rewrite last_last. reflexivity.
Qed.

Lemma live_count_none :
  exists ev um w3,
    prepare_rewrite OptimizeScenario.env_none OptimizeScenario.q [] [] Fixtures.w0
    = (Ok ([], ev, um), w3).
Proof. eexists _, _, _. vm_compute. reflexivity. Qed.

Lemma live_count_many :
  exists results ev um w3,
    prepare_rewrite OptimizeScenario.env_many OptimizeScenario.q [] [] Fixtures.w0
    = (Ok (results, ev, um), w3)
    /\ List.length results = 1500.
Proof. eexists _, _, _, _. vm_compute. split; reflexivity. Qed.

(** C1 as stated fails: no three instructions, the broaden one different
    from the narrow one, are selected by the count.  A search with no
    result and a search with 1500 results send the model the same
    instruction. *)
Lemma optimize_instruction_not_selected_by_count :
  ~ exists broaden narrow hold : str,
      broaden <> narrow
      /\ forall env q pq pe w results ev um w3,
           prepare_rewrite env q pq pe w = (Ok (results, ev, um), w3) ->
           instruction_of (last_call (snd (optimize_query env q pq pe w)))
           = claimed_instruction broaden narrow hold (List.length results).
Proof.
  intros (broaden & narrow & hold & Hne & H).
  destruct live_count_none as (ev0 & um0 & w0' & H0).
  destruct live_count_many as (results & ev1 & um1 & w1' & H1 & Hlen).
  pose proof (H _ _ _ _ _ _ _ _ _ H0) as E0.
  pose proof (H _ _ _ _ _ _ _ _ _ H1) as E1.
  rewrite (optimize_instruction_fixed _ _ _ _ _ _ _ _ _ H0) in E0.
  rewrite (optimize_instruction_fixed _ _ _ _ _ _ _ _ _ H1) in E1.
  rewrite Hlen in E1.
  change (claimed_instruction broaden narrow hold (List.length (@nil PatentRecord)))
    with broaden in E0.
  assert (En : claimed_instruction broaden narrow hold 1500 = narrow)
    by (vm_compute; reflexivity).
  rewrite En in E1. apply Hne. congruence.
Qed.

(** The two runs side by side: the same instruction, different notes. *)
Example optimize_same_instruction_at_0_and_1500 :
  let run0 := optimize_query OptimizeScenario.env_none OptimizeScenario.q [] []
                Fixtures.w0 in
  let run1500 := optimize_query OptimizeScenario.env_many OptimizeScenario.q [] []
                   Fixtures.w0 in
  instruction_of (last_call (snd run0)) = instruction_of (last_call (snd run1500))
  /\ last (log (snd run0)) (INFO, MsgOptimizing) = (INFO, MsgBroaden (utf8 "drone wing"))
  /\ last (log (snd run1500)) (INFO, MsgOptimizing)
     = (INFO, MsgNarrow (utf8 "drone wing")).
Proof. vm_compute. repeat split. Qed.

(** When the body of [optimize_query] fails, that is when building the
    rewrite request or the rewrite request itself raises, or the answer
    has no content, the original query comes back unchanged, paired with
    a text that carries the description of the failure. *)
Lemma optimize_degrades_to_original_query (env : Env) (q : str) (pq : list str)
    (pe : list (option str)) (w : World) (e : exn) :
  body_exception env q pq pe w = Some e ->
  fst (optimize_query env q pq pe w)
  = Ok (q, Some (OPTIMIZATION_ERROR_PREFIX ++ exn_str e))
  /\ exists r w', optimize_query env q pq pe w = (Ok r, w').
Proof.
  intros Hb. split; [| apply optimize_query_total].
  unfold body_exception in Hb. rewrite optimize_query_run.
  destruct (prepare_rewrite env q pq pe w) as [[[[results ev] um] | e0] w3].
  - cbv zeta.
    destruct (chat env (tick w3) OPTIMIZE_SYSTEM_PROMPT um) as [e1 | [content |]].
    + inversion Hb. reflexivity.
    + discriminate Hb.
    + inversion Hb. reflexivity.
  - inversion Hb. reflexivity.
Qed.

(** A model that is down: selection falls back, evaluation reports the
    failure, the rewrite request fails. *)
Lemma optimize_degrades_to_original_query_witness :
  let env := OptimizeScenario.env_model_down in
  let q := OptimizeScenario.q in
  body_exception env q [] [] Fixtures.w0 = Some Fixtures.boom
  /\ fst (optimize_query env q [] [] Fixtures.w0)
     = Ok (q, Some (utf8 "最適化中にエラーが発生しました: connection reset"))
  /\ exists r w', optimize_query env q [] [] Fixtures.w0 = (Ok r, w').
Proof.
  intros env q.
  assert (Hb : body_exception env q [] [] Fixtures.w0 = Some Fixtures.boom)
    by (vm_compute; reflexivity).
  split; [exact Hb |].
  exact (optimize_degrades_to_original_query env q [] [] Fixtures.w0 Fixtures.boom Hb).
Defined.


(** C10: when the live search inside [optimize q] returns a non-empty
    result set, the state [optimize] leaves has a cache entry under [q]
    that holds the record selected from that result set, in memory and
    in the cache file, whether or not the rewrite that follows
    succeeds. *)
Theorem optimize_writes_cache_entry (env : Env) (q : str) (pq : list str)
    (pe : list (option str)) (w : World) (results : DataFrame) (w1 : World) :
  search_patents env q 100 w = (Ok results, w1) ->
  results <> [] ->
  exists r w' d selected stamp,
    optimize_query env q pq pe w = (Ok r, w')
    /\ cache w = JDict d
    /\ fst (_get_most_relevant_patent env q results (asked (SerpCall q 100) w))
       = Ok selected
    /\ cache w' = JDict (dict_set q
                           (JDict [(PatentCache.K_patent_data, selected);
                                   (PatentCache.K_last_updated, JStr stamp)]) d)
    /\ PatentCache.get_cached_patent q w' = (Ok selected, w')
    /\ cache_file w' = FileJson (cache w').
Proof.
  intros Hs Hne.
  destruct (search_patents_nonempty env q 100 w results w1 Hs Hne)
    as (organic & d & selected & ws & _ & _ & Hd & Hsel & Hc1 & Hf1).
  destruct (prepare_rewrite_store env q pq pe w)
    as (results' & w1' & r3 & w3 & Hs' & Hp & [Hst1 Hst2] & _).
  rewrite Hs in Hs'. inversion Hs'. subst results' w1'. clear Hs'.
  assert (Hfinal : exists r w', optimize_query env q pq pe w = (Ok r, w')
                                /\ cache w' = cache w3
                                /\ cache_file w' = cache_file w3).
  { rewrite optimize_query_run, Hp. unfold optimize_failed.
    destruct r3 as [[[results3 ev] um] | e].
    - cbv zeta.
      destruct (chat env (tick w3) OPTIMIZE_SYSTEM_PROMPT um) as [e | [content |]];
        eexists _, _; (split; [reflexivity | split; reflexivity]).
    - eexists _, _. split; [reflexivity | split; reflexivity]. }
  destruct Hfinal as (r & w' & Hrun & Hc & Hf).
  assert (Hcache : cache w' = JDict (dict_set q
                     (JDict [(PatentCache.K_patent_data, selected);
                             (PatentCache.K_last_updated,
                              JStr (clock_iso env (tick ws)))]) d))
    by (rewrite Hc, Hst1; exact Hc1).
  exists r, w', d, selected, (clock_iso env (tick ws)).
  split; [exact Hrun |]. split; [exact Hd |].
  split; [rewrite Hsel; reflexivity |].
  split; [exact Hcache |]. split.
  - eapply get_cached_patent_present;
      [exact Hcache | apply dict_get_set_same | reflexivity].
  - rewrite Hf, Hst2, Hf1, Hc, Hst1. reflexivity.
Qed.

(** C10 on a search with two results, of which the model names the
    second. *)
Lemma optimize_writes_cache_entry_witness :
  let env := OptimizeScenario.env_two in
  let q := OptimizeScenario.q in
  let results := map patent_data_of Fixtures.two_patents in
  fst (search_patents env q 100 Fixtures.w0) = Ok results
  /\ results <> []
  /\ PatentCache.get_cached_patent q Fixtures.w0 = (Ok (JDict []), Fixtures.w0)
  /\ exists r w' d selected stamp,
      optimize_query env q [] [] Fixtures.w0 = (Ok r, w')
      /\ cache Fixtures.w0 = JDict d
      /\ fst (_get_most_relevant_patent env q results
                (asked (SerpCall q 100) Fixtures.w0)) = Ok selected
      /\ cache w' = JDict (dict_set q
                             (JDict [(PatentCache.K_patent_data, selected);
                                     (PatentCache.K_last_updated, JStr stamp)]) d)
      /\ PatentCache.get_cached_patent q w' = (Ok selected, w')
      /\ cache_file w' = FileJson (cache w').
Proof.
  intros env q results.
  assert (Hs : search_patents env q 100 Fixtures.w0
               = (Ok results, snd (search_patents env q 100 Fixtures.w0)))
    by (vm_compute; reflexivity).
  assert (Hne : results <> []) by discriminate.
  split; [rewrite Hs; reflexivity |]. split; [exact Hne |].
  split; [reflexivity |].
  exact (optimize_writes_cache_entry env q [] [] Fixtures.w0 results _ Hs Hne).
Defined.

(** The entry that run leaves in the cache. *)
Example optimize_cached_record :
  let w' := snd (optimize_query OptimizeScenario.env_two OptimizeScenario.q [] []
                   Fixtures.w0) in
  fst (PatentCache.get_cached_patent OptimizeScenario.q w')
  = Ok (JDict (to_dict SelectScenario.second
                 ++ [(K_normalized_patent_number, JStr (utf8 "JP2019000001A"))])).
Proof. vm_compute. reflexivity. Qed.

(** The rewritten query of a run whose rewrite request is answered is
    the cleaned answer. *)
Lemma optimize_returns_clean_answer (env : Env) (q : str) (pq : list str)
    (pe : list (option str)) (w : World) (results : DataFrame) (ev : option str)
    (um : str) (w3 : World) (content : str) :
  prepare_rewrite env q pq pe w = (Ok (results, ev, um), w3) ->
  chat env (tick w3) OPTIMIZE_SYSTEM_PROMPT um = ChatContent (Some content) ->
  fst (optimize_query env q pq pe w) = Ok (clean_answer content, ev).
Proof.
  intros Hp Hc. rewrite optimize_query_run, Hp. cbv zeta. rewrite Hc. reflexivity.
Qed.

(** C7 (amended): in a run of [optimize] whose rewrite request is
    answered with a text, the new query is that text trimmed, then
    relieved of each of the labels 提案クエリ, 改善クエリ and 最適化クエリ
    (each with its colon and one space) that it begins with when the
    label's turn comes, in this order and once each, then trimmed again.
    So an answer that, once trimmed, is one of these labels followed by
    a text that begins with none of them yields that text, trimmed; and
    an answer that begins with none of them yields the answer,
    trimmed. *)
Theorem optimize_strips_labels (env : Env) (q : str) (pq : list str)
    (pe : list (option str)) (w : World) (results : DataFrame) (ev : option str)
    (um : str) (w3 : World) (content : str) :
  prepare_rewrite env q pq pe w = (Ok (results, ev, um), w3) ->
  chat env (tick w3) OPTIMIZE_SYSTEM_PROMPT um = ChatContent (Some content) ->
  let trimmed := strip content in
  fst (optimize_query env q pq pe w)
  = Ok (strip (remove_prefix
                 (remove_prefix
                    (remove_prefix trimmed (utf8 "提案クエリ: "))
                    (utf8 "改善クエリ: "))
                 (utf8 "最適化クエリ: ")),
        ev)
  /\ (forall p rest,
         In p PREFIXES -> trimmed = p ++ rest -> label_free rest = true ->
         fst (optimize_query env q pq pe w) = Ok (strip rest, ev))
  /\ (label_free trimmed = true ->
      fst (optimize_query env q pq pe w) = Ok (trimmed, ev)).
Proof.
  intros Hp Hc trimmed.
  rewrite (optimize_returns_clean_answer env q pq pe w results ev um w3 content Hp Hc).
  split; [reflexivity |]. split.
  - intros p rest Hin Ht Hfree.
    rewrite (clean_answer_strips_label content p rest Hin Ht Hfree). reflexivity.
  - intros Hfree. rewrite (clean_answer_unlabelled content Hfree). reflexivity.
Qed.

Module LabelScenario.

(** The provider finds nothing and the model answers every request with
    [text]. *)
Definition env (text : string) : Env :=
  Fixtures.env_of Fixtures.ucd_none (fun _ _ _ => SerpDict (Some []))
    (OptimizeScenario.answers text).

Definition q : str := utf8 "battery".

End LabelScenario.

(** The amended C7 at the answer ["  提案クエリ: electric vehicle battery "]. *)
Lemma optimize_strips_labels_witness :
  let env := LabelScenario.env "  提案クエリ: electric vehicle battery " in
  let q := LabelScenario.q in
  let content := utf8 "  提案クエリ: electric vehicle battery " in
  let stage := prepare_rewrite env q [] [] Fixtures.w0 in
  let ev := Some NO_RESULTS_MESSAGE in
  let um := stage_message stage in
  let w3 := snd stage in
  stage = (Ok ([], ev, um), w3)
  /\ chat env (tick w3) OPTIMIZE_SYSTEM_PROMPT um = ChatContent (Some content)
  /\ In (utf8 "提案クエリ: ") PREFIXES
  /\ strip content = utf8 "提案クエリ: " ++ utf8 "electric vehicle battery"
  /\ label_free (utf8 "electric vehicle battery") = true
  /\ fst (optimize_query env q [] [] Fixtures.w0)
     = Ok (utf8 "electric vehicle battery", ev).
Proof.
  intros env q content stage ev um w3.
  assert (Hp : stage = (Ok ([], ev, um), w3)) by (vm_compute; reflexivity).
  assert (Hc : chat env (tick w3) OPTIMIZE_SYSTEM_PROMPT um
               = ChatContent (Some content)) by reflexivity.
  assert (Hin : In (utf8 "提案クエリ: ") PREFIXES) by (left; reflexivity).
  assert (Ht : strip content = utf8 "提案クエリ: " ++ utf8 "electric vehicle battery")
    by reflexivity.
  assert (Hfree : label_free (utf8 "electric vehicle battery") = true) by reflexivity.
  split; [exact Hp |]. split; [exact Hc |]. split; [exact Hin |].
  split; [exact Ht |]. split; [exact Hfree |].
  destruct (optimize_strips_labels env q [] [] Fixtures.w0 [] ev um w3 content Hp Hc)
    as (_ & Hlabelled & _).
  exact (Hlabelled (utf8 "提案クエリ: ") (utf8 "electric vehicle battery") Hin Ht Hfree).
Defined.

(** C7 as stated fails.  The labels of the code are the Japanese texts:
    the answer ["Suggested query: electric vehicle battery"] of the
    spec's example comes back whole.  And the labels are tried once
    each, in a fixed order: after 改善クエリ the label 提案クエリ stays at
    the head of the new query, while after 提案クエリ the label 改善クエリ
    goes as well, so that more than the one label is taken off. *)
Lemma optimize_keeps_unknown_label :
  fst (optimize_query
         (LabelScenario.env "Suggested query: electric vehicle battery")
         LabelScenario.q [] [] Fixtures.w0)
  = Ok (utf8 "Suggested query: electric vehicle battery", Some NO_RESULTS_MESSAGE)
  /\ utf8 "Suggested query: electric vehicle battery"
     <> utf8 "electric vehicle battery"
  /\ fst (optimize_query (LabelScenario.env "改善クエリ: 提案クエリ: drone")
            LabelScenario.q [] [] Fixtures.w0)
     = Ok (utf8 "提案クエリ: drone", Some NO_RESULTS_MESSAGE)
  /\ label_free (utf8 "提案クエリ: drone") = false
  /\ fst (optimize_query (LabelScenario.env "提案クエリ: 改善クエリ: drone")
            LabelScenario.q [] [] Fixtures.w0)
     = Ok (utf8 "drone", Some NO_RESULTS_MESSAGE)
  /\ utf8 "drone" <> utf8 "改善クエリ: drone".
Proof.
  split; [vm_compute; reflexivity |].
  split; [vm_compute; discriminate |].
  split; [vm_compute; reflexivity |].
  split; [vm_compute; reflexivity |].
  split; [vm_compute; reflexivity |].
  vm_compute. discriminate.
Qed.

(** The model's answer to the evaluation request in state [w]. *)
Definition evaluate_answer (env : Env) (q : str) (df : DataFrame) (w : World)
  : chat_outcome :=
  chat env (tick w) EVALUATE_SYSTEM_PROMPT (evaluate_user_message env q (head 5 df)).







(* ================================================================== *)
(** * The search loop *)
(* ================================================================== *)

Import run_patent_search.

(** The state the loop starts in, lines 86-95. *)
Definition initial_state (args : Args) : LoopState :=
  {| current_query := arg_query args; query_history := [] |}.

Section LoopFacts.
Variable env : Env.
Variable args : Args.

(** The search of the iteration with index [iteration] that starts in
    loop state [st] and process state [w] (lines 98-102). *)
Definition loop_search (iteration : nat) (st : LoopState) (w : World)
  : result DataFrame * World :=
  search_patents env (current_query st) (arg_results args)
    (add_log INFO (MsgCurrentQuery (current_query st))
       (add_log INFO (MsgIteration (iteration + 1) (arg_iterations args)) w)).

(** The given iterations all run to their end, none breaks or raises:
    the states they lead to. *)
Fixpoint run_continuing (iterations : list nat) (st : LoopState) (w : World)
  : option (LoopState * World) :=
  match iterations with
  | [] => Some (st, w)
  | iteration :: rest =>
      match loop_body env args iteration st w with
      | (Ok (Continue, st'), w') => run_continuing rest st' w'
      | _ => None
      end
  end.

Lemma loop_body_breaks (iteration : nat) (st : LoopState) (w : World) :
  fst (loop_search iteration st w) = Ok [] ->
  loop_body env args iteration st w
  = (Ok (Break, st),
     add_log WARNING MsgLoopNoResults (snd (loop_search iteration st w))).
Proof.
  unfold loop_search, loop_body, bind, emit. cbv beta iota.
  destruct (search_patents env (current_query st) (arg_results args) _)
    as [[df | e] w1]; simpl fst; simpl snd; intros H; inversion H.
  reflexivity.
Qed.

Lemma loop_body_continues (iteration : nat) (st st' : LoopState) (w w' : World) :
  loop_body env args iteration st w = (Ok (Continue, st'), w') ->
  List.length (query_history st') = S (List.length (query_history st))
  /\ exists df w1, loop_search iteration st w = (Ok df, w1) /\ df <> [].
Proof.
  unfold loop_search, loop_body, bind, emit. cbv beta iota.
  destruct (search_patents env (current_query st) (arg_results args) _)
    as [[df | e] w1]; [| discriminate].
  destruct df as [| r df].
  - simpl. unfold ret. discriminate.
  - change (empty (r :: df)) with false. cbv beta iota.
    destruct (evaluate_search_results env (current_query st) (r :: df) _)
      as [[ev | e] w2]; [| discriminate].
    unfold now_strftime. cbv beta iota.
    destruct (arg_optimize args && (Z.of_nat iteration <? arg_iterations args - 1)%Z).
    + match goal with
      | |- context [optimize_query env ?a ?b ?c ?d] =>
          destruct (optimize_query env a b c d) as [[res | e] w3]
      end; [| discriminate].
      unfold ret. intros H. inversion H. subst st' w'. simpl.
      split; [| exists (r :: df), w1; split; [reflexivity | discriminate]].
      rewrite length_app. simpl. lia.
    + unfold ret. intros H. inversion H. subst st' w'. simpl.
      split; [| exists (r :: df), w1; split; [reflexivity | discriminate]].
      rewrite length_app. simpl. lia.
Qed.

Lemma run_continuing_history (iterations : list nat) :
  forall (st st' : LoopState) (w w' : World),
    run_continuing iterations st w = Some (st', w') ->
    List.length (query_history st')
    = List.length (query_history st) + List.length iterations.
Proof.
  induction iterations as [| i rest IH]; intros st st' w w' H; simpl in H.
  - inversion H. simpl. lia.
  - destruct (loop_body env args i st w) as [[[[|] st1] | e] w1] eqn:Eb;
      try discriminate H.
    destruct (loop_body_continues i st st1 w w1 Eb) as [Hlen _].
    rewrite (IH _ _ _ _ H), Hlen. simpl. lia.
Qed.

Lemma for_range_after (done rest : list nat) :
  forall (st st' : LoopState) (w w' : World),
    run_continuing done st w = Some (st', w') ->
    for_range env args (done ++ rest) st w = for_range env args rest st' w'.
Proof.
  induction done as [| i done IH]; intros st st' w w' H; simpl in H.
  - inversion H. reflexivity.
  - simpl. unfold bind at 1.
    destruct (loop_body env args i st w) as [[[[|] st1] | e] w1];
      try discriminate H.
    apply IH. exact H.
Qed.

End LoopFacts.

Lemma range_split (n : Z) (k : nat) :
  1 <= k <= Z.to_nat n ->
  range n = seq 0 (k - 1) ++ (k - 1) :: seq k (Z.to_nat n - k).
Proof.
  intros Hk. unfold range.
  replace (Z.to_nat n) with ((k - 1) + (1 + (Z.to_nat n - k))) at 1 by lia.
  rewrite seq_app. simpl. replace (S (k - 1)) with k by lia. reflexivity.
Qed.

(** C5: in a run with [N] iterations configured, if iteration [k]
    (between 1 and [N]) is reached and its search comes back empty, the
    loop ends there: the result is the loop state iteration [k] started
    with, whose history has exactly [k - 1] records, and the process
    state is the one the empty search left, with the no-results warning
    logged and nothing after it. *)
Theorem search_loop_stops_on_empty_results (env : Env) (args : Args) (w0 : World)
    (k : nat) (st : LoopState) (w : World) :
  1 <= k <= Z.to_nat (arg_iterations args) ->
  run_continuing env args (seq 0 (k - 1)) (initial_state args) w0 = Some (st, w) ->
  fst (loop_search env args (k - 1) st w) = Ok [] ->
  for_range env args (range (arg_iterations args)) (initial_state args) w0
  = (Ok st, add_log WARNING MsgLoopNoResults (snd (loop_search env args (k - 1) st w)))
  /\ List.length (query_history st) = k - 1.
Proof.
  intros Hk Hrun Hempty. split.
  - rewrite (range_split (arg_iterations args) k Hk).
    rewrite (for_range_after env args _ _ _ _ _ _ Hrun).
    simpl. unfold bind.
    rewrite (loop_body_breaks env args (k - 1) st w Hempty). reflexivity.
  - rewrite (run_continuing_history env args _ _ _ _ _ Hrun).
    rewrite length_seq. reflexivity.
Qed.

(** An empty list of results from the provider, or none at all, is an
    empty frame, with no request to the model and no write to the
    cache. *)
Lemma search_patents_of_empty_answer (env : Env) (q : str) (num : Z) (w : World) :
  serp env (tick w) q num = SerpDict (Some []) \/ serp env (tick w) q num = SerpDict None ->
  fst (search_patents env q num w) = Ok []
  /\ same_store w (snd (search_patents env q num w))
  /\ calls (snd (search_patents env q num w)) = calls w ++ [SerpCall q num].
Proof.
  unfold search_patents, try_except, bind, call_serp.
  intros [H | H]; rewrite H; simpl; repeat split.
Qed.

Module LoopScenario.

Definition q : str := utf8 "foldable wing drone".

(** The provider knows the first query only; the model answers every
    request with ["drone wing"], which becomes the second query. *)
Definition env : Env :=
  Fixtures.env_of Fixtures.ucd_none
    (fun _ query _ =>
       if PyStr.eqb query q then SerpDict (Some Fixtures.two_patents)
       else SerpDict (Some []))
    (OptimizeScenario.answers "drone wing").

(** [--query "foldable wing drone" --optimize --iterations 3] *)
Definition args : Args :=
  {| arg_query := q; arg_optimize := true; arg_results := 100;
     arg_debug := false; arg_iterations := 3; arg_show_cache := false |}.

(** The states iteration 2 starts in. *)
Definition second_start : LoopState * World :=
  match run_continuing env args [0] (initial_state args) Fixtures.w0 with
  | Some s => s
  | None => (initial_state args, Fixtures.w0)
  end.

End LoopScenario.

(** C5 with three iterations and a provider that finds nothing for the
    second query: the loop ends in iteration 2 with one record. *)
Lemma search_loop_stops_on_empty_results_witness :
  let env := LoopScenario.env in
  let args := LoopScenario.args in
  let st := fst LoopScenario.second_start in
  let w := snd LoopScenario.second_start in
  1 <= 2 <= Z.to_nat (arg_iterations args)
  /\ run_continuing env args (seq 0 (2 - 1)) (initial_state args) Fixtures.w0
     = Some (st, w)
  /\ current_query st = utf8 "drone wing"
  /\ fst (loop_search env args (2 - 1) st w) = Ok []
  /\ for_range env args (range (arg_iterations args)) (initial_state args) Fixtures.w0
     = (Ok st, add_log WARNING MsgLoopNoResults (snd (loop_search env args (2 - 1) st w)))
  /\ List.length (query_history st) = 2 - 1.
Proof.
  intros env args st w.
  assert (Hk : 1 <= 2 <= Z.to_nat (arg_iterations args)) by (simpl; lia).
  assert (Hrun : run_continuing env args (seq 0 (2 - 1)) (initial_state args)
                   Fixtures.w0 = Some (st, w)) by (vm_compute; reflexivity).
  assert (Hq : current_query st = utf8 "drone wing") by (vm_compute; reflexivity).
  assert (He : fst (loop_search env args (2 - 1) st w) = Ok [])
    by (vm_compute; reflexivity).
  split; [exact Hk |]. split; [exact Hrun |]. split; [exact Hq |].
  split; [exact He |].
  exact (search_loop_stops_on_empty_results env args Fixtures.w0 2 st w Hk Hrun He).
Defined.

(** The same run through [search_loop]: one record, numbered 1, for the
    first query with its two results; the log shows iterations 1 and 2
    and no third. *)
Example search_loop_run :
  let run := search_loop LoopScenario.env LoopScenario.args Fixtures.w0 in
  fst run
  = Ok [{| row_iteration := 1;
           row_query := LoopScenario.q;
           row_num_results := 2;
           row_evaluation := Some (utf8 "drone wing");
           row_timestamp := utf8 "2024-05-01 10:00:00" |}]
  /\ filter (fun r => match snd r with MsgIteration _ _ => true | _ => false end)
       (log (snd run))
     = [(INFO, MsgIteration 1 3); (INFO, MsgIteration 2 3)].
Proof. vm_compute. split; reflexivity. Qed.

(** A provider that finds nothing at once: no record at all. *)
Example search_loop_first_empty :
  fst (search_loop OptimizeScenario.env_none LoopScenario.args Fixtures.w0) = Ok [].
Proof. vm_compute. reflexivity. Qed.

(** The spec's end-to-end scenario: one iteration, no optimisation:
    one record and one cache entry under the query. *)
Example search_loop_single_iteration :
  let args := {| arg_query := LoopScenario.q; arg_optimize := false;
                 arg_results := 100; arg_debug := false; arg_iterations := 1;
                 arg_show_cache := false |} in
  let run := search_loop OptimizeScenario.env_two args Fixtures.w0 in
  (exists r, fst run = Ok [r] /\ row_iteration r = 1 /\ row_num_results r = 2)
  /\ fst (PatentCache.get_cached_patent LoopScenario.q (snd run))
     = Ok (JDict (to_dict SelectScenario.second
                    ++ [(K_normalized_patent_number, JStr (utf8 "JP2019000001A"))])).
Proof.
  split.
  - eexists. vm_compute. repeat split.
  - vm_compute. reflexivity.
Qed.

(** A missing credential ends [main] before any search, with the error
    logged and nothing raised. *)
Example main_without_credentials :
  let env := {| ucd := Fixtures.ucd_none;
                environ_SERPAPI_KEY := None;
                environ_OPENAI_API_KEY := Some (utf8 "openai-key");
                serp := fun _ _ _ => SerpDict None;
                chat := fun _ _ _ => ChatContent None;
                clock_iso := fun _ => [];
                clock_fmt := fun _ => [];
                disk := fun _ _ => DiskOk;
                frame_to_string := Fixtures.plain_to_string |} in
  main env LoopScenario.args Fixtures.w0
  = (Ok tt,
     add_log ERROR (MsgExecutionError (utf8 "SERPAPI API key must be provided"))
       Fixtures.w0).
Proof. reflexivity. Qed.

(* ================================================================== *)
(** * Further properties: the rewrite request *)
(* ================================================================== *)

(** What [truncate_text] makes of a text: unchanged up to [max_length]
    characters, cut to [max_length] characters and ["..."] beyond. *)
Definition truncated (s : str) (max_length : nat) : str :=
  if Nat.ltb max_length (List.length s)
  then slice_to max_length s ++ utf8 "..."
  else s.

Lemma truncate_text_some (s : str) (n : nat) (w : World) :
  truncate_text (Some s) n w = (Ok (truncated s n), w).
Proof. reflexivity. Qed.

Lemma truncated_length (s : str) (n : nat) :
  List.length (truncated s n) <= n + 3.
Proof.
  unfold truncated, slice_to.
  destruct (Nat.ltb_spec n (List.length s)) as [Hlt | Hle]; [| lia].
  rewrite length_app, length_firstn. simpl. lia.
Qed.

(** [truncate_text] (lines 236-237): a text no longer than [max_length]
    comes back unchanged; a longer one comes back as its first
    [max_length] characters followed by three dots, so the result never
    exceeds [max_length + 3] characters and always agrees with the text
    on the first [max_length] characters. *)
Theorem truncate_text_bounds (s : str) (n : nat) (w : World) :
  exists shown,
    truncate_text (Some s) n w = (Ok shown, w)
    /\ List.length shown <= n + 3
    /\ firstn n shown = firstn n s
    /\ (List.length s <= n -> shown = s)
    /\ (n < List.length s ->
        shown = firstn n s ++ utf8 "..." /\ List.length shown = n + 3).
Proof.
  exists (truncated s n). split; [apply truncate_text_some |].
  unfold truncated, slice_to.
  destruct (Nat.ltb_spec n (List.length s)) as [Hlt | Hle].
  - assert (Hlen : List.length (firstn n s) = n)
      by (rewrite length_firstn; lia).
    assert (Hall : List.length (firstn n s ++ utf8 "...") = n + 3)
      by (rewrite length_app, Hlen; reflexivity).
    split; [lia |]. split.
    + rewrite firstn_app, Hlen, Nat.sub_diag. simpl firstn at 2.
      rewrite app_nil_r, firstn_firstn, Nat.min_id. reflexivity.
    + split; [intros H; lia | intros _; split; [reflexivity | exact Hall]].
  - split; [lia |]. split; [reflexivity |].
    split; [reflexivity | intros H; lia].
Qed.

Lemma last3_length {A} (xs : list A) :
  List.length (last3 xs) = Nat.min 3 (List.length xs).
Proof. unfold last3. rewrite length_skipn. lia. Qed.

Lemma last3_idempotent {A} (xs : list A) : last3 (last3 xs) = last3 xs.
Proof.
  unfold last3 at 1. rewrite last3_length.
  replace (Nat.min 3 (List.length xs) - 3) with 0 by lia. reflexivity.
Qed.

Lemma last3_empty_test {A} (xs : list A) :
  Nat.eqb (List.length (last3 xs)) 0 = Nat.eqb (List.length xs) 0.
Proof.
  rewrite last3_length. destruct xs as [| x [| y [| z xs]]]; reflexivity.
Qed.

Lemma last3_app {A} (old recent : list A) :
  List.length recent = 3 -> last3 (old ++ recent) = recent.
Proof.
  intros H. unfold last3. rewrite length_app, H.
  replace (List.length old + 3 - 3) with (List.length old + 0) by lia.
  rewrite skipn_app, Nat.add_0_r, skipn_all.
  replace (List.length old - List.length old) with 0 by lia. reflexivity.
Qed.

(** The user message is built from the last three entries of the
    history alone. *)
Lemma optimize_user_message_window (q : str) (n : nat) (ev : option str)
    (pq : list str) (pe : list (option str)) (w : World) :
  optimize_user_message q n ev pq pe w
  = optimize_user_message q n ev (last3 pq) (last3 pe) w.
Proof.
  unfold optimize_user_message.
  rewrite !last3_empty_test, !last3_idempotent. reflexivity.
Qed.

(** Lines 246-249: [optimize_query] uses the three most recent entries
    of the history only.  Whatever older queries and evaluations the
    caller passes in front of them, the requests sent, the state left
    and the result are the same. *)
Theorem optimize_query_history_window (env : Env) (q : str)
    (old_queries recent_queries : list str)
    (old_evaluations recent_evaluations : list (option str)) (w : World) :
  List.length recent_queries = 3 ->
  List.length recent_evaluations = 3 ->
  optimize_query env q (old_queries ++ recent_queries)
    (old_evaluations ++ recent_evaluations) w
  = optimize_query env q recent_queries recent_evaluations w.
Proof.
  intros Hq He.
  assert (Hprep : prepare_rewrite env q (old_queries ++ recent_queries)
                    (old_evaluations ++ recent_evaluations) w
                  = prepare_rewrite env q recent_queries recent_evaluations w).
  { unfold prepare_rewrite, bind.
    destruct (search_patents env q 100 w) as [[results | e] w1]; [| reflexivity].
    destruct (evaluate_search_results env q results w1) as [[ev | e] w2];
      [| reflexivity].
    rewrite optimize_user_message_window.
    rewrite (last3_app old_queries recent_queries Hq).
    rewrite (last3_app old_evaluations recent_evaluations He).
    reflexivity. }
  rewrite !optimize_query_run, Hprep. reflexivity.
Qed.

(** The window property with five history entries, of which the two
    oldest carry an evaluation without content. *)
Lemma optimize_query_history_window_witness :
  let env := OptimizeScenario.env_two in
  let q := OptimizeScenario.q in
  let recent_q := [utf8 "wing"; utf8 "drone wing"; utf8 "folding wing"] in
  let recent_e := [Some (utf8 "poor"); Some (utf8 "fair"); Some (utf8 "good")] in
  List.length recent_q = 3
  /\ List.length recent_e = 3
  /\ optimize_query env q ([utf8 "a"; utf8 "b"] ++ recent_q) ([None; None] ++ recent_e)
       Fixtures.w0
     = optimize_query env q recent_q recent_e Fixtures.w0.
Proof.
  intros env q recent_q recent_e.
  split; [reflexivity |]. split; [reflexivity |].
  exact (optimize_query_history_window env q [utf8 "a"; utf8 "b"] recent_q
           [None; None] recent_e Fixtures.w0 eq_refl eq_refl).
Defined.

(** The live evaluation enters the user message cut to 200 characters:
    a message that is built shows, after the count, the evaluation as
    [truncate_text] gives it. *)
Theorem optimize_user_message_truncates_evaluation (q : str) (n : nat) (s : str)
    (pq : list str) (pe : list (option str)) (w w' : World) (um : str) :
  optimize_user_message q n (Some s) pq pe w = (Ok um, w') ->
  exists tail,
    um = (NL ++ utf8 "基本クエリ: " ++ q ++ NL
          ++ utf8 "現在の検索結果件数: " ++ str_of_nat n ++ NL
          ++ utf8 "現在の評価結果: " ++ truncated s 200 ++ NL ++ NL) ++ tail
    /\ List.length (truncated s 200) <= 203.
Proof.
  intros H.
  assert (Hlen : List.length (truncated s 200) <= 203)
    by apply (truncated_length s 200).
  revert H. unfold optimize_user_message, optimize_header, bind.
  rewrite truncate_text_some. unfold ret at 1.
  destruct (negb (Nat.eqb (List.length pq) 0) && negb (Nat.eqb (List.length pe) 0)).
  - match goal with
    | |- context [append_history ?u ?ps w] =>
        destruct (append_history u ps w) as [[um' | e] w2] eqn:Eh
    end; [| discriminate].
    unfold ret. intros H.
    assert (Hum : um = um' ++ OPTIMIZE_REQUEST) by congruence.
    destruct (append_history_extends _ _ _ _ _ Eh) as [tail Ht].
    exists ((utf8 "過去の検索履歴（要約）:" ++ NL) ++ tail ++ OPTIMIZE_REQUEST).
    split; [| exact Hlen].
    rewrite Hum, Ht. repeat rewrite <- app_assoc. reflexivity.
  - unfold ret. intros H.
    exists OPTIMIZE_REQUEST. split; [| exact Hlen].
    assert (Hum : forall x, (Ok x, w) = (Ok um, w') -> um = x) by congruence.
    rewrite (Hum _ H). reflexivity.
Qed.

(** A long evaluation: 250 characters go in as 200 and three dots. *)
Lemma optimize_user_message_truncates_evaluation_witness :
  let s := repeat 120%N 250 in
  let um := match fst (optimize_user_message OptimizeScenario.q 7 (Some s) [] []
                         Fixtures.w0) with
            | Ok um => um
            | Raise _ => []
            end in
  optimize_user_message OptimizeScenario.q 7 (Some s) [] [] Fixtures.w0
  = (Ok um, Fixtures.w0)
  /\ truncated s 200 = repeat 120%N 200 ++ utf8 "..."
  /\ exists tail,
      um = (NL ++ utf8 "基本クエリ: " ++ OptimizeScenario.q ++ NL
            ++ utf8 "現在の検索結果件数: " ++ str_of_nat 7 ++ NL
            ++ utf8 "現在の評価結果: " ++ truncated s 200 ++ NL ++ NL) ++ tail
      /\ List.length (truncated s 200) <= 203.
Proof.
  intros s um.
  assert (H : optimize_user_message OptimizeScenario.q 7 (Some s) [] [] Fixtures.w0
              = (Ok um, Fixtures.w0)) by (vm_compute; reflexivity).
  split; [exact H |]. split; [vm_compute; reflexivity |].
  exact (optimize_user_message_truncates_evaluation OptimizeScenario.q 7 s [] []
           Fixtures.w0 Fixtures.w0 um H).
Defined.

(** An evaluation without content (the model answered the evaluation
    request with [None]) stops the optimisation before the rewrite
    request: [len(None)] raises in [truncate_text], and the original
    query comes back with that error's text. *)
Theorem optimize_without_evaluation_content (env : Env) (q : str) (pq : list str)
    (pe : list (option str)) (w : World) (results : DataFrame) (w1 w2 : World) :
  search_patents env q 100 w = (Ok results, w1) ->
  evaluate_search_results env q results w1 = (Ok None, w2) ->
  optimize_query env q pq pe w
  = (Ok (q, Some (OPTIMIZATION_ERROR_PREFIX
                    ++ utf8 "object of type 'NoneType' has no len()")),
     add_log ERROR
       (MsgOptimizationError (utf8 "object of type 'NoneType' has no len()")) w2)
  /\ calls (snd (optimize_query env q pq pe w)) = calls w2.
Proof.
  intros Hs He.
  assert (Hrun : optimize_query env q pq pe w
                 = (Ok (q, Some (OPTIMIZATION_ERROR_PREFIX
                                   ++ utf8 "object of type 'NoneType' has no len()")),
                    add_log ERROR
                      (MsgOptimizationError
                         (utf8 "object of type 'NoneType' has no len()")) w2)).
  { rewrite optimize_query_run. unfold prepare_rewrite, bind.
    rewrite Hs, He. reflexivity. }
  split; [exact Hrun | rewrite Hrun; reflexivity].
Qed.

Module SilentModel.

(** A model whose every answer has no content. *)
Definition env : Env :=
  Fixtures.env_of Fixtures.ucd_none
    (fun _ _ _ => SerpDict (Some Fixtures.two_patents))
    (fun _ _ _ => ChatContent None).

Definition after_search : World :=
  snd (search_patents env OptimizeScenario.q 100 Fixtures.w0).

Definition after_evaluation : World :=
  snd (evaluate_search_results env OptimizeScenario.q
         (map patent_data_of Fixtures.two_patents) after_search).

End SilentModel.

(** The property with a model that answers without content. *)
Lemma optimize_without_evaluation_content_witness :
  let env := SilentModel.env in
  let q := OptimizeScenario.q in
  let results := map patent_data_of Fixtures.two_patents in
  search_patents env q 100 Fixtures.w0 = (Ok results, SilentModel.after_search)
  /\ evaluate_search_results env q results SilentModel.after_search
     = (Ok None, SilentModel.after_evaluation)
  /\ optimize_query env q [] [] Fixtures.w0
     = (Ok (q, Some (OPTIMIZATION_ERROR_PREFIX
                       ++ utf8 "object of type 'NoneType' has no len()")),
        add_log ERROR
          (MsgOptimizationError (utf8 "object of type 'NoneType' has no len()"))
          SilentModel.after_evaluation)
  /\ calls (snd (optimize_query env q [] [] Fixtures.w0))
     = calls SilentModel.after_evaluation.
Proof.
  intros env q results.
  assert (Hs : search_patents env q 100 Fixtures.w0
               = (Ok results, SilentModel.after_search)) by (vm_compute; reflexivity).
  assert (He : evaluate_search_results env q results SilentModel.after_search
               = (Ok None, SilentModel.after_evaluation)) by (vm_compute; reflexivity).
  split; [exact Hs |]. split; [exact He |].
  exact (optimize_without_evaluation_content env q [] [] Fixtures.w0 results
           SilentModel.after_search SilentModel.after_evaluation Hs He).
Defined.

(* ================================================================== *)
(** * Further properties: selection and evaluation *)
(* ================================================================== *)

Lemma head_head (n : nat) (df : DataFrame) : head n (head n df) = head n df.
Proof. unfold head. rewrite firstn_firstn, Nat.min_id. reflexivity. Qed.

Lemma sample_of_head (env : Env) (df : DataFrame) :
  sample_of env (head 10 df) = sample_of env df.
Proof. unfold sample_of. rewrite head_head. reflexivity. Qed.

(** Line 80: selection looks at the first ten records only.  Cutting
    the result set to its first ten records changes neither the request
    sent to the model, nor the record returned, nor the state left. *)
Theorem select_uses_first_ten (env : Env) (q : str) (df : DataFrame) (w : World) :
  _get_most_relevant_patent env q df w
  = _get_most_relevant_patent env q (head 10 df) w.
Proof.
  destruct df as [| first rest]; [reflexivity |].
  change (head 10 (first :: rest)) with (first :: firstn 9 rest).
  rewrite !select_run. cbv zeta.
  unfold select_answer, select_request, matching_rows.
  change (first :: firstn 9 rest) with (head 10 (first :: rest)).
  rewrite !sample_of_head. reflexivity.
Qed.

(** Selection asks the model once for a non-empty result set and not at
    all for an empty one, for which it returns the empty record. *)
Theorem select_requests (env : Env) (q : str) (df : DataFrame) (w : World) :
  calls (snd (_get_most_relevant_patent env q df w))
  = calls w ++ (if empty df then [] else [select_request env q df])
  /\ (empty df = true ->
      fst (_get_most_relevant_patent env q df w) = Ok (JDict [])).
Proof.
  destruct df as [| first rest].
  - split; [simpl; rewrite app_nil_r; reflexivity | reflexivity].
  - split; [| discriminate].
    rewrite select_run. cbv zeta. change (empty (first :: rest)) with false.
    destruct (select_answer env q (first :: rest) w) as [e | [content |]];
      try reflexivity.
    destruct (matching_rows env (first :: rest) content); reflexivity.
Qed.

(** The first element a filter keeps, and what stands before it. *)
Lemma filter_first_kept {A} (f : A -> bool) (l : list A) :
  match filter f l with
  | [] => forallb (fun x => negb (f x)) l = true
  | found :: _ =>
      exists before after,
        l = before ++ found :: after
        /\ f found = true
        /\ forallb (fun x => negb (f x)) before = true
  end.
Proof.
  induction l as [| a l IH]; simpl; [reflexivity |].
  destruct (f a) eqn:Ea.
  - exists [], l. split; [reflexivity |]. split; [exact Ea | reflexivity].
  - destruct (filter f l) as [| found others].
    + simpl. exact IH.
    + destruct IH as (before & after & Hl & Hf & Hb).
      exists (a :: before), after. rewrite Hl.
      split; [reflexivity |]. split; [exact Hf |].
      simpl. rewrite Ea. exact Hb.
Qed.

(** Lines 108-117: when the model's answer, normalised, is the
    normalised number of some record among the first ten, selection
    returns the first such record in provider order, with its
    normalised number added as a ninth field. *)
Theorem select_returns_first_match (env : Env) (q : str) (first : PatentRecord)
    (rest : DataFrame) (w : World) (content : str) :
  select_answer env q (first :: rest) w = ChatContent (Some content) ->
  unrecognized env (first :: rest) content = false ->
  exists before found after,
    sample_of env (first :: rest) = before ++ found :: after
    /\ snd found = _normalize_patent_number env (strip content)
    /\ (forall row, In row before ->
                    snd row <> _normalize_patent_number env (strip content))
    /\ _get_most_relevant_patent env q (first :: rest) w
       = (Ok (JDict (sample_to_dict found)),
          asked (select_request env q (first :: rest)) w).
Proof.
  intros Ha Hu. rewrite select_run. cbv zeta. rewrite Ha.
  unfold matching_rows, unrecognized in *.
  pose proof (filter_first_kept
                (fun row => PyStr.eqb (snd row)
                              (_normalize_patent_number env (strip content)))
                (sample_of env (first :: rest))) as Hf.
  cbv beta in Hf.
  match goal with
  | |- context [filter ?f ?l] => destruct (filter f l) as [| found others]
  end.
  - rewrite Hf in Hu. discriminate Hu.
  - destruct Hf as (before & after & Hl & Hm & Hb).
    exists before, found, after.
    split; [exact Hl |]. split; [apply str_eqb_eq; exact Hm |].
    split; [| reflexivity].
    intros row Hin Heq. rewrite forallb_forall in Hb.
    specialize (Hb row Hin). rewrite Heq, str_eqb_refl in Hb. discriminate Hb.
Qed.

(** The model names the second of two patents in another spelling. *)
Lemma select_returns_first_match_witness :
  let env := SelectScenario.env_second in
  let q := SelectScenario.q in
  let content := utf8 "jp 2019-000001 a" in
  select_answer env q [SelectScenario.first; SelectScenario.second] Fixtures.w0
  = ChatContent (Some content)
  /\ unrecognized env [SelectScenario.first; SelectScenario.second] content = false
  /\ exists before found after,
      sample_of env [SelectScenario.first; SelectScenario.second]
      = before ++ found :: after
      /\ snd found = _normalize_patent_number env (strip content)
      /\ (forall row, In row before ->
                      snd row <> _normalize_patent_number env (strip content))
      /\ _get_most_relevant_patent env q
           [SelectScenario.first; SelectScenario.second] Fixtures.w0
         = (Ok (JDict (sample_to_dict found)),
            asked (select_request env q [SelectScenario.first; SelectScenario.second])
              Fixtures.w0).
Proof.
  intros env q content.
  split; [reflexivity |]. split; [reflexivity |].
  exact (select_returns_first_match env q SelectScenario.first
           [SelectScenario.second] Fixtures.w0 content eq_refl eq_refl).
Defined.

(** Line 182: evaluation looks at the first five records only. *)
Theorem evaluate_uses_first_five (env : Env) (q : str) (df : DataFrame) (w : World) :
  evaluate_search_results env q df w
  = evaluate_search_results env q (head 5 df) w.
Proof.
  destruct df as [| first rest]; [reflexivity |].
  change (head 5 (first :: rest)) with (first :: firstn 4 rest).
  unfold evaluate_search_results.
  change (empty (first :: rest)) with false.
  change (empty (first :: firstn 4 rest)) with false. cbv iota.
  change (first :: firstn 4 rest) with (head 5 (first :: rest)).
  rewrite head_head. reflexivity.
Qed.

(** Lines 202-204: when the model call of an evaluation raises, the
    evaluation is the fixed failure prefix followed by the error's text;
    nothing is raised, the error is logged and the cache is untouched. *)
Theorem evaluate_absorbs_failure (env : Env) (q : str) (first : PatentRecord)
    (rest : DataFrame) (w : World) (e : exn) :
  evaluate_answer env q (first :: rest) w = ChatRaise e ->
  exists w',
    evaluate_search_results env q (first :: rest) w
    = (Ok (Some (EVALUATION_ERROR_PREFIX ++ exn_str e)), w')
    /\ log w' = log w ++ [(ERROR, MsgEvaluationError (exn_str e))]
    /\ same_store w w'.
Proof.
  unfold evaluate_answer. intros H.
  unfold evaluate_search_results, try_except, call_chat, bind, emit, ret.
  change (empty (first :: rest)) with false. cbv beta iota.
  rewrite H. eexists. split; [reflexivity |]. split; [reflexivity |].
  split; reflexivity.
Qed.

(** The property with a model that is down. *)
Lemma evaluate_absorbs_failure_witness :
  let env := OptimizeScenario.env_model_down in
  evaluate_answer env SelectScenario.q [SelectScenario.first; SelectScenario.second]
    Fixtures.w0 = ChatRaise Fixtures.boom
  /\ exists w',
      evaluate_search_results env SelectScenario.q
        [SelectScenario.first; SelectScenario.second] Fixtures.w0
      = (Ok (Some (utf8 "評価中にエラーが発生しました: connection reset")), w')
      /\ log w' = log Fixtures.w0
                  ++ [(ERROR, MsgEvaluationError (utf8 "connection reset"))]
      /\ same_store Fixtures.w0 w'.
Proof.
  intros env. split; [reflexivity |].
  exact (evaluate_absorbs_failure env SelectScenario.q SelectScenario.first
           [SelectScenario.second] Fixtures.w0 Fixtures.boom eq_refl).
Defined.

(* ================================================================== *)
(** * Further properties: search *)
(* ================================================================== *)

Section SearchRuns.
Variable env : Env.

(** Selection on a non-empty frame: one request, no exception, a
    non-empty record, the cache untouched. *)
Lemma select_frame (q : str) (first : PatentRecord) (rest : DataFrame) (w : World) :
  exists d w1,
    _get_most_relevant_patent env q (first :: rest) w = (Ok (JDict d), w1)
    /\ d <> []
    /\ cache w1 = cache w /\ cache_file w1 = cache_file w
    /\ calls w1 = calls w ++ [select_request env q (first :: rest)]
    /\ tick w1 = S (tick w).
Proof.
  rewrite select_run. cbv zeta.
  destruct (select_answer env q (first :: rest) w) as [e | [content |]].
  - eexists _, _. split; [reflexivity |]. split; [discriminate |]. repeat split.
  - destruct (matching_rows env (first :: rest) content) as [| found others];
      (eexists _, _; split; [reflexivity |]; split; [discriminate |]; repeat split).
  - eexists _, _. split; [reflexivity |]. split; [discriminate |]. repeat split.
Qed.

(** [update_cache] on a cache that is a dictionary, by what the disk
    does with the write. *)
Lemma update_cache_by_disk (q : str) (p : json) (w : World) (d : dict) :
  cache w = JDict d ->
  let c' := JDict (dict_set q
                     (JDict [(PatentCache.K_patent_data, p);
                             (PatentCache.K_last_updated,
                              JStr (clock_iso env (tick w)))]) d) in
  exists w',
    PatentCache.update_cache env q p w
    = (match disk env (S (tick w)) c' with
       | DiskOk => Ok tt
       | DiskError msg _ => Raise (Exn OSError msg)
       end, w')
    /\ cache w' = c'
    /\ cache_file w' = match disk env (S (tick w)) c' with
                       | DiskOk => FileJson c'
                       | DiskError _ residue => residue
                       end
    /\ log w' = log w /\ calls w' = calls w.
Proof.
  intros Hc c'. subst c'.
  unfold PatentCache.update_cache, PatentCache._save_cache, bind, now_isoformat,
    get_cache, put_cache, py_setitem, ret.
  simpl. rewrite Hc.
  change (tick (set_tick (S (tick w)) w)) with (S (tick w)).
  match goal with
  | |- context [disk env ?t ?c] => destruct (disk env t c) eqn:Ed
  end; simpl; (eexists; split; [reflexivity |]; simpl; repeat split).
Qed.

(** The body of [search_patents] once the provider has listed at least
    one result and the cache is a dictionary. *)
Lemma search_patents_listed (q : str) (num : Z) (w : World)
    (r0 : raw_patent) (organic : list raw_patent) (d : dict) :
  serp env (tick w) q num = SerpDict (Some (r0 :: organic)) ->
  cache w = JDict d ->
  let df := map patent_data_of (r0 :: organic) in
  exists selected w1 w2,
    _get_most_relevant_patent env q df (asked (SerpCall q num) w)
    = (Ok (JDict selected), w1)
    /\ calls w1 = calls w ++ [SerpCall q num; select_request env q df]
    /\ cache w2 = JDict (dict_set q
                           (JDict [(PatentCache.K_patent_data, JDict selected);
                                   (PatentCache.K_last_updated,
                                    JStr (clock_iso env (tick w1)))]) d)
    /\ calls w2 = calls w1
    /\ match disk env (S (tick w1)) (cache w2) with
       | DiskOk =>
           exists w',
             search_patents env q num w = (Ok df, w')
             /\ cache w' = cache w2 /\ calls w' = calls w2
             /\ cache_file w' = FileJson (cache w2)
       | DiskError msg residue =>
           search_patents env q num w
           = (Ok [], add_log ERROR (MsgSearchError msg) w2)
           /\ cache_file w2 = residue
       end.
Proof.
  intros Hserp Hc df.
  destruct (select_frame q (patent_data_of r0) (map patent_data_of organic)
              (asked (SerpCall q num) w))
    as (sd & w1 & Hsel & Hsd & Hc1 & Hf1 & Hcalls1 & Htick1).
  assert (Hcw1 : cache w1 = JDict d) by (rewrite Hc1; exact Hc).
  destruct (update_cache_by_disk q (JDict sd) w1 d Hcw1)
    as (w2 & Hup & Hc2 & Hf2 & Hl2 & Hcalls2).
  exists sd, w1, w2.
  split; [exact Hsel |].
  split; [rewrite Hcalls1; simpl; rewrite <- app_assoc; reflexivity |].
  split; [exact Hc2 |]. split; [exact Hcalls2 |].
  rewrite Hc2.
  unfold search_patents, try_except, bind, call_serp.
  fold (asked (SerpCall q num) w). rewrite Hserp.
  change (map patent_data_of (r0 :: organic))
    with (patent_data_of r0 :: map patent_data_of organic) in *.
  change (negb (empty (patent_data_of r0 :: map patent_data_of organic))) with true.
  cbv beta iota. subst df. rewrite Hsel.
  destruct sd as [| item sd]; [contradiction |].
  change (truthy (JDict (item :: sd))) with true. cbv beta iota.
  rewrite Hup.
  match goal with
  | |- context [disk env ?t ?c] => destruct (disk env t c) as [| msg residue] eqn:Ed
  end.
  - unfold emit, py_get, ret. cbv beta iota.
    eexists. split; [reflexivity |]. simpl.
    split; [exact Hc2 |]. split; [reflexivity |]. rewrite Hf2. reflexivity.
  - unfold emit, ret. simpl. split; [reflexivity | exact Hf2].
Qed.

End SearchRuns.

(** The provider call failed, or its answer lists no result. *)
Definition provider_found_nothing (env : Env) (q : str) (num : Z) (w : World) : Prop :=
  match serp env (tick w) q num with
  | SerpRaise _ => True
  | SerpDict None => True
  | SerpDict (Some organic) => organic = []
  end.

(** Lines 137-143 and 171-173: when the provider call raises, or its
    answer has no ["organic_results"], or lists none, [search_patents]
    returns the empty frame without raising; the provider was asked
    once, the model not at all, and the cache, in memory and on disk, is
    as it was. *)
Theorem search_patents_nothing_found (env : Env) (q : str) (num : Z) (w : World) :
  provider_found_nothing env q num w ->
  fst (search_patents env q num w) = Ok []
  /\ calls (snd (search_patents env q num w)) = calls w ++ [SerpCall q num]
  /\ same_store w (snd (search_patents env q num w)).
Proof.
  unfold provider_found_nothing, search_patents, try_except, bind, call_serp.
  destruct (serp env (tick w) q num) as [e | [organic |]]; intros H.
  - simpl. repeat split.
  - subst organic. simpl. repeat split.
  - simpl. repeat split.
Qed.

(** The property with a provider that is down. *)
Lemma search_patents_nothing_found_witness :
  let env := OptimizeScenario.env_serp_down in
  let q := OptimizeScenario.q in
  provider_found_nothing env q 100 Fixtures.w0
  /\ fst (search_patents env q 100 Fixtures.w0) = Ok []
  /\ calls (snd (search_patents env q 100 Fixtures.w0))
     = calls Fixtures.w0 ++ [SerpCall q 100]
  /\ same_store Fixtures.w0 (snd (search_patents env q 100 Fixtures.w0)).
Proof.
  intros env q.
  assert (H : provider_found_nothing env q 100 Fixtures.w0) by exact I.
  split; [exact H |].
  exact (search_patents_nothing_found env q 100 Fixtures.w0 H).
Defined.

(** Lines 145-169: when the provider lists results, the cache is a
    dictionary and the disk takes the write, [search_patents] returns
    one record per listed result, in the provider's order; it has asked
    the provider once and the model once, and the record selected is
    cached under the query, in memory and in the cache file. *)
Theorem search_patents_returns_listed (env : Env) (q : str) (num : Z) (w : World)
    (r0 : raw_patent) (organic : list raw_patent) (d : dict) :
  serp env (tick w) q num = SerpDict (Some (r0 :: organic)) ->
  cache w = JDict d ->
  (forall t c, disk env t c = DiskOk) ->
  let df := map patent_data_of (r0 :: organic) in
  exists selected w',
    search_patents env q num w = (Ok df, w')
    /\ List.length df = List.length (r0 :: organic)
    /\ calls w' = calls w ++ [SerpCall q num; select_request env q df]
    /\ fst (_get_most_relevant_patent env q df (asked (SerpCall q num) w))
       = Ok (JDict selected)
    /\ PatentCache.get_cached_patent q w' = (Ok (JDict selected), w')
    /\ cache_file w' = FileJson (cache w').
Proof.
  intros Hserp Hc Hdisk df.
  destruct (search_patents_listed env q num w r0 organic d Hserp Hc)
    as (selected & w1 & w2 & Hsel & Hcalls1 & Hc2 & Hcalls2 & Hrun).
  rewrite Hdisk in Hrun. destruct Hrun as (w' & Hs & Hc' & Hcalls' & Hf').
  exists selected, w'. split; [exact Hs |].
  split; [apply length_map |].
  split; [rewrite Hcalls', Hcalls2; exact Hcalls1 |].
  split; [fold df in Hsel; rewrite Hsel; reflexivity |].
  split.
  - eapply get_cached_patent_present;
      [rewrite Hc'; exact Hc2 | apply dict_get_set_same | reflexivity].
  - rewrite Hf', Hc'. reflexivity.
Qed.

(** The property for two listed patents. *)
Lemma search_patents_returns_listed_witness :
  let env := OptimizeScenario.env_two in
  let q := OptimizeScenario.q in
  let df := map patent_data_of Fixtures.two_patents in
  serp env (tick Fixtures.w0) q 100 = SerpDict (Some Fixtures.two_patents)
  /\ cache Fixtures.w0 = JDict []
  /\ (forall t c, disk env t c = DiskOk)
  /\ exists selected w',
      search_patents env q 100 Fixtures.w0 = (Ok df, w')
      /\ List.length df = List.length Fixtures.two_patents
      /\ calls w' = calls Fixtures.w0 ++ [SerpCall q 100; select_request env q df]
      /\ fst (_get_most_relevant_patent env q df (asked (SerpCall q 100) Fixtures.w0))
         = Ok (JDict selected)
      /\ PatentCache.get_cached_patent q w' = (Ok (JDict selected), w')
      /\ cache_file w' = FileJson (cache w').
Proof.
  intros env q df.
  split; [reflexivity |]. split; [reflexivity |].
  split; [intros t c; reflexivity |].
  exact (search_patents_returns_listed env q 100 Fixtures.w0
           (Fixtures.raw "JP-2020-123456 A" "foldable wing")
           [Fixtures.raw "JP2019000001A" "drone frame"] []
           eq_refl eq_refl (fun t c => eq_refl)).
Defined.

(** Lines 165 and 171-173: a failed write of the cache file costs the
    search its results.  When the provider lists results and the write
    raises, [search_patents] returns the empty frame and logs the write
    error as a search error; the record [_get_most_relevant_patent]
    selected is in the in-memory cache all the same. *)
Theorem search_patents_discards_on_write_failure (env : Env) (q : str) (num : Z)
    (w : World) (r0 : raw_patent) (organic : list raw_patent) (d : dict)
    (msg : str) (residue : file_state) :
  serp env (tick w) q num = SerpDict (Some (r0 :: organic)) ->
  cache w = JDict d ->
  (forall t c, disk env t c = DiskError msg residue) ->
  exists selected w',
    search_patents env q num w = (Ok [], w')
    /\ last (log w') (INFO, MsgOptimizing) = (ERROR, MsgSearchError msg)
    /\ fst (_get_most_relevant_patent env q (map patent_data_of (r0 :: organic))
              (asked (SerpCall q num) w))
       = Ok (JDict selected)
    /\ PatentCache.get_cached_patent q w' = (Ok (JDict selected), w')
    /\ cache_file w' = residue.
Proof.
  intros Hserp Hc Hdisk.
  destruct (search_patents_listed env q num w r0 organic d Hserp Hc)
    as (selected & w1 & w2 & Hsel & Hcalls1 & Hc2 & Hcalls2 & Hrun).
  rewrite Hdisk in Hrun. destruct Hrun as (Hs & Hf).
  exists selected, (add_log ERROR (MsgSearchError msg) w2).
  split; [exact Hs |].
  split; [simpl; apply last_last |].
  split; [rewrite Hsel; reflexivity |].
  split.
  - eapply get_cached_patent_present;
      [simpl; exact Hc2 | apply dict_get_set_same | reflexivity].
  - exact Hf.
Qed.

Module FullDisk.

(** Every write of the cache file fails half way. *)
Definition env : Env :=
  {| ucd := Fixtures.ucd_none;
     environ_SERPAPI_KEY := Some (utf8 "serp-key");
     environ_OPENAI_API_KEY := Some (utf8 "openai-key");
     serp := fun _ _ _ => SerpDict (Some Fixtures.two_patents);
     chat := OptimizeScenario.answers "JP2019000001A";
     clock_iso := fun _ => utf8 "2024-05-01T10:00:00";
     clock_fmt := fun _ => utf8 "2024-05-01 10:00:00";
     disk := fun _ _ => DiskError (utf8 "No space left on device")
                          (FileNotJson (utf8 "Unterminated string"));
     frame_to_string := Fixtures.plain_to_string |}.

End FullDisk.

(** The property with a full disk; the loop then ends at once, with no
    record. *)
Lemma search_patents_discards_on_write_failure_witness :
  let env := FullDisk.env in
  let q := OptimizeScenario.q in
  serp env (tick Fixtures.w0) q 100 = SerpDict (Some Fixtures.two_patents)
  /\ cache Fixtures.w0 = JDict []
  /\ (forall t c, disk env t c
                  = DiskError (utf8 "No space left on device")
                      (FileNotJson (utf8 "Unterminated string")))
  /\ fst (search_loop env LoopScenario.args Fixtures.w0) = Ok []
  /\ exists selected w',
      search_patents env q 100 Fixtures.w0 = (Ok [], w')
      /\ last (log w') (INFO, MsgOptimizing)
         = (ERROR, MsgSearchError (utf8 "No space left on device"))
      /\ fst (_get_most_relevant_patent env q
                (map patent_data_of
                   (Fixtures.raw "JP-2020-123456 A" "foldable wing"
                      :: [Fixtures.raw "JP2019000001A" "drone frame"]))
                (asked (SerpCall q 100) Fixtures.w0))
         = Ok (JDict selected)
      /\ PatentCache.get_cached_patent q w' = (Ok (JDict selected), w')
      /\ cache_file w' = FileNotJson (utf8 "Unterminated string").
Proof.
  intros env q.
  split; [reflexivity |]. split; [reflexivity |].
  split; [intros t c; reflexivity |].
  split; [vm_compute; reflexivity |].
  exact (search_patents_discards_on_write_failure env q 100 Fixtures.w0
           (Fixtures.raw "JP-2020-123456 A" "foldable wing")
           [Fixtures.raw "JP2019000001A" "drone frame"] []
           (utf8 "No space left on device") (FileNotJson (utf8 "Unterminated string"))
           eq_refl eq_refl (fun t c => eq_refl)).
Defined.

(** [update_cache] on a cache that is no dictionary: the item
    assignment raises [TypeError] before anything is stored. *)
Lemma update_cache_type_error (env : Env) (q : str) (p : json) (w : World) :
  (forall d, cache w <> JDict d) ->
  exists msg,
    PatentCache.update_cache env q p w
    = (Raise (Exn TypeError msg), set_tick (S (tick w)) w).
Proof.
  intros Hc.
  unfold PatentCache.update_cache, bind, now_isoformat, get_cache, py_setitem, raise.
  cbv beta iota.
  change (cache (set_tick (S (tick w)) w)) with (cache w).
  destruct (cache w) eqn:E; try (eexists; reflexivity).
  exfalso. apply (Hc items). reflexivity.
Qed.

(** Lines 36 and 171-173: with an in-memory cache that is not a
    dictionary (a cache file that held JSON of another shape), every
    search that finds results loses them: storing the selected record
    raises, and [search_patents] returns the empty frame. *)
Theorem search_patents_with_malformed_cache (env : Env) (q : str) (num : Z)
    (w : World) (r0 : raw_patent) (organic : list raw_patent) :
  serp env (tick w) q num = SerpDict (Some (r0 :: organic)) ->
  (forall d, cache w <> JDict d) ->
  exists e w',
    search_patents env q num w = (Ok [], w')
    /\ last (log w') (INFO, MsgOptimizing) = (ERROR, MsgSearchError (exn_str e))
    /\ exn_cls e = TypeError
    /\ cache w' = cache w.
Proof.
  intros Hserp Hc.
  destruct (select_frame env q (patent_data_of r0) (map patent_data_of organic)
              (asked (SerpCall q num) w))
    as (sd & w1 & Hsel & Hsd & Hc1 & Hf1 & Hcalls1 & Htick1).
  assert (Hc1' : cache w1 = cache w) by exact Hc1.
  assert (Hnd : forall d, cache w1 <> JDict d)
    by (intros d; rewrite Hc1'; apply Hc).
  destruct (update_cache_type_error env q (JDict sd) w1 Hnd) as [msg Hup].
  exists (Exn TypeError msg),
    (add_log ERROR (MsgSearchError msg) (set_tick (S (tick w1)) w1)).
  split; [| split; [apply last_last | split; [reflexivity | exact Hc1']]].
  unfold search_patents, try_except, bind, call_serp.
  fold (asked (SerpCall q num) w). rewrite Hserp.
  change (map patent_data_of (r0 :: organic))
    with (patent_data_of r0 :: map patent_data_of organic).
  change (negb (empty (patent_data_of r0 :: map patent_data_of organic))) with true.
  cbv beta iota. rewrite Hsel.
  destruct sd as [| item sd]; [contradiction |].
  change (truthy (JDict (item :: sd))) with true. cbv beta iota.
  rewrite Hup. reflexivity.
Qed.

Module MalformedCache.

(** The cache file holds the JSON list [[1]]. *)
Definition start : World :=
  set_cache_file (FileJson (JList [JNum 1])) Fixtures.w0.

(** The process state once the searcher has been built. *)
Definition loaded : World :=
  snd (SimplifiedPatentSearch.__init__ OptimizeScenario.env_two start).

End MalformedCache.

(** The property after loading a cache file that holds a list: the
    searcher is built without error, and the run ends with no record
    although the provider lists two patents. *)
Lemma search_patents_with_malformed_cache_witness :
  let env := OptimizeScenario.env_two in
  let q := OptimizeScenario.q in
  let w := MalformedCache.loaded in
  fst (SimplifiedPatentSearch.__init__ env MalformedCache.start) = Ok tt
  /\ serp env (tick w) q 100 = SerpDict (Some Fixtures.two_patents)
  /\ (forall d, cache w <> JDict d)
  /\ fst (search_loop env LoopScenario.args MalformedCache.start) = Ok []
  /\ exists e w',
      search_patents env q 100 w = (Ok [], w')
      /\ last (log w') (INFO, MsgOptimizing) = (ERROR, MsgSearchError (exn_str e))
      /\ exn_cls e = TypeError
      /\ cache w' = cache w.
Proof.
  intros env q w.
  assert (Hc : forall d, cache w <> JDict d) by (intros d; discriminate).
  split; [reflexivity |]. split; [reflexivity |]. split; [exact Hc |].
  split; [vm_compute; reflexivity |].
  exact (search_patents_with_malformed_cache env q 100 w
           (Fixtures.raw "JP-2020-123456 A" "foldable wing")
           [Fixtures.raw "JP2019000001A" "drone frame"] eq_refl Hc).
Defined.

(* ================================================================== *)
(** * Further properties: the cache *)
(* ================================================================== *)

Lemma dict_set_keys_present (k : str) (v : json) (d : dict) :
  dict_get k d <> None -> map fst (dict_set k v d) = map fst d.
Proof.
  induction d as [| [k' v'] d IH]; simpl; intros H.
  - contradiction.
  - destruct (PyStr.eqb k k') eqn:E; simpl; [reflexivity |].
    f_equal. apply IH. exact H.
Qed.

Lemma dict_set_keys_absent (k : str) (v : json) (d : dict) :
  dict_get k d = None -> map fst (dict_set k v d) = map fst d ++ [k].
Proof.
  induction d as [| [k' v'] d IH]; simpl; intros H.
  - reflexivity.
  - destruct (PyStr.eqb k k') eqn:E; [discriminate H |].
    simpl. f_equal. apply IH. exact H.
Qed.

(** The first component of [get_cached_patent] on a dictionary cache. *)
Lemma get_cached_patent_value (q : str) (w : World) (d : dict) :
  cache w = JDict d ->
  PatentCache.get_cached_patent q w
  = (match dict_get q d with
     | Some entry => fst (py_get entry PatentCache.K_patent_data (JDict []) w)
     | None => Ok (JDict [])
     end, w).
Proof.
  intros Hc.
  unfold PatentCache.get_cached_patent, bind, get_cache. rewrite Hc.
  unfold py_get at 1. unfold ret at 1.
  destruct (dict_get q d) as [entry |]; [| reflexivity].
  destruct entry; reflexivity.
Qed.

(** Lines 34-40, on a cache that holds a dictionary: a later [put] for
    the same query overwrites the entry (the last write wins) without
    adding a key or moving one, and the entries of all other queries
    read as before. *)
Theorem cache_last_write_wins (env : Env) (q : str) (p1 p2 : json) (w : World)
    (d : dict) :
  cache w = JDict d ->
  let w1 := snd (PatentCache.update_cache env q p1 w) in
  let w2 := snd (PatentCache.update_cache env q p2 w1) in
  PatentCache.get_cached_patent q w2 = (Ok p2, w2)
  /\ (exists d1 d2,
         cache w1 = JDict d1 /\ cache w2 = JDict d2
         /\ map fst d2 = map fst d1)
  /\ (forall q', q' <> q ->
                 fst (PatentCache.get_cached_patent q' w2)
                 = fst (PatentCache.get_cached_patent q' w)).
Proof.
  intros Hc w1 w2.
  destruct (update_cache_run env q p1 w d Hc) as (r1 & w1' & Hrun1 & Hc1 & _).
  assert (Hw1 : w1 = w1') by (subst w1; rewrite Hrun1; reflexivity).
  rewrite <- Hw1 in Hc1.
  destruct (update_cache_run env q p2 w1 _ Hc1) as (r2 & w2' & Hrun2 & Hc2 & _).
  assert (Hw2 : w2 = w2') by (subst w2; rewrite Hrun2; reflexivity).
  rewrite <- Hw2 in Hc2.
  split; [| split].
  - eapply get_cached_patent_present;
      [exact Hc2 | apply dict_get_set_same | reflexivity].
  - eexists _, _. split; [exact Hc1 |]. split; [exact Hc2 |].
    apply dict_set_keys_present. rewrite dict_get_set_same. discriminate.
  - intros q' Hne.
    rewrite (get_cached_patent_value q' w2 _ Hc2).
    rewrite (get_cached_patent_value q' w d Hc).
    simpl fst. rewrite !(dict_get_set_other _ _ _ _ Hne).
    destruct (dict_get q' d) as [entry |]; [| reflexivity].
    destruct entry; reflexivity.
Qed.

(** Two writes for one query on a cache that already holds another. *)
Lemma cache_last_write_wins_witness :
  let env := OptimizeScenario.env_two in
  let q := utf8 "drone wing" in
  let w := snd (PatentCache.update_cache env (utf8 "other") (JStr (utf8 "kept"))
                  Fixtures.w0) in
  let d := [(utf8 "other",
             JDict [(PatentCache.K_patent_data, JStr (utf8 "kept"));
                    (PatentCache.K_last_updated, JStr (utf8 "2024-05-01T10:00:00"))])] in
  let w1 := snd (PatentCache.update_cache env q (JStr (utf8 "first")) w) in
  let w2 := snd (PatentCache.update_cache env q (JStr (utf8 "second")) w1) in
  cache w = JDict d
  /\ PatentCache.get_cached_patent q w2 = (Ok (JStr (utf8 "second")), w2)
  /\ (exists d1 d2,
         cache w1 = JDict d1 /\ cache w2 = JDict d2 /\ map fst d2 = map fst d1)
  /\ (forall q', q' <> q ->
                 fst (PatentCache.get_cached_patent q' w2)
                 = fst (PatentCache.get_cached_patent q' w)).
Proof.
  intros env q w d w1 w2.
  assert (Hc : cache w = JDict d) by (vm_compute; reflexivity).
  split; [exact Hc |].
  exact (cache_last_write_wins env q (JStr (utf8 "first")) (JStr (utf8 "second"))
           w d Hc).
Defined.

(** Lines 29-40 with 19-27: a [put] that returns without raising is
    durable: loading the cache file afterwards gives exactly the mapping
    held in memory, and a cache object built from the file holds it. *)
Theorem cache_put_is_durable (env : Env) (q : str) (p : json) (w w' : World)
    (d : dict) :
  cache w = JDict d ->
  PatentCache.update_cache env q p w = (Ok tt, w') ->
  PatentCache._load_cache w' = (Ok (cache w'), w')
  /\ PatentCache.__init__ w' = (Ok tt, w')
  /\ PatentCache.get_cached_patent q (snd (PatentCache.__init__ w')) = (Ok p, w').
Proof.
  intros Hc Hrun.
  destruct (update_cache_run env q p w d Hc) as (r & w1 & Hrun1 & Hc1 & _ & _ & Hf).
  rewrite Hrun in Hrun1. inversion Hrun1. subst r w1. clear Hrun1.
  specialize (Hf eq_refl).
  assert (Hload : PatentCache._load_cache w' = (Ok (cache w'), w')).
  { unfold PatentCache._load_cache, PatentCache.cache_file_exists, bind,
      try_except_if, PatentCache.json_load.
    cbv beta iota. rewrite Hf. cbv beta iota. rewrite Hf. reflexivity. }
  assert (Hinit : PatentCache.__init__ w' = (Ok tt, w')).
  { unfold PatentCache.__init__, bind. rewrite Hload.
    unfold put_cache, set_cache. destruct w'. reflexivity. }
  split; [exact Hload |]. split; [exact Hinit |].
  rewrite Hinit. simpl snd.
  eapply get_cached_patent_present;
    [exact Hc1 | apply dict_get_set_same | reflexivity].
Qed.

(** The property on a fresh process with a healthy disk. *)
Lemma cache_put_is_durable_witness :
  let env := OptimizeScenario.env_two in
  let q := utf8 "drone wing" in
  let p := JDict (to_dict SelectScenario.first) in
  let w' := snd (PatentCache.update_cache env q p Fixtures.w0) in
  cache Fixtures.w0 = JDict []
  /\ PatentCache.update_cache env q p Fixtures.w0 = (Ok tt, w')
  /\ PatentCache._load_cache w' = (Ok (cache w'), w')
  /\ PatentCache.__init__ w' = (Ok tt, w')
  /\ PatentCache.get_cached_patent q (snd (PatentCache.__init__ w')) = (Ok p, w').
Proof.
  intros env q p w'.
  assert (Hrun : PatentCache.update_cache env q p Fixtures.w0 = (Ok tt, w'))
    by (vm_compute; reflexivity).
  split; [reflexivity |]. split; [exact Hrun |].
  exact (cache_put_is_durable env q p Fixtures.w0 w' [] eq_refl Hrun).
Defined.

(** Lines 46-49: [clear] empties the cache whatever it held, even a
    value that is no dictionary; every [get] afterwards gives the empty
    record, and when the write goes through the cache file holds the
    empty mapping. *)
Theorem cache_clear_empties (env : Env) (w : World) (q : str) :
  let w' := snd (PatentCache.clear_cache env w) in
  cache w' = JDict []
  /\ PatentCache.get_cached_patent q w' = (Ok (JDict []), w')
  /\ (fst (PatentCache.clear_cache env w) = Ok tt ->
      cache_file w' = FileJson (JDict [])
      /\ PatentCache._load_cache w' = (Ok (JDict []), w')).
Proof.
  intros w'. subst w'.
  unfold PatentCache.clear_cache, PatentCache._save_cache, bind, put_cache.
  cbv beta iota.
  change (tick (set_cache (JDict []) w)) with (tick w).
  change (cache (set_cache (JDict []) w)) with (JDict []).
  destruct (disk env (tick w) (JDict [])) as [| msg residue].
  - simpl. split; [reflexivity |]. split; [reflexivity |].
    intros _. split; reflexivity.
  - simpl. split; [reflexivity |]. split; [reflexivity |].
    intros H. discriminate H.
Qed.

(* ================================================================== *)
(** * Further properties: identifiers and answers *)
(* ================================================================== *)

Lemma normal_form_app (u : unicode_db) (a b : str) :
  normal_form u (a ++ b) = normal_form u a ++ normal_form u b.
Proof.
  unfold normal_form, upper. rewrite filter_app, flat_map_app. reflexivity.
Qed.

Lemma normal_form_no_alnum (u : unicode_db) (s : str) :
  forallb (fun c => negb (isalnum u c)) s = true -> normal_form u s = [].
Proof.
  intros H. unfold normal_form. rewrite (filter_none _ _ H). reflexivity.
Qed.

(** Lines 69-70: characters that are not alphanumeric (spaces, hyphens,
    commas, ...) do not count, wherever they stand: an identifier with a
    run of them inserted has the same normal form. *)
Theorem normalize_ignores_separators (env : Env) (a sep b : str) :
  forallb (fun c => negb (isalnum (ucd env) c)) sep = true ->
  _normalize_patent_number env (a ++ sep ++ b)
  = _normalize_patent_number env (a ++ b).
Proof.
  intros H. rewrite !normalize_is_normal_form, !normal_form_app.
  rewrite (normal_form_no_alnum _ _ H). reflexivity.
Qed.

(** The property for ["JP"], [" - "], ["2020"]. *)
Lemma normalize_ignores_separators_witness :
  let env := Fixtures.env_of Fixtures.ucd_none
               (fun _ _ _ => SerpDict None) (fun _ _ _ => ChatContent None) in
  forallb (fun c => negb (isalnum (ucd env) c)) (utf8 " - ") = true
  /\ _normalize_patent_number env (utf8 "JP" ++ utf8 " - " ++ utf8 "2020")
     = _normalize_patent_number env (utf8 "JP" ++ utf8 "2020").
Proof.
  intros env.
  assert (H : forallb (fun c => negb (isalnum (ucd env) c)) (utf8 " - ") = true)
    by reflexivity.
  split; [exact H |].
  exact (normalize_ignores_separators env (utf8 "JP") (utf8 " - ") (utf8 "2020") H).
Defined.

(** A decimal digit or an upper-case Latin letter. *)
Definition is_digit_or_capital (c : char) : bool :=
  ((48 <=? c) && (c <=? 57) || (65 <=? c) && (c <=? 90))%N.

Lemma ascii_upper_alnum_capital (c : char) :
  ascii_isalnum c = true -> is_digit_or_capital (ascii_upper c) = true.
Proof.
  unfold ascii_isalnum, ascii_upper, is_digit_or_capital.
  destruct ((97 <=? c) && (c <=? 122))%N eqn:E.
  - intros _. apply andb_true_iff in E. destruct E as [E1 E2].
    apply N.leb_le in E1. apply N.leb_le in E2.
    assert (H1 : (65 <=? c - 32)%N = true) by (apply N.leb_le; lia).
    assert (H2 : (c - 32 <=? 90)%N = true) by (apply N.leb_le; lia).
    rewrite H1, H2. apply orb_true_r.
  - rewrite orb_false_r. exact (fun H => H).
Qed.

Lemma ascii_isalnum_upper (c : char) :
  ascii_isalnum (ascii_upper c) = ascii_isalnum c.
Proof.
  destruct (ascii_isalnum c) eqn:Ha.
  - apply ascii_upper_isalnum. exact Ha.
  - unfold ascii_upper.
    destruct ((97 <=? c) && (c <=? 122))%N eqn:E; [| exact Ha].
    unfold ascii_isalnum in Ha. rewrite E in Ha.
    rewrite orb_true_r in Ha. discriminate Ha.
Qed.

(** On ASCII text the normal form is: upper-case every character, keep
    the alphanumeric ones. *)
Lemma normal_form_ascii (u : unicode_db) (x : str) :
  forallb is_ascii x = true ->
  normal_form u x = filter ascii_isalnum (map ascii_upper x).
Proof.
  unfold normal_form, upper, isalnum, upper_char.
  induction x as [| c x IH]; simpl; intros H; [reflexivity |].
  apply andb_true_iff in H. destruct H as [Hc Hx].
  rewrite Hc, ascii_isalnum_upper.
  destruct (ascii_isalnum c); simpl; rewrite ?Hc; simpl; rewrite (IH Hx);
    reflexivity.
Qed.

(** Lines 69-70 on ASCII identifiers: the normal form holds decimal
    digits and upper-case letters only, and is no longer than the
    identifier. *)
Theorem normalize_ascii_alphabet (env : Env) (x : str) :
  forallb is_ascii x = true ->
  forallb is_digit_or_capital (_normalize_patent_number env x) = true
  /\ List.length (_normalize_patent_number env x) <= List.length x.
Proof.
  intros Hx. rewrite normalize_is_normal_form, (normal_form_ascii _ x Hx).
  clear Hx. induction x as [| c x [IH1 IH2]]; simpl; [split; [reflexivity | lia] |].
  rewrite ascii_isalnum_upper.
  destruct (ascii_isalnum c) eqn:Ha; simpl.
  - rewrite (ascii_upper_alnum_capital c Ha), IH1. split; [reflexivity | lia].
  - split; [exact IH1 | lia].
Qed.

(** The property for ["jp-2020/123456 a"]. *)
Lemma normalize_ascii_alphabet_witness :
  let env := Fixtures.env_of Fixtures.ucd_excerpt
               (fun _ _ _ => SerpDict None) (fun _ _ _ => ChatContent None) in
  let x := utf8 "jp-2020/123456 a" in
  forallb is_ascii x = true
  /\ _normalize_patent_number env x = utf8 "JP2020123456A"
  /\ forallb is_digit_or_capital (_normalize_patent_number env x) = true
  /\ List.length (_normalize_patent_number env x) <= List.length x.
Proof.
  intros env x. split; [reflexivity |]. split; [reflexivity |].
  exact (normalize_ascii_alphabet env x eq_refl).
Defined.

(** Lines 69-70 on ASCII identifiers: letter case does not count.  Two
    identifiers that are equal once every letter is upper-cased have the
    same normal form, whatever the Unicode database. *)
Theorem normalize_ascii_ignores_case (env : Env) (x y : str) :
  forallb is_ascii x = true ->
  forallb is_ascii y = true ->
  map ascii_upper x = map ascii_upper y ->
  _normalize_patent_number env x = _normalize_patent_number env y.
Proof.
  intros Hx Hy H. rewrite !normalize_is_normal_form.
  rewrite (normal_form_ascii _ x Hx), (normal_form_ascii _ y Hy), H. reflexivity.
Qed.

(** The property for ["Jp2020a"] and ["jP2020A"]. *)
Lemma normalize_ascii_ignores_case_witness :
  let env := Fixtures.env_of Fixtures.ucd_excerpt
               (fun _ _ _ => SerpDict None) (fun _ _ _ => ChatContent None) in
  forallb is_ascii (utf8 "Jp2020a") = true
  /\ forallb is_ascii (utf8 "jP2020A") = true
  /\ map ascii_upper (utf8 "Jp2020a") = map ascii_upper (utf8 "jP2020A")
  /\ _normalize_patent_number env (utf8 "Jp2020a")
     = _normalize_patent_number env (utf8 "jP2020A").
Proof.
  intros env. split; [reflexivity |]. split; [reflexivity |]. split; [reflexivity |].
  exact (normalize_ascii_ignores_case env (utf8 "Jp2020a") (utf8 "jP2020A")
           eq_refl eq_refl eq_refl).
Defined.

Lemma lstrip_blank (s : str) : forallb isspace s = true -> lstrip s = [].
Proof.
  induction s as [| c s IH]; simpl; [reflexivity |].
  intros H. apply andb_true_iff in H. destruct H as [Hc Hs].
  rewrite Hc. apply IH. exact Hs.
Qed.

Lemma rstrip_last (s : str) :
  rstrip s = [] \/ exists t d, rstrip s = t ++ [d] /\ isspace d = false.
Proof.
  unfold rstrip.
  destruct (lstrip_head (rev s)) as [-> | (d & t & -> & Hd)].
  - left. reflexivity.
  - right. exists (rev t), d. split; [reflexivity | exact Hd].
Qed.

(** A stripped text is empty, or begins and ends with a character that
    is no whitespace. *)
Lemma strip_shape (s : str) :
  strip s = []
  \/ exists c t d, strip s = c :: t /\ isspace c = false
                   /\ last (strip s) c = d /\ isspace d = false.
Proof.
  unfold strip.
  destruct (lstrip_head s) as [-> | (c & t & -> & Hc)]; [left; reflexivity |].
  right. rewrite (rstrip_cons c t Hc).
  exists c, (rstrip t). 
  destruct (rstrip_last t) as [-> | (t' & d & -> & Hd)].
  - exists c. repeat split; assumption.
  - exists d. split; [reflexivity |]. split; [exact Hc |].
    split; [| exact Hd].
    change (c :: t' ++ [d]) with ((c :: t') ++ [d]). apply last_last.
Qed.

(** Lines 262-267: the rewritten query never has whitespace around it:
    it is empty, or begins and ends with a character that is no
    whitespace; and an answer of whitespace only gives the empty
    query. *)
Theorem clean_answer_is_trimmed (content : str) :
  (clean_answer content = []
   \/ exists c t d, clean_answer content = c :: t /\ isspace c = false
                    /\ last (clean_answer content) c = d /\ isspace d = false)
  /\ (forallb isspace content = true -> clean_answer content = []).
Proof.
  split; [apply strip_shape |].
  intros H. unfold clean_answer, strip at 2.
  rewrite (lstrip_blank content H). reflexivity.
Qed.

(* ================================================================== *)
(** * Further properties: the history file name *)
(* ================================================================== *)

Module QueryHistoryFile.

(** [s.replace(' ', '_')] *)
Definition replace_space (s : str) : str :=
  map (fun c => if N.eqb c 32 then 95%N else c) s.

Section WithEnv.
Variable env : Env.

(** The test of the generator of line 61:
    [c.isalnum() or c in (' ', '_')]. *)
Definition keeps (c : char) : bool :=
  isalnum (ucd env) c || (N.eqb c 32 || N.eqb c 95).

(** Lines 61-62 of [save_query_history]. *)
Definition safe_query (query : str) : str :=
  replace_space (strip (filter keeps (slice_to 30 query))).

(** Line 64, for the time stamp of line 59. *)
Definition filename (stamp query : str) : str :=
  utf8 "query_history_" ++ stamp ++ utf8 "_" ++ safe_query query ++ utf8 ".csv".

End WithEnv.

End QueryHistoryFile.

Lemma firstn_incl (n : nat) (s : str) (c : char) : In c (firstn n s) -> In c s.
Proof.
  intros H. rewrite <- (firstn_skipn n s). apply in_or_app. left. exact H.
Qed.

Lemma lstrip_incl (s : str) (c : char) : In c (lstrip s) -> In c s.
Proof.
  induction s as [| d s IH]; simpl; [exact (fun H => H) |].
  destruct (isspace d); [intros H; right; apply IH; exact H | exact (fun H => H)].
Qed.

Lemma lstrip_length (s : str) : List.length (lstrip s) <= List.length s.
Proof.
  induction s as [| d s IH]; simpl; [lia |].
  destruct (isspace d); simpl; lia.
Qed.

Lemma strip_incl (s : str) (c : char) : In c (strip s) -> In c s.
Proof.
  unfold strip, rstrip. intros H.
  apply lstrip_incl. apply in_rev. apply lstrip_incl. apply in_rev in H. exact H.
Qed.

Lemma strip_length (s : str) : List.length (strip s) <= List.length s.
Proof.
  unfold strip, rstrip. rewrite length_rev.
  pose proof (lstrip_length (rev (lstrip s))) as H1.
  rewrite length_rev in H1.
  pose proof (lstrip_length s). lia.
Qed.

(** Lines 61-62: the part of the history file's name taken from the
    query has at most 30 characters, none of them a space, each of them
    alphanumeric or an underscore; on an ASCII query that leaves
    letters, digits and underscores, so no path separator and no dot. *)
Theorem safe_query_is_safe (env : Env) (query : str) :
  List.length (QueryHistoryFile.safe_query env query) <= 30
  /\ (forall c, In c (QueryHistoryFile.safe_query env query) ->
                c <> 32%N /\ (isalnum (ucd env) c = true \/ c = 95%N))
  /\ (forallb is_ascii query = true ->
      forall c, In c (QueryHistoryFile.safe_query env query) ->
                ascii_isalnum c = true \/ c = 95%N).
Proof.
  assert (Hchar : forall c, In c (QueryHistoryFile.safe_query env query) ->
            c <> 32%N
            /\ (isalnum (ucd env) c = true \/ c = 95%N)
            /\ (c = 95%N \/ In c query)).
  { unfold QueryHistoryFile.safe_query, QueryHistoryFile.replace_space.
    intros c Hin. apply in_map_iff in Hin. destruct Hin as (c0 & Hc & Hin).
    apply strip_incl in Hin. apply filter_In in Hin. destruct Hin as [Hin0 Hk].
    unfold slice_to in Hin0. apply firstn_incl in Hin0.
    unfold QueryHistoryFile.keeps in Hk.
    destruct (N.eqb_spec c0 32) as [E | E].
    - subst c. split; [discriminate |]. split; [right | left]; reflexivity.
    - subst c. split; [exact E |].
      split; [| right; exact Hin0].
      apply orb_true_iff in Hk. destruct Hk as [Hk | Hk]; [left; exact Hk |].
      apply orb_true_iff in Hk. destruct Hk as [Hk | Hk].
      + discriminate Hk.
      + apply N.eqb_eq in Hk. right. exact Hk. }
  split; [| split].
  - unfold QueryHistoryFile.safe_query, QueryHistoryFile.replace_space.
    rewrite length_map.
    pose proof (strip_length
                  (filter (QueryHistoryFile.keeps env) (slice_to 30 query))) as H1.
    pose proof (filter_length_le (QueryHistoryFile.keeps env) (slice_to 30 query))
      as H2.
    unfold slice_to in *. pose proof (firstn_le_length 30 query) as H3.
    exact (Nat.le_trans _ _ _ H1 (Nat.le_trans _ _ _ H2 H3)).
  - intros c Hin. destruct (Hchar c Hin) as (H1 & H2 & _). split; assumption.
  - intros Hascii c Hin. destruct (Hchar c Hin) as (_ & H2 & H3).
    destruct H3 as [H3 | H3]; [right; exact H3 |].
    destruct H2 as [H2 | H2]; [| right; exact H2].
    left. unfold isalnum in H2.
    rewrite (all_ascii_In query c Hascii H3) in H2. exact H2.
Qed.

(** A query with a path in it, and a query of punctuation only. *)
Example safe_query_examples :
  let env := Fixtures.env_of Fixtures.ucd_none
               (fun _ _ _ => SerpDict None) (fun _ _ _ => ChatContent None) in
  QueryHistoryFile.safe_query env (utf8 " ../etc/foldable wing_drone (2024) ")
  = utf8 "etcfoldable_wing_drone_2"
  /\ QueryHistoryFile.filename env (utf8 "20240501_100000") (utf8 "?!")
     = utf8 "query_history_20240501_100000_.csv".
Proof. split; reflexivity. Qed.

(* ================================================================== *)
(** * Further properties: the loop as a whole *)
(* ================================================================== *)

(** What the history of a run looks like: rows numbered from 1 without
    a gap, each for a search that found something; and, when
    optimisation is off, each for the one query of the run. *)
Definition history_ok (args : Args) (q0 : str) (h : list IterationRecord) : Prop :=
  map row_iteration h = seq 1 (List.length h)
  /\ Forall (fun r => 0 < row_num_results r) h
  /\ (arg_optimize args = false -> Forall (fun r => row_query r = q0) h).

Section LoopRuns.
Variable env : Env.
Variable args : Args.

(** One iteration never raises; it breaks with the loop state as it
    was, or continues with one more row, for this iteration and the
    query it searched. *)
Lemma loop_body_total (iteration : nat) (st : LoopState) (w : World) :
  exists c st' w',
    loop_body env args iteration st w = (Ok (c, st'), w')
    /\ match c with
       | Break => st' = st
       | Continue =>
           exists row,
             query_history st' = query_history st ++ [row]
             /\ row_iteration row = iteration + 1
             /\ row_query row = current_query st
             /\ 0 < row_num_results row
             /\ (arg_optimize args = false -> current_query st' = current_query st)
       end.
Proof.
  unfold loop_body, bind, emit. cbv beta iota.
  destruct (search_patents_total env (current_query st) (arg_results args)
              (add_log INFO (MsgCurrentQuery (current_query st))
                 (add_log INFO (MsgIteration (iteration + 1) (arg_iterations args)) w)))
    as (df & w1 & Hs).
  rewrite Hs.
  destruct df as [| r df].
  - simpl. unfold ret. eexists Break, _, _. split; reflexivity.
  - change (empty (r :: df)) with false. cbv beta iota.
    destruct (evaluate_total env (current_query st) (r :: df)
                (add_log INFO (MsgFound (List.length (r :: df))) w1))
      as (ev & w2 & He & _).
    rewrite He.
    unfold now_strftime. cbv beta iota.
    destruct (arg_optimize args) eqn:Eo;
      destruct (Z.of_nat iteration <? arg_iterations args - 1)%Z;
      cbv beta iota delta [andb].
    + match goal with
      | |- context [optimize_query env ?a ?b ?c ?d] =>
          destruct (optimize_query_total env a b c d) as (res & w3 & Hopt)
      end.
      rewrite Hopt.
      unfold ret. eexists Continue, _, _. split; [reflexivity |].
      eexists. simpl. split; [reflexivity |].
      split; [reflexivity |]. split; [reflexivity |].
      split; [simpl; lia | discriminate].
    + unfold ret. eexists Continue, _, _. split; [reflexivity |].
      eexists. simpl. split; [reflexivity |].
      split; [reflexivity |]. split; [reflexivity |].
      split; [simpl; lia | discriminate].
    + unfold ret. eexists Continue, _, _. split; [reflexivity |].
      eexists. simpl. split; [reflexivity |].
      split; [reflexivity |]. split; [reflexivity |].
      split; [simpl; lia | reflexivity].
    + unfold ret. eexists Continue, _, _. split; [reflexivity |].
      eexists. simpl. split; [reflexivity |].
      split; [reflexivity |]. split; [reflexivity |].
      split; [simpl; lia | reflexivity].
Qed.

Lemma history_ok_snoc (q0 : str) (h : list IterationRecord) (row : IterationRecord) :
  history_ok args q0 h ->
  row_iteration row = List.length h + 1 ->
  0 < row_num_results row ->
  (arg_optimize args = false -> row_query row = q0) ->
  history_ok args q0 (h ++ [row]).
Proof.
  intros (Hn & Hp & Hq) Hi Hpos Hrow. split; [| split].
  - rewrite map_app, length_app, Hn. simpl.
    rewrite Nat.add_1_r, seq_S. simpl. rewrite Hi, Nat.add_1_r. reflexivity.
  - apply Forall_app. split; [exact Hp | constructor; [exact Hpos | constructor]].
  - intros Ho. apply Forall_app. split; [apply Hq; exact Ho |].
    constructor; [apply Hrow; exact Ho | constructor].
Qed.

(** The invariant of the loop, for the iterations [a], [a + 1], ...
    started with [a] rows. *)
Lemma for_range_invariant (q0 : str) (n : nat) :
  forall (a : nat) (st : LoopState) (w : World),
    List.length (query_history st) = a ->
    history_ok args q0 (query_history st) ->
    (arg_optimize args = false -> current_query st = q0) ->
    exists st' w',
      for_range env args (seq a n) st w = (Ok st', w')
      /\ history_ok args q0 (query_history st')
      /\ List.length (query_history st') <= a + n.
Proof.
  induction n as [| n IH]; intros a st w Hlen Hok Hq.
  - exists st, w. split; [reflexivity |]. split; [exact Hok | lia].
  - simpl. unfold bind.
    destruct (loop_body_total a st w) as (c & st1 & w1 & Hb & Hc).
    rewrite Hb. destruct c.
    + destruct Hc as (row & Hh & Hi & Hrq & Hpos & Hcq).
      assert (Hok1 : history_ok args q0 (query_history st1)).
      { rewrite Hh. apply history_ok_snoc; [exact Hok | | exact Hpos |].
        - rewrite Hi, Hlen. reflexivity.
        - intros Ho. rewrite Hrq. apply Hq. exact Ho. }
      assert (Hlen1 : List.length (query_history st1) = S a)
        by (rewrite Hh, length_app, Hlen; simpl; lia).
      destruct (IH (S a) st1 w1 Hlen1 Hok1) as (st' & w' & Hrun & Hok' & Hle).
      * intros Ho. rewrite (Hcq Ho). apply Hq. exact Ho.
      * exists st', w'. split; [exact Hrun |]. split; [exact Hok' | lia].
    + subst st1. exists st, w1. split; [reflexivity |].
      split; [exact Hok | lia].
Qed.

End LoopRuns.

(** Lines 97-142: the loop never raises, whatever the collaborators do.
    It ends with at most as many rows as iterations were configured,
    numbered 1, 2, ... without a gap, and every row reports at least one
    result (an empty search adds no row). *)
Theorem search_loop_history_numbered (env : Env) (args : Args) (w : World) :
  exists st' w',
    for_range env args (range (arg_iterations args)) (initial_state args) w
    = (Ok st', w')
    /\ map row_iteration (query_history st') = seq 1 (List.length (query_history st'))
    /\ List.length (query_history st') <= Z.to_nat (arg_iterations args)
    /\ Forall (fun r => 0 < row_num_results r) (query_history st').
Proof.
  destruct (for_range_invariant env args (arg_query args)
              (Z.to_nat (arg_iterations args)) 0 (initial_state args) w)
    as (st' & w' & Hrun & (Hn & Hp & _) & Hle).
  - reflexivity.
  - split; [reflexivity | split; [constructor | intros _; constructor]].
  - intros _. reflexivity.
  - exists st', w'. split; [exact Hrun |]. split; [exact Hn |].
    split; [simpl in Hle; exact Hle | exact Hp].
Qed.

(** Line 130: without [--optimize] the query never changes: every row
    of the history is for the query given on the command line, and so
    is the query the loop ends with. *)
Theorem search_loop_keeps_query_without_optimize (env : Env) (args : Args)
    (w : World) :
  arg_optimize args = false ->
  exists st' w',
    for_range env args (range (arg_iterations args)) (initial_state args) w
    = (Ok st', w')
    /\ Forall (fun r => row_query r = arg_query args) (query_history st').
Proof.
  intros Ho.
  destruct (for_range_invariant env args (arg_query args)
              (Z.to_nat (arg_iterations args)) 0 (initial_state args) w)
    as (st' & w' & Hrun & (_ & _ & Hq) & _).
  - reflexivity.
  - split; [reflexivity | split; [constructor | intros _; constructor]].
  - intros _. reflexivity.
  - exists st', w'. split; [exact Hrun | exact (Hq Ho)].
Qed.

(** Three iterations without optimisation, with a model that would
    rewrite the query if asked. *)
Lemma search_loop_keeps_query_without_optimize_witness :
  let env := LoopScenario.env in
  let args := {| arg_query := LoopScenario.q; arg_optimize := false;
                 arg_results := 100; arg_debug := false; arg_iterations := 3;
                 arg_show_cache := false |} in
  arg_optimize args = false
  /\ exists st' w',
      for_range env args (range (arg_iterations args)) (initial_state args)
        Fixtures.w0 = (Ok st', w')
      /\ Forall (fun r => row_query r = arg_query args) (query_history st').
Proof.
  intros env args. split; [reflexivity |].
  exact (search_loop_keeps_query_without_optimize env args Fixtures.w0 eq_refl).
Defined.

(** The command line with optimisation switched off. *)
Definition without_optimize (args : Args) : Args :=
  {| arg_query := arg_query args; arg_optimize := false;
     arg_results := arg_results args; arg_debug := arg_debug args;
     arg_iterations := arg_iterations args; arg_show_cache := arg_show_cache args |}.

(** Line 130: the last configured iteration never optimises.  From
    iteration [N] on (counting from 1), an iteration runs exactly as it
    would without [--optimize]; with one iteration configured the flag
    changes nothing at all. *)
Theorem last_iteration_never_optimizes (env : Env) (args : Args) (iteration : nat)
    (st : LoopState) (w : World) :
  (arg_iterations args - 1 <= Z.of_nat iteration)%Z ->
  loop_body env args iteration st w
  = loop_body env (without_optimize args) iteration st w.
Proof.
  intros H. unfold loop_body, without_optimize. simpl.
  assert (E : (Z.of_nat iteration <? arg_iterations args - 1)%Z = false)
    by (apply Z.ltb_ge; exact H).
  rewrite E, andb_false_r. reflexivity.
Qed.

(** One iteration with [--optimize]: the run is the run without it, and
    the model is asked twice (selection, evaluation), never for a
    rewrite. *)
Lemma last_iteration_never_optimizes_witness :
  let env := OptimizeScenario.env_two in
  let args := {| arg_query := LoopScenario.q; arg_optimize := true;
                 arg_results := 100; arg_debug := false; arg_iterations := 1;
                 arg_show_cache := false |} in
  (arg_iterations args - 1 <= Z.of_nat 0)%Z
  /\ List.length (calls (snd (loop_body env args 0 (initial_state args) Fixtures.w0)))
     = 3
  /\ loop_body env args 0 (initial_state args) Fixtures.w0
     = loop_body env (without_optimize args) 0 (initial_state args) Fixtures.w0.
Proof.
  intros env args.
  assert (H : (arg_iterations args - 1 <= Z.of_nat 0)%Z) by (simpl; lia).
  split; [exact H |]. split; [vm_compute; reflexivity |].
  exact (last_iteration_never_optimizes env args 0 (initial_state args)
           Fixtures.w0 H).
Defined.

(* ================================================================== *)
(** * Further properties: the requests of an optimisation *)
(* ================================================================== *)

Section RequestFacts.
Variable env : Env.

Lemma update_cache_calls (q : str) (p : json) (w : World) :
  calls (snd (PatentCache.update_cache env q p w)) = calls w.
Proof.
  unfold PatentCache.update_cache, PatentCache._save_cache, bind, now_isoformat,
    get_cache, put_cache, py_setitem, ret, raise.
  cbv beta iota.
  change (cache (set_tick (S (tick w)) w)) with (cache w).
  destruct (cache w); try reflexivity.
  cbv beta iota.
  match goal with
  | |- context [disk env ?t ?c] => destruct (disk env t c)
  end; reflexivity.
Qed.

(** Every search begins with its request to the provider. *)
Lemma search_patents_first_call (q : str) (num : Z) (w : World) :
  exists tail,
    calls (snd (search_patents env q num w)) = calls w ++ SerpCall q num :: tail.
Proof.
  unfold search_patents, try_except, bind, call_serp.
  fold (asked (SerpCall q num) w).
  destruct (serp env (tick w) q num) as [e | [[| r0 organic] |]];
    try (exists []; reflexivity).
  change (map patent_data_of (r0 :: organic))
    with (patent_data_of r0 :: map patent_data_of organic).
  change (negb (empty (patent_data_of r0 :: map patent_data_of organic))) with true.
  cbv beta iota.
  destruct (select_frame env q (patent_data_of r0) (map patent_data_of organic)
              (asked (SerpCall q num) w))
    as (sd & w1 & Hsel & Hsd & _ & _ & Hcalls1 & _).
  rewrite Hsel. destruct sd as [| item sd]; [contradiction |].
  change (truthy (JDict (item :: sd))) with true. cbv beta iota.
  pose proof (update_cache_calls q (JDict (item :: sd)) w1) as Hup.
  destruct (PatentCache.update_cache env q (JDict (item :: sd)) w1)
    as [[[] | e] w2]; simpl in Hup.
  - unfold emit, py_get, ret. cbv beta iota. simpl.
    rewrite Hup, Hcalls1. simpl. rewrite <- app_assoc. eexists. reflexivity.
  - unfold emit, ret. simpl.
    rewrite Hup, Hcalls1. simpl. rewrite <- app_assoc. eexists. reflexivity.
Qed.

Lemma evaluate_calls_extend (q : str) (df : DataFrame) (w : World) :
  exists tail, calls (snd (evaluate_search_results env q df w)) = calls w ++ tail.
Proof.
  destruct df as [| r df].
  - exists []. simpl. rewrite app_nil_r. reflexivity.
  - eexists. apply evaluate_nonempty_calls_once.
Qed.

End RequestFacts.

(** Line 212: every optimisation begins with a live search for the
    query it was given, asking the provider for 100 results, whatever
    result cap the caller searches with. *)
Theorem optimize_searches_first (env : Env) (q : str) (pq : list str)
    (pe : list (option str)) (w : World) :
  exists tail,
    calls (snd (optimize_query env q pq pe w)) = calls w ++ SerpCall q 100 :: tail.
Proof.
  destruct (search_patents_first_call env q 100 w) as [t1 H1].
  assert (Hprep : exists t, calls (snd (prepare_rewrite env q pq pe w))
                            = calls w ++ SerpCall q 100 :: t).
  { unfold prepare_rewrite, bind.
    destruct (search_patents env q 100 w) as [[results | e] w1];
      simpl in H1; [| exists t1; exact H1].
    destruct (evaluate_calls_extend env q results w1) as [t2 H2].
    destruct (evaluate_search_results env q results w1) as [[ev | e] w2];
      simpl in H2.
    - destruct (optimize_user_message_pure q (List.length results) ev pq pe w2)
        as [[um | e] ->]; simpl;
        (exists (t1 ++ t2); rewrite H2, H1, <- app_assoc; reflexivity).
    - simpl. exists (t1 ++ t2). rewrite H2, H1, <- app_assoc. reflexivity. }
  destruct Hprep as [t Ht].
  rewrite optimize_query_run. unfold optimize_failed.
  destruct (prepare_rewrite env q pq pe w) as [[[[results ev] um] | e] w3];
    simpl in Ht.
  - cbv zeta.
    destruct (chat env (tick w3) OPTIMIZE_SYSTEM_PROMPT um) as [e | [content |]];
      simpl; rewrite Ht; rewrite <- app_assoc; eexists; reflexivity.
  - simpl. exists t. exact Ht.
Qed.
